(** * Angbe / Big ComBoy: the Game Boy PPU (Src/Cores/GB/PPU.cpp)

    A shallow embedding of [GB::PPU] and the properties of its mode state
    machine, OAM scanner and scanline compositor.

    Conventions of the embedding.
    - Machine integers are [Z]; every narrowing store writes its wrap-around
      out ([u8], [u16], [u32], [i8], [size_t]).
    - The fixed-size [std::array]s are lists.  An index outside the array is
      undefined behaviour in the source; here such a read gives 0 and such a
      write changes nothing, and the theorems about the arrays carry the
      bounds under which the source is defined.
    - [bus.request_interrupt] is the only outbound call of [step]; every
      function that can reach it returns the requests it made, in order,
      next to the new state. *)

From Stdlib Require Import ZArith List Bool Lia Permutation Sorted.
From stdpp Require Import base tactics list numbers.
Import ListNotations.
Local Open Scope Z_scope.

(** ** Machine integers *)

Definition u8 (z : Z) : Z := z mod 256.
Definition u16 (z : Z) : Z := z mod 65536.
Definition u32 (z : Z) : Z := z mod 4294967296.
Definition size_t (z : Z) : Z := z mod 18446744073709551616.
(** [(int8_t) v] *)
Definition i8 (z : Z) : Z := if u8 z <? 128 then u8 z else u8 z - 256.

(** [reg & flags] used as a condition. *)
Definition test (reg flags : Z) : bool := negb (Z.land reg flags =? 0).

(** [a[i]] and [a[i] = v] on an array held as a list. *)
Definition rd (a : list Z) (i : Z) : Z := default 0 (a !! Z.to_nat i).
Definition wr (a : list Z) (i v : Z) : list Z := <[Z.to_nat i := v]> a.

(** ** Declarations of PPU.hpp and Bus.hpp *)

(** Modelled from the spec: PPU.hpp is not among the sources.  The screen is
    160 by 144 pixels of 4 bytes each (spec, section 3). *)
Definition LCD_WIDTH : Z := 160.
Definition LCD_HEIGHT : Z := 144.
Definition COLOR_DEPTH : Z := 4.

(** Modelled from the spec: the four modes, in the numeric encoding that
    [stat_any] compares [mode] with (0 HBlank, 1 VBlank, 2 OAMSearch) and that
    [step] stores in the low two status bits. *)
Inductive PPUState : Type := HBlank | VBlank | OAMSearch | DrawScanline.

Definition mode_code (m : PPUState) : Z :=
  match m with HBlank => 0 | VBlank => 1 | OAMSearch => 2 | DrawScanline => 3 end.

Global Instance PPUState_eq_dec : EqDecision PPUState.
Proof. solve_decision. Defined.

(** Modelled from the spec: the bits of the control register (LCDC), as laid
    out on the hardware the spec describes. *)
Module LCDControlFlags.
Definition BGEnable : Z := 1.
Definition SpriteEnable : Z := 2.
Definition SpriteSize : Z := 4.
Definition BGTileMap : Z := 8.
Definition BGWindowTileData : Z := 16.
Definition WindowEnable : Z := 32.
Definition WindowTileMap : Z := 64.
Definition DisplayEnable : Z := 128.
End LCDControlFlags.

(** Modelled from the spec: the bits of the status register (STAT): the two
    mode bits, the LY=LYC compare flag and the four interrupt enables. *)
Definition ModeFlag : Z := 3.
Definition LYCandLYCompareType : Z := 4.
Definition EnableHBlankInt : Z := 8.
Definition EnableVBlankInt : Z := 16.
Definition EnableOAMInt : Z := 32.
Definition EnableLYCandLYInt : Z := 64.

(** Modelled from the spec: the attribute bits of an OAM entry. *)
Module ObjectAttributeFlags.
Definition Palette : Z := 16.
Definition FlipX : Z := 32.
Definition FlipY : Z := 64.
Definition Priority : Z := 128.
End ObjectAttributeFlags.

(** Modelled from the spec: the debug-only render-layer mask. *)
Module DisplayRenderFlags.
Definition Background : Z := 1.
Definition Window : Z := 2.
Definition Objects : Z := 4.
End DisplayRenderFlags.

(** Modelled from the spec: the two interrupt sources [step] requests from
    the bus (Bus.hpp is not among the sources). *)
Inductive Interrupt : Type := INT_VBLANK_BIT | INT_LCD_STAT_BIT.

Global Instance Interrupt_eq_dec : EqDecision Interrupt.
Proof. solve_decision. Defined.

(** Modelled from the spec: an OAM entry, four bytes in the order y, x, tile,
    attributes. *)
Module Object.
Record t : Type := mk { y : Z; x : Z; tile : Z; attributes : Z }.
Definition zero : t := mk 0 0 0 0.
Definition set_tile (v : Z) (o : t) : t := mk (y o) (x o) v (attributes o).
End Object.

(** Modelled from the spec: an output colour, [std::array<uint8_t, 4>]. *)
Record Color : Type := mkColor { c0 : Z; c1 : Z; c2 : Z; c3 : Z }.

(** Modelled from the spec: the members of [class PPU].  Registers are bytes,
    the cycle accumulator is a [uint32_t], the arrays have the sizes of
    section 3 of the spec (see [sized]). *)
Record PPU : Type := mkPPU {
  window_draw_flag : bool;
  previously_disabled : bool;
  num_obj_on_scanline : Z;
  cycles : Z;
  window_line_y : Z;
  render_flags : Z;
  status : Z;
  lcd_control : Z;
  background_palette : Z;
  object_palette_0 : Z;
  object_palette_1 : Z;
  screen_scroll_y : Z;
  screen_scroll_x : Z;
  window_y : Z;
  window_x : Z;
  line_y : Z;
  line_y_compare : Z;
  mode : PPUState;
  vram : list Z;
  oam : list Z;
  framebuffer : list Z;
  framebuffer_complete : list Z;
  bg_color_table : list Z;
  objects_on_scanline : list Object.t
}.

(** *** Assignments to one member *)

Definition set_window_draw_flag (v : bool) (s : PPU) : PPU :=
  mkPPU v (previously_disabled s) (num_obj_on_scanline s) (cycles s)
    (window_line_y s) (render_flags s) (status s) (lcd_control s)
    (background_palette s) (object_palette_0 s) (object_palette_1 s)
    (screen_scroll_y s) (screen_scroll_x s) (window_y s) (window_x s)
    (line_y s) (line_y_compare s) (mode s) (vram s) (oam s) (framebuffer s)
    (framebuffer_complete s) (bg_color_table s) (objects_on_scanline s).

Definition set_previously_disabled (v : bool) (s : PPU) : PPU :=
  mkPPU (window_draw_flag s) v (num_obj_on_scanline s) (cycles s)
    (window_line_y s) (render_flags s) (status s) (lcd_control s)
    (background_palette s) (object_palette_0 s) (object_palette_1 s)
    (screen_scroll_y s) (screen_scroll_x s) (window_y s) (window_x s)
    (line_y s) (line_y_compare s) (mode s) (vram s) (oam s) (framebuffer s)
    (framebuffer_complete s) (bg_color_table s) (objects_on_scanline s).

Definition set_num_obj_on_scanline (v : Z) (s : PPU) : PPU :=
  mkPPU (window_draw_flag s) (previously_disabled s) v (cycles s)
    (window_line_y s) (render_flags s) (status s) (lcd_control s)
    (background_palette s) (object_palette_0 s) (object_palette_1 s)
    (screen_scroll_y s) (screen_scroll_x s) (window_y s) (window_x s)
    (line_y s) (line_y_compare s) (mode s) (vram s) (oam s) (framebuffer s)
    (framebuffer_complete s) (bg_color_table s) (objects_on_scanline s).

Definition set_cycles (v : Z) (s : PPU) : PPU :=
  mkPPU (window_draw_flag s) (previously_disabled s) (num_obj_on_scanline s) v
    (window_line_y s) (render_flags s) (status s) (lcd_control s)
    (background_palette s) (object_palette_0 s) (object_palette_1 s)
    (screen_scroll_y s) (screen_scroll_x s) (window_y s) (window_x s)
    (line_y s) (line_y_compare s) (mode s) (vram s) (oam s) (framebuffer s)
    (framebuffer_complete s) (bg_color_table s) (objects_on_scanline s).

Definition set_window_line_y (v : Z) (s : PPU) : PPU :=
  mkPPU (window_draw_flag s) (previously_disabled s) (num_obj_on_scanline s)
    (cycles s) v (render_flags s) (status s) (lcd_control s)
    (background_palette s) (object_palette_0 s) (object_palette_1 s)
    (screen_scroll_y s) (screen_scroll_x s) (window_y s) (window_x s)
    (line_y s) (line_y_compare s) (mode s) (vram s) (oam s) (framebuffer s)
    (framebuffer_complete s) (bg_color_table s) (objects_on_scanline s).

Definition set_status (v : Z) (s : PPU) : PPU :=
  mkPPU (window_draw_flag s) (previously_disabled s) (num_obj_on_scanline s)
    (cycles s) (window_line_y s) (render_flags s) v (lcd_control s)
    (background_palette s) (object_palette_0 s) (object_palette_1 s)
    (screen_scroll_y s) (screen_scroll_x s) (window_y s) (window_x s)
    (line_y s) (line_y_compare s) (mode s) (vram s) (oam s) (framebuffer s)
    (framebuffer_complete s) (bg_color_table s) (objects_on_scanline s).

Definition set_line_y (v : Z) (s : PPU) : PPU :=
  mkPPU (window_draw_flag s) (previously_disabled s) (num_obj_on_scanline s)
    (cycles s) (window_line_y s) (render_flags s) (status s) (lcd_control s)
    (background_palette s) (object_palette_0 s) (object_palette_1 s)
    (screen_scroll_y s) (screen_scroll_x s) (window_y s) (window_x s)
    v (line_y_compare s) (mode s) (vram s) (oam s) (framebuffer s)
    (framebuffer_complete s) (bg_color_table s) (objects_on_scanline s).

Definition set_mode (v : PPUState) (s : PPU) : PPU :=
  mkPPU (window_draw_flag s) (previously_disabled s) (num_obj_on_scanline s)
    (cycles s) (window_line_y s) (render_flags s) (status s) (lcd_control s)
    (background_palette s) (object_palette_0 s) (object_palette_1 s)
    (screen_scroll_y s) (screen_scroll_x s) (window_y s) (window_x s)
    (line_y s) (line_y_compare s) v (vram s) (oam s) (framebuffer s)
    (framebuffer_complete s) (bg_color_table s) (objects_on_scanline s).

Definition set_framebuffer (v : list Z) (s : PPU) : PPU :=
  mkPPU (window_draw_flag s) (previously_disabled s) (num_obj_on_scanline s)
    (cycles s) (window_line_y s) (render_flags s) (status s) (lcd_control s)
    (background_palette s) (object_palette_0 s) (object_palette_1 s)
    (screen_scroll_y s) (screen_scroll_x s) (window_y s) (window_x s)
    (line_y s) (line_y_compare s) (mode s) (vram s) (oam s) v
    (framebuffer_complete s) (bg_color_table s) (objects_on_scanline s).

Definition set_framebuffer_complete (v : list Z) (s : PPU) : PPU :=
  mkPPU (window_draw_flag s) (previously_disabled s) (num_obj_on_scanline s)
    (cycles s) (window_line_y s) (render_flags s) (status s) (lcd_control s)
    (background_palette s) (object_palette_0 s) (object_palette_1 s)
    (screen_scroll_y s) (screen_scroll_x s) (window_y s) (window_x s)
    (line_y s) (line_y_compare s) (mode s) (vram s) (oam s) (framebuffer s)
    v (bg_color_table s) (objects_on_scanline s).

Definition set_bg_color_table (v : list Z) (s : PPU) : PPU :=
  mkPPU (window_draw_flag s) (previously_disabled s) (num_obj_on_scanline s)
    (cycles s) (window_line_y s) (render_flags s) (status s) (lcd_control s)
    (background_palette s) (object_palette_0 s) (object_palette_1 s)
    (screen_scroll_y s) (screen_scroll_x s) (window_y s) (window_x s)
    (line_y s) (line_y_compare s) (mode s) (vram s) (oam s) (framebuffer s)
    (framebuffer_complete s) v (objects_on_scanline s).

Definition set_objects_on_scanline (v : list Object.t) (s : PPU) : PPU :=
  mkPPU (window_draw_flag s) (previously_disabled s) (num_obj_on_scanline s)
    (cycles s) (window_line_y s) (render_flags s) (status s) (lcd_control s)
    (background_palette s) (object_palette_0 s) (object_palette_1 s)
    (screen_scroll_y s) (screen_scroll_x s) (window_y s) (window_x s)
    (line_y s) (line_y_compare s) (mode s) (vram s) (oam s) (framebuffer s)
    (framebuffer_complete s) (bg_color_table s) v.

Definition set_lcd_control (v : Z) (s : PPU) : PPU :=
  mkPPU (window_draw_flag s) (previously_disabled s) (num_obj_on_scanline s)
    (cycles s) (window_line_y s) (render_flags s) (status s) v
    (background_palette s) (object_palette_0 s) (object_palette_1 s)
    (screen_scroll_y s) (screen_scroll_x s) (window_y s) (window_x s)
    (line_y s) (line_y_compare s) (mode s) (vram s) (oam s) (framebuffer s)
    (framebuffer_complete s) (bg_color_table s) (objects_on_scanline s).

Definition set_background_palette (v : Z) (s : PPU) : PPU :=
  mkPPU (window_draw_flag s) (previously_disabled s) (num_obj_on_scanline s)
    (cycles s) (window_line_y s) (render_flags s) (status s) (lcd_control s)
    v (object_palette_0 s) (object_palette_1 s)
    (screen_scroll_y s) (screen_scroll_x s) (window_y s) (window_x s)
    (line_y s) (line_y_compare s) (mode s) (vram s) (oam s) (framebuffer s)
    (framebuffer_complete s) (bg_color_table s) (objects_on_scanline s).

Definition set_object_palette_0 (v : Z) (s : PPU) : PPU :=
  mkPPU (window_draw_flag s) (previously_disabled s) (num_obj_on_scanline s)
    (cycles s) (window_line_y s) (render_flags s) (status s) (lcd_control s)
    (background_palette s) v (object_palette_1 s)
    (screen_scroll_y s) (screen_scroll_x s) (window_y s) (window_x s)
    (line_y s) (line_y_compare s) (mode s) (vram s) (oam s) (framebuffer s)
    (framebuffer_complete s) (bg_color_table s) (objects_on_scanline s).

Definition set_vram (v : list Z) (s : PPU) : PPU :=
  mkPPU (window_draw_flag s) (previously_disabled s) (num_obj_on_scanline s)
    (cycles s) (window_line_y s) (render_flags s) (status s) (lcd_control s)
    (background_palette s) (object_palette_0 s) (object_palette_1 s)
    (screen_scroll_y s) (screen_scroll_x s) (window_y s) (window_x s)
    (line_y s) (line_y_compare s) (mode s) v (oam s) (framebuffer s)
    (framebuffer_complete s) (bg_color_table s) (objects_on_scanline s).

Definition set_oam (v : list Z) (s : PPU) : PPU :=
  mkPPU (window_draw_flag s) (previously_disabled s) (num_obj_on_scanline s)
    (cycles s) (window_line_y s) (render_flags s) (status s) (lcd_control s)
    (background_palette s) (object_palette_0 s) (object_palette_1 s)
    (screen_scroll_y s) (screen_scroll_x s) (window_y s) (window_x s)
    (line_y s) (line_y_compare s) (mode s) (vram s) v (framebuffer s)
    (framebuffer_complete s) (bg_color_table s) (objects_on_scanline s).

(** The array sizes fixed by the member declarations. *)
Definition sized (s : PPU) : Prop :=
  Z.of_nat (length (vram s)) = 8192 /\
  Z.of_nat (length (oam s)) = 160 /\
  Z.of_nat (length (framebuffer s)) = LCD_WIDTH * LCD_HEIGHT * COLOR_DEPTH /\
  Z.of_nat (length (framebuffer_complete s)) =
    LCD_WIDTH * LCD_HEIGHT * COLOR_DEPTH /\
  Z.of_nat (length (bg_color_table s)) = LCD_WIDTH * LCD_HEIGHT /\
  Z.of_nat (length (objects_on_scanline s)) = 10.

(** ** PPU::reset *)

Definition reset (hard_reset : bool) (s : PPU) : PPU :=
  let s :=
    if hard_reset then
      mkPPU (window_draw_flag s) (previously_disabled s)
        (num_obj_on_scanline s) (cycles s) (window_line_y s) (render_flags s)
        0 0 0 0 0 0 0 0 0 (line_y s) 0 HBlank
        (replicate (length (vram s)) 0) (replicate (length (oam s)) 0)
        (replicate (length (framebuffer s)) 0)
        (replicate (length (framebuffer_complete s)) 0)
        (replicate (length (bg_color_table s)) 0)
        (replicate (length (objects_on_scanline s)) Object.zero)
    else s in
  let s := set_window_draw_flag false s in
  let s := set_num_obj_on_scanline 0 s in
  let s := set_cycles 0 s in
  let s := set_line_y 0 s in
  set_window_line_y 0 s.

(** ** PPU::set_post_boot_state *)

Definition set_post_boot_state (s : PPU) : PPU :=
  let s := set_window_draw_flag true s in
  let s := set_previously_disabled false s in
  let s := set_cycles 420 s in
  let s := set_status 1 s in
  mkPPU (window_draw_flag s) (previously_disabled s) (num_obj_on_scanline s)
    (cycles s) (window_line_y s) (render_flags s) (status s) 0x91
    (background_palette s) (object_palette_0 s) (object_palette_1 s)
    (screen_scroll_y s) (screen_scroll_x s) (window_y s) (window_x s)
    (line_y s) (line_y_compare s) (mode s) (vram s) (oam s) (framebuffer s)
    (framebuffer_complete s) (bg_color_table s) (objects_on_scanline s).

(** ** PPU::write_vram, PPU::write_oam, PPU::read_vram, PPU::read_oam,
       PPU::instant_dma *)

Definition write_vram (address value : Z) (s : PPU) : PPU :=
  set_vram (wr (vram s) address value) s.

Definition write_oam (address value : Z) (s : PPU) : PPU :=
  set_oam (wr (oam s) address value) s.

Definition read_vram (address : Z) (s : PPU) : Z := rd (vram s) address.

Definition read_oam (address : Z) (s : PPU) : Z := rd (oam s) address.

(** [bus_read] stands for [bus.read], the system memory behind the bus. *)
Definition instant_dma (bus_read : Z -> Z) (address : Z) (s : PPU) : PPU :=
  let addr := u16 (Z.shiftl address 8) in
  fold_left (fun s i => set_oam (wr (oam s) i (bus_read (addr + i))) s)
    (seqZ 0 160) s.

(** ** PPU::check_stat, PPU::set_stat, PPU::stat_any *)

Definition check_stat (flags : Z) (s : PPU) : bool := test (status s) flags.

Definition set_stat (flags : Z) (value : bool) (s : PPU) : PPU :=
  if value then set_status (u8 (Z.lor (status s) flags)) s
  else set_status (u8 (Z.land (status s) (Z.lnot flags))) s.

Definition stat_any (s : PPU) : bool :=
  if check_stat EnableLYCandLYInt s && check_stat LYCandLYCompareType s then true
  else if check_stat EnableOAMInt s && (mode_code (mode s) =? 2) then true
  else if check_stat EnableVBlankInt s && (mode_code (mode s) =? 1) then true
  else if check_stat EnableHBlankInt s && (mode_code (mode s) =? 0) then true
  else false.

(** ** PPU::check_ly_lyc *)

Definition check_ly_lyc (allow_interrupts : bool) (s : PPU)
  : PPU * list Interrupt :=
  let s := set_stat LYCandLYCompareType false s in
  if line_y s =? line_y_compare s then
    let s := set_stat LYCandLYCompareType true s in
    if check_stat EnableLYCandLYInt s && allow_interrupts
    then (s, [INT_LCD_STAT_BIT])
    else (s, [])
  else (s, []).

(** ** The scanline compositor and the OAM scanner *)

(** The two bit planes of a tile row and the colour index of one column:
    [(high_bit << 1) | low_bit]. *)
Definition plane_pixel (s : PPU) (tile_index bit : Z) : Z :=
  let low_byte := rd (vram s) tile_index in
  let high_byte := rd (vram s) (tile_index + 1) in
  let low_bit := Z.land (Z.shiftr low_byte bit) 0x01 in
  let high_bit := Z.land (Z.shiftr high_byte bit) 0x01 in
  u8 (Z.lor (Z.shiftl high_bit 1) low_bit).

(** The tile-data address of a row of tile [tile_id]: signed from 0x9000 in
    the 0x8800 bank, unsigned from 0x8000 otherwise; stored in a [uint16_t]. *)
Definition tile_row_index (tile_data_address tile_id y_offset : Z) : Z :=
  if tile_data_address =? 0x8800
  then u16 (Z.land (tile_data_address + 0x800) 0x1FFF + i8 tile_id * 16 +
            Z.land y_offset 7 * 2)
  else u16 (Z.land tile_data_address 0x1FFF + tile_id * 16 +
            Z.land y_offset 7 * 2).

(** [vram[(tile_map_address & 0x1FFF) + ((x_offset / 8) & 31) +
          (((y_offset / 8) & 31) * 32)]] *)
Definition tile_map_entry (s : PPU) (tile_map_address x_offset y_offset : Z) : Z :=
  rd (vram s) (Z.land tile_map_address 0x1FFF + Z.land (x_offset / 8) 31 +
               Z.land (y_offset / 8) 31 * 32).

(** [std::copy(color.begin(), color.end(), fb_pixel.begin())] with
    [fb_pixel] the four bytes at [&framebuffer[base]]. *)
Definition copy_color (c : Color) (base : Z) (fb : list Z) : list Z :=
  wr (wr (wr (wr fb base (c0 c)) (base + 1) (c1 c)) (base + 2) (c2 c))
     (base + 3) (c3 c).

(** The colour of pixel [p] of a framebuffer, [p] counting pixels from the
    top left along the lines. *)
Definition pixel_at (fb : list Z) (p : Z) : Color :=
  mkColor (rd fb (p * COLOR_DEPTH)) (rd fb (p * COLOR_DEPTH + 1))
          (rd fb (p * COLOR_DEPTH + 2)) (rd fb (p * COLOR_DEPTH + 3)).

Section Compositor.

(** The palette of output colours, [color_table] of PPU.hpp, which is not
    among the sources: the four shades, indexed by 0..3. *)
Variable color_table : Z -> Color.

(** *** PPU::render_bg_layer *)

Definition bg_pixel_step (tile_map_address tile_data_address : Z)
    (i : Z) (s : PPU) : PPU :=
  let x_offset := u8 (screen_scroll_x s + i) in
  let y_offset := u8 (screen_scroll_y s + line_y s) in
  let tile_id := tile_map_entry s tile_map_address x_offset y_offset in
  let tile_index := tile_row_index tile_data_address tile_id y_offset in
  let bit := u8 (7 - Z.land x_offset 7) in
  let pixel := plane_pixel s tile_index bit in
  let framebuffer_line_x := i in
  let framebuffer_line_y := line_y s * LCD_WIDTH in
  let color := color_table (Z.land (Z.shiftr (background_palette s) (2 * pixel)) 3) in
  let '(color, s) :=
    if negb (test (lcd_control s) LCDControlFlags.BGEnable) ||
       negb (test (render_flags s) DisplayRenderFlags.Background)
    then (color_table (Z.land (background_palette s) 3),
          set_bg_color_table (wr (bg_color_table s) (framebuffer_line_y + i) 0) s)
    else (color,
          set_bg_color_table (wr (bg_color_table s) (framebuffer_line_y + i) pixel) s) in
  set_framebuffer
    (copy_color color ((framebuffer_line_y + framebuffer_line_x) * COLOR_DEPTH)
       (framebuffer s)) s.

Definition render_bg_layer (s : PPU) : PPU :=
  let tile_map_address :=
    if test (lcd_control s) LCDControlFlags.BGTileMap then 0x9c00 else 0x9800 in
  let tile_data_address :=
    if test (lcd_control s) LCDControlFlags.BGWindowTileData then 0x8000 else 0x8800 in
  fold_left (fun s i => bg_pixel_step tile_map_address tile_data_address i s)
    (seqZ 0 160) s.

(** *** PPU::render_window_layer *)

(** One turn of the loop over [i]; the second component is [advance_by]. *)
Definition window_pixel_step (tile_map_address tile_data_address : Z)
    (i : Z) (sa : PPU * Z) : PPU * Z :=
  let '(s, advance_by) := sa in
  if (window_y s <=? line_y s) && (window_x s - 7 <=? i) then
    let x_offset := u8 (i - (window_x s - 7)) in
    let y_offset := window_line_y s in
    let tile_id := tile_map_entry s tile_map_address x_offset y_offset in
    let tile_index := tile_row_index tile_data_address tile_id y_offset in
    let bit := u8 (7 - Z.land x_offset 7) in
    let pixel := plane_pixel s tile_index bit in
    let framebuffer_line_x := i in
    let framebuffer_line_y := line_y s * LCD_WIDTH in
    let s := set_bg_color_table
               (wr (bg_color_table s) (framebuffer_line_y + framebuffer_line_x) pixel) s in
    let color := color_table (Z.land (Z.shiftr (background_palette s) (2 * pixel)) 3) in
    (set_framebuffer
       (copy_color color ((framebuffer_line_y + framebuffer_line_x) * COLOR_DEPTH)
          (framebuffer s)) s, 1)
  else (s, advance_by).

Definition render_window_layer (s : PPU) : PPU :=
  let tile_map_address :=
    if test (lcd_control s) LCDControlFlags.WindowTileMap then 0x9c00 else 0x9800 in
  let tile_data_address :=
    if test (lcd_control s) LCDControlFlags.BGWindowTileData then 0x8000 else 0x8800 in
  let '(s, advance_by) :=
    if test (lcd_control s) LCDControlFlags.WindowEnable && window_draw_flag s &&
       test (render_flags s) DisplayRenderFlags.Window
    then fold_left
           (fun sa i => window_pixel_step tile_map_address tile_data_address i sa)
           (seqZ 0 LCD_WIDTH) (s, 0)
    else (s, 0) in
  set_window_line_y (u8 (window_line_y s + advance_by)) s.

(** *** PPU::scan_oam *)

(** [*reinterpret_cast<const Object *>(&oam[i * 4])] *)
Definition oam_entry (s : PPU) (i : Z) : Object.t :=
  Object.mk (rd (oam s) (i * 4)) (rd (oam s) (i * 4 + 1))
            (rd (oam s) (i * 4 + 2)) (rd (oam s) (i * 4 + 3)).

Definition sprite_height (s : PPU) : Z :=
  if test (lcd_control s) LCDControlFlags.SpriteSize then 16 else 8.

(** The test of line 365 on an entry. *)
Definition on_line (height line : Z) (sprite : Object.t) : bool :=
  let corrected_y_position := Object.y sprite - 16 in
  (corrected_y_position <=? line) && (line <? corrected_y_position + height).

(** One turn of the loop over [i]: the state is the array, [total] and
    [num_obj_on_scanline]; after [total == 10] every turn breaks. *)
Definition scan_step (s : PPU) (height : Z) (i : Z)
    (acc : list Object.t * Z * Z) : list Object.t * Z * Z :=
  let '(objs, total, num) := acc in
  if total =? 10 then acc
  else
    let sprite := oam_entry s i in
    if on_line height (line_y s) sprite
    then (<[Z.to_nat total := sprite]> objs, total + 1, u8 (num + 1))
    else acc.

(** [std::stable_sort] with the comparison [left.x < right.x]: the stable
    sort of a sequence is unique, here computed by insertion from the
    right. *)
Fixpoint insert_by_x (o : Object.t) (l : list Object.t) : list Object.t :=
  match l with
  | [] => [o]
  | p :: l' =>
      if Object.x p <? Object.x o then p :: insert_by_x o l' else o :: p :: l'
  end.

Definition stable_sort (l : list Object.t) : list Object.t :=
  fold_right insert_by_x [] l.

Definition scan_oam (s : PPU) : PPU :=
  let height := sprite_height s in
  let s := set_num_obj_on_scanline 0 s in
  let s := set_objects_on_scanline
             (replicate (length (objects_on_scanline s)) Object.zero) s in
  let '(objs, _, num) :=
    fold_left (fun acc i => scan_step s height i acc) (seqZ 0 40)
      (objects_on_scanline s, 0, num_obj_on_scanline s) in
  let n := Z.to_nat num in
  set_objects_on_scanline (stable_sort (take n objs) ++ drop n objs)
    (set_num_obj_on_scanline num s).

(** *** PPU::render_sprite_layer *)

(** One turn of the loop over [x] (lines 409-456) for the sprite [object]. *)
Definition sprite_pixel_step (object : Object.t) (palette tile_index adjusted_x : Z)
    (x : Z) (s : PPU) : PPU :=
  let framebuffer_line_y := line_y s * LCD_WIDTH in
  let framebuffer_line_x := size_t (adjusted_x + x) in
  if (0 <=? framebuffer_line_x) && (framebuffer_line_x <? 160) then
    let bit :=
      if test (Object.attributes object) ObjectAttributeFlags.FlipX
      then u8 (Z.land x 7) else u8 (7 - Z.land x 7) in
    let pixel := plane_pixel s tile_index bit in
    if pixel =? 0 then s
    else if negb (test (Object.attributes object) ObjectAttributeFlags.Priority) then
      let color := color_table (Z.land (Z.shiftr palette (2 * pixel)) 3) in
      set_framebuffer
        (copy_color color ((framebuffer_line_y + framebuffer_line_x) * COLOR_DEPTH)
           (framebuffer s)) s
    else if rd (bg_color_table s) (framebuffer_line_y + framebuffer_line_x) =? 0 then
      let color := color_table (Z.land (Z.shiftr palette (2 * pixel)) 3) in
      set_framebuffer
        (copy_color color ((framebuffer_line_y + framebuffer_line_x) * COLOR_DEPTH)
           (framebuffer s)) s
    else s
  else s.

(** The loop over [x] (lines 409-456): the eight pixels of one sprite row. *)
Definition sprite_row (object : Object.t) (palette tile_index adjusted_x : Z)
    (s : PPU) : PPU :=
  fold_left (fun s x => sprite_pixel_step object palette tile_index adjusted_x x s)
    (seqZ 0 8) s.

(** One turn of the loop over [i] (lines 385-457): [object] is a reference
    into [objects_on_scanline], so the masking of its tile number is kept in
    the array. *)
Definition sprite_step (height : Z) (i : Z) (s : PPU) : PPU :=
  let k := Z.to_nat ((num_obj_on_scanline s - 1) - i) in
  let object := default Object.zero (objects_on_scanline s !! k) in
  let palette :=
    if test (Object.attributes object) ObjectAttributeFlags.Palette
    then object_palette_1 s else object_palette_0 s in
  let object :=
    if height =? 16
    then Object.set_tile (u8 (Z.land (Object.tile object) (Z.lnot 1))) object
    else object in
  let s := set_objects_on_scanline (<[k := object]> (objects_on_scanline s)) s in
  let obj_y := Object.y object - 16 in
  let tile_index :=
    if test (Object.attributes object) ObjectAttributeFlags.FlipY
    then u16 (Z.land 0x8000 0x1FFF + Object.tile object * 16 +
              (height - (line_y s - obj_y) - 1) * 2)
    else u16 (Z.land 0x8000 0x1FFF + Object.tile object * 16 +
              Z.rem (line_y s - obj_y) height * 2) in
  let adjusted_x := Object.x object - 8 in
  sprite_row object palette tile_index adjusted_x s.

Definition render_sprite_layer (s : PPU) : PPU :=
  let height := sprite_height s in
  if test (lcd_control s) LCDControlFlags.SpriteEnable &&
     test (render_flags s) DisplayRenderFlags.Objects
  then fold_left (fun s i => sprite_step height i s)
         (seqZ 0 (num_obj_on_scanline s)) s
  else s.

(** *** PPU::render_scanline *)

Definition render_scanline (s : PPU) : PPU :=
  let s := render_bg_layer s in
  let s := if test (render_flags s) DisplayRenderFlags.Window
           then render_window_layer s else s in
  if test (render_flags s) DisplayRenderFlags.Objects
  then render_sprite_layer s else s.

(** ** PPU::step *)

(** Line 73 and line 174: [status |= mode & 0x03]. *)
Definition or_mode_bits (s : PPU) : PPU :=
  set_status (u8 (Z.lor (status s) (Z.land (mode_code (mode s)) 0x03))) s.

(** Lines 78-82: the soft reset pending since the display was off. *)
Definition wake (s : PPU) : PPU :=
  if previously_disabled s
  then set_previously_disabled false (reset false s)
  else s.

(** Lines 87-166: the [switch] over [mode]. *)
Definition dispatch (allow_interrupt : bool) (s : PPU) : PPU * list Interrupt :=
  match mode s with
  | HBlank =>
      if 204 <=? cycles s then
        let s := set_cycles (cycles s - 204) s in
        let s := set_line_y (u8 (line_y s + 1)) s in
        if line_y s =? 144 then
          let s := set_mode VBlank s in
          (s, INT_VBLANK_BIT ::
              (if check_stat EnableVBlankInt s && allow_interrupt
               then [INT_LCD_STAT_BIT] else []))
        else
          let s := set_mode OAMSearch s in
          (s, if check_stat EnableOAMInt s && allow_interrupt
              then [INT_LCD_STAT_BIT] else [])
      else (s, [])
  | VBlank =>
      if 456 <=? cycles s then
        let s := set_line_y (u8 (line_y s + 1)) s in
        let s := set_cycles (cycles s - 456) s in
        if 153 <? line_y s then
          let s := set_framebuffer_complete (framebuffer s) s in
          let s := set_mode OAMSearch s in
          let irq := if check_stat EnableOAMInt s && allow_interrupt
                     then [INT_LCD_STAT_BIT] else [] in
          let s := set_line_y 0 s in
          let s := set_window_line_y 0 s in
          let s := set_window_draw_flag false s in
          (s, irq)
        else (s, [])
      else (s, [])
  | OAMSearch =>
      if 80 <=? cycles s then
        let s := scan_oam s in
        let s := set_cycles (cycles s - 80) s in
        (set_mode DrawScanline s, [])
      else (s, [])
  | DrawScanline =>
      if 172 <=? cycles s then
        let s := set_cycles (cycles s - 172) s in
        let s := set_mode HBlank s in
        let irq := if check_stat EnableHBlankInt s && allow_interrupt
                   then [INT_LCD_STAT_BIT] else [] in
        (render_scanline s, irq)
      else (s, [])
  end.

(** Lines 168-174: the comparator, the window latch and the mode bits. *)
Definition finish (allow_interrupt : bool) (s : PPU) : PPU * list Interrupt :=
  let '(s, irq) := check_ly_lyc allow_interrupt s in
  let s := if window_y s =? line_y s then set_window_draw_flag true s else s in
  let s := set_stat ModeFlag false s in
  (or_mode_bits s, irq).

Definition step (accumulated_cycles : Z) (s : PPU) : PPU * list Interrupt :=
  if negb (test (lcd_control s) LCDControlFlags.DisplayEnable) then
    let s := set_mode HBlank s in
    let s := set_stat ModeFlag false s in
    let s := or_mode_bits s in
    (set_previously_disabled true s, [])
  else
    let s := wake s in
    let s := set_cycles (u32 (cycles s + accumulated_cycles)) s in
    let allow_interrupt := negb (stat_any s) in
    let '(s, irq1) := dispatch allow_interrupt s in
    let '(s, irq2) := finish allow_interrupt s in
    (s, irq1 ++ irq2).

End Compositor.

(** ** What each routine leaves alone *)

(** The memories and the configuration registers. *)
Definition config (s : PPU) :=
  (vram s, oam s, lcd_control s, (screen_scroll_x s, screen_scroll_y s),
   (window_x s, window_y s),
   (background_palette s, object_palette_0 s, object_palette_1 s),
   line_y_compare s, render_flags s).

(** The members of the mode state machine that the compositor and the
    scanner only read. *)
Definition machine (s : PPU) :=
  (mode s, cycles s, line_y s, status s, window_draw_flag s,
   previously_disabled s, framebuffer_complete s).

(** Both together: what [scan_oam] and [render_scanline] never write. *)
Definition kept (s : PPU) := (config s, machine s).

(** ** The notions the properties are stated with *)

(** The background layer is off: by the control register or by the
    render-layer mask (line 279). *)
Definition bg_disabled (s : PPU) : bool :=
  negb (test (lcd_control s) LCDControlFlags.BGEnable) ||
  negb (test (render_flags s) DisplayRenderFlags.Background).

(** The bit of the tile row that sprite pixel [x] shows (lines 417-420). *)
Definition sprite_bit (object : Object.t) (x : Z) : Z :=
  if test (Object.attributes object) ObjectAttributeFlags.FlipX
  then u8 (Z.land x 7) else u8 (7 - Z.land x 7).

(** The rule of the sprite pass in the words of the spec: colour index 0 is
    transparent; otherwise a sprite without the priority attribute is drawn,
    and one with it is drawn only over shadow index 0.  [under] is the pixel
    already in the framebuffer. *)
Definition sprite_rule (pixel : Z) (priority : bool) (shadow : Z)
    (sprite_color under : Color) : Color :=
  if pixel =? 0 then under
  else if negb priority then sprite_color
  else if shadow =? 0 then sprite_color
  else under.

(** The order and the classes of the sort of [scan_oam]. *)
Definition le_x (a b : Object.t) : Prop := Object.x a <= Object.x b.

Definition has_x (v : Z) (o : Object.t) : bool := Object.x o =? v.

(** The OAM entries in index order, those on the current line, and the ten
    the hardware keeps. *)
Definition oam_entries (s : PPU) : list Object.t :=
  map (oam_entry s) (seqZ 0 40).

Definition eligible (s : PPU) : list Object.t :=
  List.filter (on_line (sprite_height s) (line_y s)) (oam_entries s).

Definition selected (s : PPU) : list Object.t := take 10 (eligible s).

(** ** Runs of the mode state machine *)

(** The cycle count at which the [switch] in [step] leaves each mode. *)
Definition budget (m : PPUState) : Z :=
  match m with
  | HBlank => 204 | VBlank => 456 | OAMSearch => 80 | DrawScanline => 172
  end.

Definition display_on (s : PPU) : bool :=
  test (lcd_control s) LCDControlFlags.DisplayEnable.

(** Where the machine is in the 154-line frame: visible lines are scanned in
    the three drawing modes, lines 144 to 153 in VBlank; no soft reset is
    pending. *)
Definition in_frame (s : PPU) : Prop :=
  previously_disabled s = false /\
  match mode s with
  | VBlank => 144 <= line_y s <= 153
  | _ => 0 <= line_y s <= 143
  end.

(** The moves of (mode, line) that one call may make. *)
Inductive successor : PPUState * Z -> PPUState * Z -> Prop :=
  | succ_stay m l : successor (m, l) (m, l)
  | succ_scan l : successor (OAMSearch, l) (DrawScanline, l)
  | succ_draw l : successor (DrawScanline, l) (HBlank, l)
  | succ_next_line l : 0 <= l <= 142 -> successor (HBlank, l) (OAMSearch, l + 1)
  | succ_enter_vblank : successor (HBlank, 143) (VBlank, 144)
  | succ_vblank_line l : 144 <= l <= 152 -> successor (VBlank, l) (VBlank, l + 1)
  | succ_wrap : successor (VBlank, 153) (OAMSearch, 0).

(** The members of the state machine after the [switch], and what it
    requested. *)
Definition dispatch_machine (s : PPU) :=
  let c := cycles s in
  let l := u8 (line_y s + 1) in
  match mode s with
  | HBlank =>
      if 204 <=? c
      then (if l =? 144 then VBlank else OAMSearch, c - 204, l, status s,
            window_draw_flag s, previously_disabled s, framebuffer_complete s)
      else machine s
  | VBlank =>
      if 456 <=? c
      then if 153 <? l
           then (OAMSearch, c - 456, 0, status s, false,
                 previously_disabled s, framebuffer s)
           else (VBlank, c - 456, l, status s, window_draw_flag s,
                 previously_disabled s, framebuffer_complete s)
      else machine s
  | OAMSearch =>
      if 80 <=? c
      then (DrawScanline, c - 80, line_y s, status s, window_draw_flag s,
            previously_disabled s, framebuffer_complete s)
      else machine s
  | DrawScanline =>
      if 172 <=? c
      then (HBlank, c - 172, line_y s, status s, window_draw_flag s,
            previously_disabled s, framebuffer_complete s)
      else machine s
  end.

Definition stat_if (flag : Z) (allow : bool) (s : PPU) : list Interrupt :=
  if check_stat flag s && allow then [INT_LCD_STAT_BIT] else [].

Definition dispatch_requests (allow : bool) (s : PPU) : list Interrupt :=
  let c := cycles s in
  let l := u8 (line_y s + 1) in
  match mode s with
  | HBlank =>
      if 204 <=? c
      then if l =? 144 then INT_VBLANK_BIT :: stat_if EnableVBlankInt allow s
           else stat_if EnableOAMInt allow s
      else []
  | VBlank =>
      if (456 <=? c) && (153 <? l) then stat_if EnableOAMInt allow s else []
  | OAMSearch => []
  | DrawScanline => if 172 <=? c then stat_if EnableHBlankInt allow s else []
  end.

(** The status register and the requests after lines 168-174. *)
Definition finish_status (s : PPU) : Z :=
  let st1 := u8 (Z.land (status s) (Z.lnot LYCandLYCompareType)) in
  let st2 := if line_y s =? line_y_compare s
             then u8 (Z.lor st1 LYCandLYCompareType) else st1 in
  u8 (Z.lor (u8 (Z.land st2 (Z.lnot ModeFlag))) (Z.land (mode_code (mode s)) 0x03)).

Definition finish_requests (allow : bool) (s : PPU) : list Interrupt :=
  if (line_y s =? line_y_compare s) && check_stat EnableLYCandLYInt s && allow
  then [INT_LCD_STAT_BIT] else [].

Section Runs.
Variable color_table : Z -> Color.

(** A sequence of calls [step n1; step n2; ...]: after each call, the state
    it left and the requests it made. *)
Fixpoint trace (ns : list Z) (s : PPU) : list (PPU * list Interrupt) :=
  match ns with
  | [] => []
  | n :: ns' =>
      let r := step color_table n s in r :: trace ns' (fst r)
  end.

End Runs.

(** The state a run ends in and everything it requested. *)
Definition final (s : PPU) (tr : list (PPU * list Interrupt)) : PPU :=
  last (map fst tr) s.

Definition requests (tr : list (PPU * list Interrupt)) : list Interrupt :=
  concat (map snd tr).

(** [N] calls of one cycle each: the state they end in and all their
    requests. *)
Definition ticks (color_table : Z -> Color) (N : nat) (s : PPU)
  : PPU * list Interrupt :=
  let tr := trace color_table (repeat 1 N) s in (final s tr, requests tr).

(** Every call of a run relates the state before it, the state after it and
    its requests by [R]. *)
Fixpoint chained (R : PPU -> PPU -> list Interrupt -> Prop) (s : PPU)
    (tr : list (PPU * list Interrupt)) : Prop :=
  match tr with
  | [] => True
  | r :: tr' => R s (fst r) (snd r) /\ chained R (fst r) tr'
  end.

Definition vblank_requests (l : list Interrupt) : nat :=
  count_occ Interrupt_eq_dec l INT_VBLANK_BIT.

Definition stat_requests (l : list Interrupt) : nat :=
  count_occ Interrupt_eq_dec l INT_LCD_STAT_BIT.

(** A call that ends a frame: it leaves VBlank for OAMSearch. *)
Definition wraps (s s' : PPU) : bool :=
  bool_decide (mode s = VBlank) && bool_decide (mode s' = OAMSearch).

Fixpoint wraparounds (s : PPU) (tr : list (PPU * list Interrupt)) : nat :=
  match tr with
  | [] => 0
  | r :: tr' => ((if wraps s (fst r) then 1 else 0) + wraparounds (fst r) tr')%nat
  end.

Definition in_vblank (s : PPU) : nat :=
  if bool_decide (mode s = VBlank) then 1%nat else 0%nat.

(** A call that ends the visible lines: it leaves HBlank for VBlank. *)
Definition enters_vblank (s s' : PPU) : bool :=
  bool_decide (mode s = HBlank) && bool_decide (mode s' = VBlank).

(** A state as a call with the display on leaves it: no soft reset pending,
    the accumulator not negative, the status register a byte whose mode bits
    and LY=LYC flag are up to date, the window latch set if the line is the
    window's. *)
Definition settled (s : PPU) : Prop :=
  previously_disabled s = false /\
  0 <= cycles s /\
  0 <= status s < 256 /\
  Z.land (status s) 3 = mode_code (mode s) /\
  check_stat LYCandLYCompareType s = (line_y s =? line_y_compare s) /\
  (window_y s = line_y s -> window_draw_flag s = true).

(** ** Concrete states *)

(** The members after [reset(true)], with every layer in the render mask. *)
Definition power_on : PPU :=
  mkPPU false false 0 0 0 7 0 0 0 0 0 0 0 0 0 0 0 HBlank
    (replicate (Z.to_nat 8192) 0) (replicate (Z.to_nat 160) 0)
    (replicate (Z.to_nat 92160) 0) (replicate (Z.to_nat 92160) 0)
    (replicate (Z.to_nat 23040) 0) (replicate (Z.to_nat 10) Object.zero).

(** Four grey shades, lightest first: a palette for the examples. *)
Definition shades (i : Z) : Color :=
  let v := 255 - 85 * i in mkColor v v v 255.

(** The state in which emulation starts when the boot ROM is skipped. *)
Definition post_boot : PPU := set_post_boot_state power_on.

(** The same state with the HBlank source of the STAT interrupt enabled: the
    machine is in HBlank, so an enabled source is asserted. *)
Definition hblank_armed : PPU := set_status EnableHBlankInt post_boot.

(** The machine two cycles before the end of the OAM search of line 1, as a
    call leaves it. *)
Definition mid_line : PPU :=
  set_status 2 (set_mode OAMSearch (set_line_y 1 (set_cycles 78 post_boot))).

(** One OAM entry written through [write_oam]. *)
Definition put_sprite (slot : Z) (o : Object.t) (s : PPU) : PPU :=
  write_oam (slot * 4 + 3) (Object.attributes o)
    (write_oam (slot * 4 + 2) (Object.tile o)
       (write_oam (slot * 4 + 1) (Object.x o)
          (write_oam (slot * 4) (Object.y o) s))).

(** Twelve sprites on line 0, the odd slots at X = 8 and the even slots at
    X = 40; the tile number records the slot. *)
Definition crowded_line : PPU :=
  fold_left
    (fun s i => put_sprite i (Object.mk 16 (if Z.odd i then 8 else 40) i 0) s)
    (seqZ 0 12) post_boot.

(** Tile 0 with colour index 3 in every pixel, behind an all-zero tile map,
    and the background palette that maps every index to shade 3. *)
Definition solid_background : PPU :=
  set_background_palette 255
    (fold_left (fun s a => write_vram a 255 s) (seqZ 0 16) post_boot).

(** A sprite in OAM slot 0 at Y = 20, X = 8, tile 1, with the priority
    attribute: its row 0 is on screen row 4.  Row 0 of tile 1 and row 4 of
    tile 0, the tile of the whole background, have colour index 1 in every
    pixel; the background palette is the identity, object palette 0 maps
    index 1 to shade 3.  [control] chooses whether the background is on. *)
Definition sprite_over_background (control : Z) : PPU :=
  set_lcd_control control
    (set_line_y 4
       (set_background_palette 228
          (set_object_palette_0 12
             (put_sprite 0 (Object.mk 20 8 1 128)
                (write_vram 16 255 (write_vram 8 255 post_boot)))))).

(** ** Further notions: memory, the frame clock, the render passes *)

(** The position of the machine in the frame, in cycles since the start of
    the OAM search of line 0: a line is 456 cycles long, 80 of OAM search,
    172 of drawing, 204 of HBlank, and a frame has 154 lines. *)
Definition line_offset (m : PPUState) : Z :=
  match m with
  | OAMSearch => 0 | DrawScanline => 80 | HBlank => 252 | VBlank => 0
  end.

Definition frame_cycles : Z := 154 * 456.

Definition dot (s : PPU) : Z := line_y s * 456 + line_offset (mode s) + cycles s.

(** The accumulator is below the budget of the mode: no transition is due. *)
Definition timely (s : PPU) : Prop := 0 <= cycles s < budget (mode s).

(** The window pass is attempted (line 304), and it draws at least one pixel
    of the current line (line 309 holds for some column below 160). *)
Definition window_on (s : PPU) : bool :=
  test (lcd_control s) LCDControlFlags.WindowEnable && window_draw_flag s &&
  test (render_flags s) DisplayRenderFlags.Window.

Definition window_visible (s : PPU) : bool :=
  window_on s && (window_y s <=? line_y s) && (window_x s - 7 <=? 159).

(** [s'] differs from [s] on the screen only inside the current line: the
    pixels and the shadow entries of the other lines are the same. *)
Definition off_line_kept (s s' : PPU) : Prop :=
  line_y s' = line_y s /\
  forall q, 0 <= q ->
    q < line_y s * LCD_WIDTH \/ line_y s * LCD_WIDTH + LCD_WIDTH <= q ->
    pixel_at (framebuffer s') q = pixel_at (framebuffer s) q /\
    rd (bg_color_table s') q = rd (bg_color_table s) q.

(** Column [i] of the current line shows the background-palette colour of
    the index recorded for it in the shadow table, an index from 0 to 3. *)
Definition shadow_matches (color_table : Z -> Color) (s : PPU) (i : Z) : Prop :=
  let p := line_y s * LCD_WIDTH + i in
  0 <= rd (bg_color_table s) p <= 3 /\
  pixel_at (framebuffer s) p =
    color_table (Z.land (Z.shiftr (background_palette s)
                           (2 * rd (bg_color_table s) p)) 3).

(** One background or window pixel written: column [i] of the current line
    gets index [v] in the shadow table and its colour in the framebuffer
    (lines 283-293 and 335-342). *)
Definition paints (color_table : Z -> Color) (i : Z) (s s' : PPU) : Prop :=
  exists v, 0 <= v <= 3 /\
    s' = set_framebuffer
           (copy_color
              (color_table (Z.land (Z.shiftr (background_palette s) (2 * v)) 3))
              ((line_y s * LCD_WIDTH + i) * COLOR_DEPTH) (framebuffer s))
           (set_bg_color_table
              (wr (bg_color_table s) (line_y s * LCD_WIDTH + i) v) s).

(** The tile number of a sprite of height 16 after line 395. *)
Definition even_tile (o : Object.t) : Object.t :=
  Object.set_tile (u8 (Z.land (Object.tile o) (Z.lnot 1))) o.

(** The sprite pass is attempted (line 380). *)
Definition sprites_on (s : PPU) : bool :=
  test (lcd_control s) LCDControlFlags.SpriteEnable &&
  test (render_flags s) DisplayRenderFlags.Objects.

(** [s'] is [s] with pixels of the current line drawn over: the shadow
    table, the sprite count, the window line counter and the pixels of the
    other lines are the same. *)
Definition overlaid (s s' : PPU) : Prop :=
  kept s' = kept s /\
  bg_color_table s' = bg_color_table s /\
  num_obj_on_scanline s' = num_obj_on_scanline s /\
  window_line_y s' = window_line_y s /\
  length (framebuffer s') = length (framebuffer s) /\
  forall q, 0 <= q ->
    q < line_y s * LCD_WIDTH \/ line_y s * LCD_WIDTH + LCD_WIDTH <= q ->
    pixel_at (framebuffer s') q = pixel_at (framebuffer s) q.

(** The sprite of [sprite_over_background] in 8x16 mode, after the scan of
    its line: the control register has the display, both layers and the tall
    sprites on. *)
Definition tall_sprite : PPU := scan_oam (sprite_over_background 0x97).

(** The VRAM index of the tile-map entry read at lines 256-257 and 313-314. *)
Definition tile_map_index (tile_map_address x_offset y_offset : Z) : Z :=
  Z.land tile_map_address 0x1FFF + Z.land (x_offset / 8) 31 +
  Z.land (y_offset / 8) 31 * 32.

(** The VRAM index of the sprite row read for [object] on line [line]
    (lines 398-404), [object] being the entry after line 395. *)
Definition sprite_tile_index (height line : Z) (object : Object.t) : Z :=
  let obj_y := Object.y object - 16 in
  if test (Object.attributes object) ObjectAttributeFlags.FlipY
  then u16 (Z.land 0x8000 0x1FFF + Object.tile object * 16 +
            (height - (line - obj_y) - 1) * 2)
  else u16 (Z.land 0x8000 0x1FFF + Object.tile object * 16 +
            Z.rem (line - obj_y) height * 2).

(** ** Further notions: counting over a run, the turns of the sprite pass *)

(** The frame position at which VBlank starts, the end of the HBlank of
    line 143. *)
Definition vblank_dot : Z := 144 * 456.

(** How often a clock that runs from position [from] to position [to],
    counted without wrapping, passes the start of VBlank: the number of
    positions [vblank_dot + k * frame_cycles] in the interval (from, to]. *)
Definition crossings (from to : Z) : Z :=
  (to - vblank_dot) / frame_cycles - (from - vblank_dot) / frame_cycles.

(** The machine four cycles before the end of the HBlank of line 143, the
    last visible line. *)
Definition last_hblank : PPU := set_line_y 143 (set_cycles 200 post_boot).

(** The machine six cycles before the end of line 153, the last line of the
    frame, with a working framebuffer that differs from the completed one in
    its first byte. *)
Definition frame_end : PPU :=
  set_framebuffer (wr (framebuffer post_boot) 0 255)
    (set_mode VBlank (set_line_y 153 (set_cycles 450 post_boot))).

(** The sprite pass before turn [i] of the loop of line 385: the state after
    its first [i] turns. *)
Definition sprite_pass_upto (color_table : Z -> Color) (s : PPU) (i : Z) : PPU :=
  fold_left (fun t j => sprite_step color_table (sprite_height s) j t)
    (seqZ 0 i) s.

(** The sprite that turn [i] draws: entry [num_obj_on_scanline - 1 - i] of
    the list, with its tile number made even when sprites are 16 lines tall
    (lines 387-395). *)
Definition sprite_of_turn (s : PPU) (i : Z) : Object.t :=
  let o := default Object.zero
             (objects_on_scanline s !! Z.to_nat (num_obj_on_scanline s - 1 - i)) in
  if sprite_height s =? 16 then even_tile o else o.

(** The palette a sprite is drawn with (lines 389-391). *)
Definition sprite_palette (s : PPU) (o : Object.t) : Z :=
  if test (Object.attributes o) ObjectAttributeFlags.Palette
  then object_palette_1 s else object_palette_0 s.

(** What the pass shows of pixel [x] of the sprite of turn [i]: its colour
    index, the priority attribute, the shadow index under it, the colour of
    the sprite pixel, and the framebuffer pixel under it before and after the
    turn. *)
Definition sprite_pixel_view (color_table : Z -> Color) (s : PPU) (i x : Z)
  : Z * bool * Z * Color * Color * Color :=
  let o := sprite_of_turn s i in
  let a := sprite_pass_upto color_table s i in
  let b := sprite_pass_upto color_table s (i + 1) in
  let index := sprite_tile_index (sprite_height s) (line_y s) o in
  let pixel := plane_pixel s index (sprite_bit o x) in
  let prio := test (Object.attributes o) ObjectAttributeFlags.Priority in
  let p := line_y s * LCD_WIDTH + (Object.x o - 8 + x) in
  let shadow := rd (bg_color_table s) p in
  let color :=
    color_table (Z.land (Z.shiftr (sprite_palette s o) (2 * pixel)) 3) in
  (pixel, prio, shadow, color,
   pixel_at (framebuffer a) p, pixel_at (framebuffer b) p).

(** The sprite of [sprite_over_background] with the given attributes and
    with a row of which the left four pixels have colour index 1 and the
    right four index 0. *)
Definition half_sprite (control attributes : Z) : PPU :=
  write_oam 3 attributes (write_vram 16 240 (sprite_over_background control)).

(** Its line after the scan: with the background off and nothing drawn yet,
    the sprite having the priority attribute; and with the background on,
    after the background pass has put index 1 in every column, the sprite
    with and without the priority attribute. *)
Definition sprite_line_bare : PPU := scan_oam (half_sprite 146 128).

Definition sprite_line_painted (color_table : Z -> Color) : PPU :=
  render_bg_layer color_table (scan_oam (half_sprite 147 128)).

Definition sprite_line_front (color_table : Z -> Color) : PPU :=
  render_bg_layer color_table (scan_oam (half_sprite 147 0)).

(** * Properties *)

(** ** What the scanner and the compositor leave alone *)

Lemma kept_config a b : kept a = kept b -> config a = config b.
Proof. unfold kept. congruence. Qed.

Lemma kept_machine a b : kept a = kept b -> machine a = machine b.
Proof. unfold kept. congruence. Qed.

Lemma fold_left_keeps {S I K : Type} (g : S -> K) (f : S -> I -> S) (l : list I) :
  (forall s i, g (f s i) = g s) -> forall s, g (fold_left f l s) = g s.
Proof.
  intros Hf. induction l as [|i l IH]; intros s; [reflexivity|].
  cbn [fold_left]. rewrite IH. apply Hf.
Qed.

Section Frames.
Variable color_table : Z -> Color.

Lemma bg_pixel_step_kept tm td i s :
  kept (bg_pixel_step color_table tm td i s) = kept s.
Proof.
  unfold bg_pixel_step.
  destruct (negb (test (lcd_control s) LCDControlFlags.BGEnable)
            || negb (test (render_flags s) DisplayRenderFlags.Background));
    reflexivity.
Qed.

Lemma render_bg_layer_kept s : kept (render_bg_layer color_table s) = kept s.
Proof.
  unfold render_bg_layer. apply fold_left_keeps.
  intros. apply bg_pixel_step_kept.
Qed.

Lemma window_pixel_step_kept tm td i sa :
  kept (fst (window_pixel_step color_table tm td i sa)) = kept (fst sa).
Proof.
  unfold window_pixel_step. destruct sa as [s a].
  destruct ((window_y s <=? line_y s) && (window_x s - 7 <=? i)); reflexivity.
Qed.

Lemma render_window_layer_kept s :
  kept (render_window_layer color_table s) = kept s.
Proof.
  unfold render_window_layer.
  destruct (test (lcd_control s) LCDControlFlags.WindowEnable && window_draw_flag s
            && test (render_flags s) DisplayRenderFlags.Window); [|reflexivity].
  match goal with |- context [fold_left ?f ?l ?a] =>
    pose proof (fold_left_keeps (fun sa => kept (fst sa)) f l
                  (fun sa i => window_pixel_step_kept _ _ i sa) a) as H;
    destruct (fold_left f l a) as [s' a']
  end.
  exact H.
Qed.

Lemma sprite_pixel_step_kept o pal ti ax x s :
  kept (sprite_pixel_step color_table o pal ti ax x s) = kept s.
Proof.
  unfold sprite_pixel_step.
  repeat match goal with |- context [if ?c then _ else _] => destruct c end;
    reflexivity.
Qed.

Lemma sprite_step_kept h i s : kept (sprite_step color_table h i s) = kept s.
Proof.
  unfold sprite_step, sprite_row. cbv zeta. rewrite fold_left_keeps; [reflexivity|].
  intros. apply sprite_pixel_step_kept.
Qed.

Lemma render_sprite_layer_kept s :
  kept (render_sprite_layer color_table s) = kept s.
Proof.
  unfold render_sprite_layer.
  destruct (test (lcd_control s) LCDControlFlags.SpriteEnable
            && test (render_flags s) DisplayRenderFlags.Objects); [|reflexivity].
  apply fold_left_keeps. intros. apply sprite_step_kept.
Qed.

Lemma render_scanline_kept s : kept (render_scanline color_table s) = kept s.
Proof.
  unfold render_scanline. cbv zeta.
  repeat match goal with |- context [if ?c then _ else _] => destruct c end;
    rewrite ?render_sprite_layer_kept, ?render_window_layer_kept;
    apply render_bg_layer_kept.
Qed.

Lemma scan_oam_kept s : kept (scan_oam s) = kept s.
Proof.
  unfold scan_oam. cbv zeta.
  match goal with |- context [fold_left ?f ?l ?a] =>
    destruct (fold_left f l a) as [[objs t] num] end.
  reflexivity.
Qed.

End Frames.

(** ** Bits of the status register *)

Lemma u8_bits z k : Z.testbit (u8 z) k = (k <? 8) && Z.testbit z k.
Proof. unfold u8. change 256 with (2 ^ 8). apply Z.testbit_mod_pow2. lia. Qed.

Lemma u8_range z : 0 <= u8 z < 256.
Proof. unfold u8. apply Z.mod_pos_bound. lia. Qed.

Lemma u8_id z : 0 <= z < 256 -> u8 z = z.
Proof. unfold u8. intros. apply Z.mod_small. lia. Qed.

Lemma byte_bits_high z k : 0 <= z < 256 -> 8 <= k -> Z.testbit z k = false.
Proof.
  intros Hz Hk. rewrite <- (u8_id z Hz), u8_bits.
  destruct (Z.ltb_spec k 8); [lia|reflexivity].
Qed.

(** Equality of two bytes, bit by bit. *)
Ltac bit_rewrite :=
  repeat first
    [ rewrite u8_bits | rewrite Z.lor_spec | rewrite Z.land_spec
    | rewrite Z.lnot_spec by lia ].

Ltac abstract_bits :=
  repeat match goal with
  | |- context [Z.testbit ?z ?j] =>
      lazymatch z with
      | Z0 => fail | Zpos _ => fail | Zneg _ => fail
      | _ => generalize (Z.testbit z j); intro
      end
  end.

Ltac byte_bits :=
  unfold ModeFlag, LYCandLYCompareType, EnableHBlankInt, EnableVBlankInt,
    EnableOAMInt, EnableLYCandLYInt, mode_code in *;
  cbv beta iota;
  apply Z.bits_inj'; intros k Hk; bit_rewrite;
  let H := fresh in
  destruct (Z.ltb_spec k 8) as [H|H];
  [ assert (k = 0 \/ k = 1 \/ k = 2 \/ k = 3 \/ k = 4 \/ k = 5 \/ k = 6 \/ k = 7)
      as [->|[->|[->|[->|[->|[->|[->| ->]]]]]]] by lia;
    repeat match goal with
    | E : Z.testbit ?z ?j = _ |- context [Z.testbit ?z ?j] => rewrite E
    end;
    abstract_bits;
    repeat match goal with b : bool |- _ => destruct b end;
    try reflexivity
  | repeat match goal with
    | |- context [Z.testbit ?z k] =>
        rewrite (byte_bits_high z k) by (assumption || lia)
    end;
    cbn [andb orb negb]; rewrite ?andb_false_r; try reflexivity ].

Lemma test_bit r j : 0 <= j -> test r (2 ^ j) = Z.testbit r j.
Proof.
  intros Hj. unfold test.
  assert (Z.land r (2 ^ j) = if Z.testbit r j then 2 ^ j else 0) as ->.
  { apply Z.bits_inj'. intros k Hk. rewrite Z.land_spec, Z.pow2_bits_eqb by lia.
    destruct (Z.eqb_spec j k) as [->|Hne].
    - destruct (Z.testbit r k); [rewrite Z.pow2_bits_true by lia; reflexivity|].
      rewrite Z.bits_0. reflexivity.
    - rewrite andb_false_r. destruct (Z.testbit r j); [|rewrite Z.bits_0; reflexivity].
      rewrite Z.pow2_bits_false by lia. reflexivity. }
  destruct (Z.testbit r j); [|reflexivity].
  destruct (Z.eqb_spec (2 ^ j) 0) as [E|E]; [|reflexivity].
  pose proof (Z.pow_pos_nonneg 2 j). lia.
Qed.

Lemma disabled_status st :
  u8 (Z.lor (u8 (Z.land st (Z.lnot ModeFlag))) (Z.land (mode_code HBlank) 3))
  = Z.land (u8 st) 252.
Proof. byte_bits. Qed.

(** Projections of assignments, and nothing else. *)
Ltac proj_simpl :=
  cbn [fst snd window_draw_flag previously_disabled num_obj_on_scanline cycles
       window_line_y render_flags status lcd_control background_palette
       object_palette_0 object_palette_1 screen_scroll_y screen_scroll_x
       window_y window_x line_y line_y_compare mode vram oam framebuffer
       framebuffer_complete bg_color_table objects_on_scanline
       set_window_draw_flag set_previously_disabled set_num_obj_on_scanline
       set_cycles set_window_line_y set_status set_line_y set_mode
       set_framebuffer set_framebuffer_complete set_bg_color_table
       set_objects_on_scanline] in *.

(** Case analysis on every comparison and flag test of the goal. *)
Ltac split_tests :=
  repeat match goal with
  | |- context [?a <=? ?b] => destruct (a <=? b) eqn:?
  | |- context [?a <? ?b] => destruct (a <? b) eqn:?
  | |- context [?a =? ?b] => destruct (a =? b) eqn:?
  | |- context [test ?a ?b] => destruct (test a b) eqn:?
  end.

(** The loops are used through their frame lemmas: each call is replaced by
    a state of which only the kept members are known. *)
Ltac forget_loops :=
  repeat match goal with
  | |- context [scan_oam ?x] =>
      let K := fresh "K" in let r := fresh "r" in let E := fresh in
      pose proof (scan_oam_kept x) as K;
      remember (scan_oam x) as r eqn:E; clear E
  | |- context [render_scanline ?ct ?x] =>
      let K := fresh "K" in let r := fresh "r" in let E := fresh in
      pose proof (render_scanline_kept ct x) as K;
      remember (render_scanline ct x) as r eqn:E; clear E
  end.

(** ** The frame of [step] *)

Section StepFrame.
Variable color_table : Z -> Color.

Lemma wake_config s : config (wake s) = config s.
Proof. unfold wake. destruct (previously_disabled s); reflexivity. Qed.


Lemma dispatch_config allow s :
  config (fst (dispatch color_table allow s)) = config s.
Proof.
  unfold dispatch.
  destruct (mode s);
    repeat match goal with |- context [if ?c then _ else _] => destruct c end;
    try reflexivity; cbn [fst]; forget_loops;
    apply kept_config in K;
    first [rewrite <- K; reflexivity | rewrite K; reflexivity].
Qed.

Lemma check_ly_lyc_config allow s : config (fst (check_ly_lyc allow s)) = config s.
Proof.
  unfold check_ly_lyc. cbv zeta.
  repeat match goal with |- context [if ?c then _ else _] => destruct c end;
    reflexivity.
Qed.

Lemma finish_config allow s : config (fst (finish allow s)) = config s.
Proof.
  unfold finish.
  pose proof (check_ly_lyc_config allow s) as H.
  destruct (check_ly_lyc allow s) as [s1 irq]. cbn [fst] in *.
  rewrite <- H.
  destruct (window_y s1 =? line_y s1); reflexivity.
Qed.

Lemma step_config n s : config (fst (step color_table n s)) = config s.
Proof.
  unfold step.
  destruct (negb (test (lcd_control s) LCDControlFlags.DisplayEnable));
    [reflexivity|].
  cbv zeta.
  match goal with |- context [dispatch _ ?a ?s0] =>
    pose proof (dispatch_config a s0) as H1;
    destruct (dispatch color_table a s0) as [s1 irq1]
  end.
  match goal with |- context [finish ?a ?s0] =>
    pose proof (finish_config a s0) as H2;
    destruct (finish a s0) as [s2 irq2]
  end.
  cbn [fst] in *. rewrite H2, H1. apply wake_config.
Qed.

End StepFrame.

(** ** The mode state machine *)

Section Machine.
Variable color_table : Z -> Color.

Lemma stat_any_eq a b :
  status a = status b -> mode a = mode b -> stat_any a = stat_any b.
Proof. unfold stat_any, check_stat. intros -> ->. reflexivity. Qed.

Lemma wake_status s : status (wake s) = status s.
Proof. unfold wake. destruct (previously_disabled s); reflexivity. Qed.

Lemma wake_mode s : mode (wake s) = mode s.
Proof. unfold wake. destruct (previously_disabled s); reflexivity. Qed.

Lemma step_on n s :
  display_on s = true ->
  step color_table n s =
    let s0 := set_cycles (u32 (cycles (wake s) + n)) (wake s) in
    let allow := negb (stat_any s) in
    let d := dispatch color_table allow s0 in
    let f := finish allow (fst d) in
    (fst f, snd d ++ snd f).
Proof.
  unfold display_on, step. intros ->. cbn [negb]. cbv zeta.
  rewrite (stat_any_eq (set_cycles (u32 (cycles (wake s) + n)) (wake s)) s)
    by (cbn [status mode set_cycles]; auto using wake_status, wake_mode).
  destruct (dispatch color_table (negb (stat_any s)) _) as [s1 i1].
  cbn [fst snd]. destruct (finish (negb (stat_any s)) s1) as [s2 i2].
  reflexivity.
Qed.

Lemma step_off n s :
  display_on s = false ->
  step color_table n s =
    (set_previously_disabled true
       (or_mode_bits (set_stat ModeFlag false (set_mode HBlank s))), []).
Proof. unfold display_on, step. intros ->. reflexivity. Qed.


Lemma dispatch_machine_eq allow s :
  machine (fst (dispatch color_table allow s)) = dispatch_machine s.
Proof.
  unfold dispatch, dispatch_machine. cbv zeta. proj_simpl.
  destruct (mode s) eqn:M;
    repeat match goal with |- context [if ?c then _ else _] => destruct c end;
    proj_simpl; forget_loops;
    try (apply kept_machine in K); unfold machine in *; proj_simpl;
    congruence.
Qed.

Lemma dispatch_requests_eq allow s :
  snd (dispatch color_table allow s) = dispatch_requests allow s.
Proof.
  unfold dispatch, dispatch_requests, stat_if, check_stat. cbv zeta. proj_simpl.
  destruct (mode s); split_tests; destruct allow; reflexivity.
Qed.

End Machine.

(** ** C10 and C8: what [step] leaves alone, the display-off path, the soft reset *)

Section StepEdges.
Variable color_table : Z -> Color.

(** C10.  An advance call never writes VRAM, OAM or a configuration register
    (control, scroll X/Y, window X/Y, the three palettes, LYC, the
    render-layer mask), whatever the state and the cycle count; every other
    member (mode, accumulator, line counter, window latch and line counter,
    disabled flag, status, sprite selection, both framebuffers, shadow table)
    is outside this frame. *)
Theorem step_preserves_memories_and_configuration (n : Z) (s : PPU) :
  let s' := fst (step color_table n s) in
  vram s' = vram s /\ oam s' = oam s /\
  lcd_control s' = lcd_control s /\
  screen_scroll_x s' = screen_scroll_x s /\
  screen_scroll_y s' = screen_scroll_y s /\
  window_x s' = window_x s /\ window_y s' = window_y s /\
  background_palette s' = background_palette s /\
  object_palette_0 s' = object_palette_0 s /\
  object_palette_1 s' = object_palette_1 s /\
  line_y_compare s' = line_y_compare s /\
  render_flags s' = render_flags s.
Proof.
  intros s'. pose proof (step_config color_table n s) as H.
  fold s' in H. unfold config in H.
  repeat split; congruence.
Qed.


End StepEdges.

(** ** Lines 168-174 *)

Lemma test_4 r : test r 4 = Z.testbit r 2.
Proof. exact (test_bit r 2 ltac:(lia)). Qed.
Lemma test_8 r : test r 8 = Z.testbit r 3.
Proof. exact (test_bit r 3 ltac:(lia)). Qed.
Lemma test_16 r : test r 16 = Z.testbit r 4.
Proof. exact (test_bit r 4 ltac:(lia)). Qed.
Lemma test_32 r : test r 32 = Z.testbit r 5.
Proof. exact (test_bit r 5 ltac:(lia)). Qed.
Lemma test_64 r : test r 64 = Z.testbit r 6.
Proof. exact (test_bit r 6 ltac:(lia)). Qed.

(** A flag test of a byte expression, bit by bit. *)
Ltac flag_bits :=
  unfold check_stat, finish_status, ModeFlag, LYCandLYCompareType,
    EnableHBlankInt, EnableVBlankInt, EnableOAMInt, EnableLYCandLYInt in *;
  proj_simpl;
  rewrite ?test_4, ?test_8, ?test_16, ?test_32, ?test_64 in *;
  bit_rewrite; abstract_bits;
  repeat match goal with b : bool |- _ => destruct b end;
  try reflexivity.

Lemma finish_status_enable s flag :
  flag = EnableHBlankInt \/ flag = EnableVBlankInt \/ flag = EnableOAMInt \/
  flag = EnableLYCandLYInt ->
  test (finish_status s) flag = test (status s) flag.
Proof.
  intros [->|[->|[->| ->]]]; unfold finish_status;
    destruct (line_y s =? line_y_compare s), (mode s); flag_bits.
Qed.

Lemma finish_status_compare s :
  test (finish_status s) LYCandLYCompareType = (line_y s =? line_y_compare s).
Proof.
  unfold finish_status.
  destruct (line_y s =? line_y_compare s), (mode s); flag_bits.
Qed.

Lemma finish_status_mode s : Z.land (finish_status s) 3 = mode_code (mode s).
Proof.
  unfold finish_status.
  destruct (line_y s =? line_y_compare s), (mode s); byte_bits.
Qed.

Lemma finish_status_byte s : 0 <= finish_status s < 256.
Proof. unfold finish_status. apply u8_range. Qed.

Lemma finish_status_settled s :
  0 <= status s < 256 ->
  Z.land (status s) 3 = mode_code (mode s) ->
  check_stat LYCandLYCompareType s = (line_y s =? line_y_compare s) ->
  finish_status s = status s.
Proof.
  intros Hb Hm Hc. unfold finish_status, check_stat in *.
  rewrite <- Hc. unfold LYCandLYCompareType in *. rewrite test_4.
  assert (Z.testbit (status s) 0 = Z.testbit (mode_code (mode s)) 0) as H0
    by (rewrite <- Hm, Z.land_spec; change (Z.testbit 3 0) with true;
        symmetry; apply andb_true_r).
  assert (Z.testbit (status s) 1 = Z.testbit (mode_code (mode s)) 1) as H1
    by (rewrite <- Hm, Z.land_spec; change (Z.testbit 3 1) with true;
        symmetry; apply andb_true_r).
  clear Hm Hc.
  destruct (Z.testbit (status s) 2) eqn:E2, (mode s); byte_bits.
Qed.

Lemma finish_eq allow s :
  finish allow s =
    (set_status (finish_status s)
       (if window_y s =? line_y s then set_window_draw_flag true s else s),
     finish_requests allow s).
Proof.
  unfold finish, check_ly_lyc, finish_status, finish_requests, set_stat,
    or_mode_bits, check_stat. cbv zeta. proj_simpl.
  destruct (line_y s =? line_y_compare s) eqn:E; proj_simpl.
  - assert (test (u8 (Z.lor (u8 (Z.land (status s) (Z.lnot LYCandLYCompareType)))
                        LYCandLYCompareType)) EnableLYCandLYInt
            = test (status s) EnableLYCandLYInt) as -> by flag_bits.
    destruct (test (status s) EnableLYCandLYInt), allow; cbn [andb]; proj_simpl;
      destruct (window_y s =? line_y s); reflexivity.
  - destruct (window_y s =? line_y s); reflexivity.
Qed.

(** ** The shape of a call with the display on *)

Section Shape.
Variable color_table : Z -> Color.

Lemma step_shape n s :
  display_on s = true ->
  let s0 := set_cycles (u32 (cycles (wake s) + n)) (wake s) in
  let allow := negb (stat_any s) in
  exists d,
    machine d = dispatch_machine s0 /\ config d = config s /\
    d = fst (dispatch color_table allow s0) /\
    fst (step color_table n s) =
      set_status (finish_status d)
        (if window_y d =? line_y d then set_window_draw_flag true d else d) /\
    snd (step color_table n s) =
      dispatch_requests allow s0 ++ finish_requests allow d.
Proof.
  intros Hon s0 allow. exists (fst (dispatch color_table allow s0)).
  split; [apply dispatch_machine_eq|].
  split; [rewrite dispatch_config; apply wake_config|].
  split; [reflexivity|].
  rewrite step_on by assumption. cbv zeta. fold s0 allow.
  rewrite finish_eq, dispatch_requests_eq. split; reflexivity.
Qed.

Lemma display_on_config a b : config a = config b -> display_on a = display_on b.
Proof. unfold config, display_on. intros H. congruence. Qed.

Lemma step_display_on n s :
  display_on (fst (step color_table n s)) = display_on s.
Proof. apply display_on_config, step_config. Qed.

End Shape.

(** ** C4: STAT blocking *)

Section Interrupts.
Variable color_table : Z -> Color.

Lemma stat_if_blocked flag s : stat_if flag false s = [].
Proof. unfold stat_if. rewrite andb_false_r. reflexivity. Qed.

(** The sources [stat_any] looks at: the compare flag and, for the mode the
    machine is in, that mode's enable bit; mode 3 has no source. *)
Lemma stat_any_sources s :
  stat_any s =
    (check_stat EnableLYCandLYInt s && check_stat LYCandLYCompareType s)
    || (check_stat EnableOAMInt s && bool_decide (mode s = OAMSearch))
    || (check_stat EnableVBlankInt s && bool_decide (mode s = VBlank))
    || (check_stat EnableHBlankInt s && bool_decide (mode s = HBlank)).
Proof.
  unfold stat_any.
  destruct (check_stat EnableLYCandLYInt s), (check_stat LYCandLYCompareType s),
    (check_stat EnableOAMInt s), (check_stat EnableVBlankInt s),
    (check_stat EnableHBlankInt s), (mode s); reflexivity.
Qed.

(** C4.  [stat_any] is evaluated on the state the call starts in; when it
    holds there, the call makes no LCD-STAT request, neither at a mode
    transition nor from the LY=LYC comparator. *)
Theorem stat_blocking (n : Z) (s : PPU) :
  stat_any s = true ->
  stat_requests (snd (step color_table n s)) = 0%nat.
Proof.
  intros Hany. destruct (display_on s) eqn:Hon.
  - destruct (step_shape color_table n s Hon) as (d & _ & _ & _ & _ & ->).
    rewrite Hany. cbn [negb].
    unfold finish_requests. rewrite andb_false_r, app_nil_r.
    unfold dispatch_requests. cbv zeta. rewrite !stat_if_blocked.
    repeat match goal with
           | |- context [match ?m with HBlank => _ | _ => _ end] => destruct m
           | |- context [if ?c then _ else _] => destruct c
           end; reflexivity.
  - rewrite step_off by assumption. reflexivity.
Qed.

End Interrupts.

(** ** One call, seen from the mode and the line counter *)

Section Transitions.
Variable color_table : Z -> Color.

Lemma wake_buffers s :
  framebuffer (wake s) = framebuffer s /\
  framebuffer_complete (wake s) = framebuffer_complete s.
Proof. unfold wake. destruct (previously_disabled s); split; reflexivity. Qed.

Lemma vblank_requests_app a b :
  vblank_requests (a ++ b) = (vblank_requests a + vblank_requests b)%nat.
Proof. apply count_occ_app. Qed.

Lemma finish_requests_vblank allow d : vblank_requests (finish_requests allow d) = 0%nat.
Proof. unfold finish_requests. destruct (_ && _); reflexivity. Qed.

Lemma stat_if_vblank flag allow s : vblank_requests (stat_if flag allow s) = 0%nat.
Proof. unfold stat_if. destruct (_ && _); reflexivity. Qed.

Lemma vblank_requests_cons l :
  vblank_requests (INT_VBLANK_BIT :: l) = S (vblank_requests l).
Proof. unfold vblank_requests. apply count_occ_cons_eq. reflexivity. Qed.

Lemma step_transition n s :
  display_on s = true ->
  let s' := fst (step color_table n s) in
  let c := u32 (cycles (wake s) + n) in
  let l := line_y (wake s) in
  let l1 := u8 (l + 1) in
  (mode s', line_y s', framebuffer_complete s',
   vblank_requests (snd (step color_table n s))) =
  match mode s with
  | HBlank =>
      if 204 <=? c
      then if l1 =? 144
           then (VBlank, l1, framebuffer_complete s, 1%nat)
           else (OAMSearch, l1, framebuffer_complete s, 0%nat)
      else (HBlank, l, framebuffer_complete s, 0%nat)
  | VBlank =>
      if 456 <=? c
      then if 153 <? l1
           then (OAMSearch, 0, framebuffer s, 0%nat)
           else (VBlank, l1, framebuffer_complete s, 0%nat)
      else (VBlank, l, framebuffer_complete s, 0%nat)
  | OAMSearch =>
      (if 80 <=? c then DrawScanline else OAMSearch, l,
       framebuffer_complete s, 0%nat)
  | DrawScanline =>
      (if 172 <=? c then HBlank else DrawScanline, l,
       framebuffer_complete s, 0%nat)
  end.
Proof.
  intros Hon s' c l l1. subst s'.
  destruct (step_shape color_table n s Hon) as (d & Hm & _ & _ & -> & ->).
  destruct (wake_buffers s) as [Hfb Hfc].
  rewrite vblank_requests_app, finish_requests_vblank, Nat.add_0_r.
  unfold dispatch_machine, dispatch_requests, machine in *. cbv zeta in *.
  proj_simpl. rewrite ?wake_mode, ?Hfb, ?Hfc in *. fold c l l1 in Hm |- *.
  assert (forall b : bool, mode (if b then set_window_draw_flag true d else d) = mode d)
    as Em by (intros []; reflexivity).
  assert (forall b : bool, line_y (if b then set_window_draw_flag true d else d) = line_y d)
    as El by (intros []; reflexivity).
  assert (forall b : bool, framebuffer_complete (if b then set_window_draw_flag true d else d)
                           = framebuffer_complete d)
    as Ef by (intros []; reflexivity).
  rewrite Em, El, Ef. revert Hm.
  destruct (mode s); split_tests; cbn [andb];
    rewrite ?vblank_requests_cons, ?stat_if_vblank;
    intros Hm; injection Hm as E1 E2 E3 E4 E5 E6 E7; rewrite E1, E3, E7;
    reflexivity.
Qed.

End Transitions.

(** ** C2: the mode cycle and the line counter *)

Section ModeCycle.
Variable color_table : Z -> Color.

Lemma wake_previously_disabled s : previously_disabled (wake s) = false.
Proof. unfold wake. destruct (previously_disabled s) eqn:E; [reflexivity|exact E]. Qed.

Lemma wake_settled_id s : previously_disabled s = false -> wake s = s.
Proof. unfold wake. intros ->. reflexivity. Qed.

Lemma step_previously_disabled n s :
  display_on s = true -> previously_disabled (fst (step color_table n s)) = false.
Proof.
  intros Hon.
  destruct (step_shape color_table n s Hon) as (d & Hm & _ & _ & -> & _).
  assert (previously_disabled d = false) as Hd.
  { unfold dispatch_machine, machine in Hm. cbv zeta in Hm. proj_simpl.
    rewrite <- (wake_previously_disabled s). revert Hm.
    destruct (mode (wake s)); split_tests; intros Hm; congruence. }
  destruct (window_y d =? line_y d); exact Hd.
Qed.

Lemma step_successor n s :
  display_on s = true -> in_frame s ->
  let s' := fst (step color_table n s) in
  successor (mode s, line_y s) (mode s', line_y s') /\ in_frame s'.
Proof.
  intros Hon [Hpd Hl] s'.
  pose proof (step_transition color_table n s Hon) as H.
  pose proof (step_previously_disabled n s Hon) as Hpd'.
  cbv zeta in H. fold s' in H, Hpd'. rewrite (wake_settled_id s Hpd) in H.
  unfold in_frame. rewrite Hpd'.
  assert (0 <= line_y s <= 153) as Hr by (destruct (mode s); lia).
  assert (u8 (line_y s + 1) = line_y s + 1) as Hu
    by (unfold u8; apply Z.mod_small; lia).
  rewrite Hu in H. revert H.
  destruct (mode s) eqn:M; split_tests; intros H; injection H as E1 E2 _ _;
    rewrite E1, E2; (split; [|split; [reflexivity|]]);
    try constructor; try lia.
  - replace (line_y s) with 143 by lia. constructor.
  - replace (line_y s) with 153 by lia. constructor.
Qed.

(** C2.  Along every sequence of calls with the display on, started inside
    the frame, each call either stays or makes one move of the cycle
    OAMSearch, DrawScanline, HBlank, then OAMSearch of the next line for
    lines 0-142 or VBlank at line 144, VBlank through line 153, and back to
    OAMSearch at line 0; the line counter stays within 0..153 and returns to
    0 only by the move from line 153. *)
Theorem mode_cycle (ns : list Z) (s : PPU) :
  display_on s = true -> in_frame s ->
  let tr := trace color_table ns s in
  chained (fun a b _ => successor (mode a, line_y a) (mode b, line_y b)) s tr /\
  Forall (fun r => in_frame (fst r) /\ 0 <= line_y (fst r) <= 153) tr.
Proof.
  revert s. induction ns as [|n ns IH]; intros s Hon Hin; cbn.
  - split; [exact I|constructor].
  - destruct (step_successor n s Hon Hin) as [Hs Hin'].
    destruct (IH (fst (step color_table n s))
                (eq_trans (step_display_on color_table n s) Hon) Hin') as [Hc Hf].
    split; [split; assumption|].
    constructor; [|exact Hf].
    split; [exact Hin'|]. destruct Hin' as [_ Hl].
    destruct (mode (fst (step color_table n s))); lia.
Qed.

End ModeCycle.

(** ** C3: the VBlank request *)

Section VBlankRequest.
Variable color_table : Z -> Color.

Lemma step_vblank n s :
  display_on s = true ->
  let s' := fst (step color_table n s) in
  let v := vblank_requests (snd (step color_table n s)) in
  v = (if enters_vblank s s' then 1 else 0)%nat /\
  (enters_vblank s s' = true -> line_y s' = 144) /\
  (v + in_vblank s = (if wraps s s' then 1 else 0) + in_vblank s')%nat.
Proof.
  intros Hon s' v.
  pose proof (step_transition color_table n s Hon) as H.
  cbv zeta in H. fold s' v in H.
  unfold enters_vblank, wraps, in_vblank. revert H.
  destruct (mode s) eqn:M; split_tests; intros H; injection H as E1 E2 _ E4;
    rewrite E1, E2, E4; cbn; repeat split; try discriminate; try reflexivity.
  intros _. apply Z.eqb_eq. assumption.
Qed.

Lemma step_vblank_status_blind n s st :
  vblank_requests (snd (step color_table n (set_status st s))) =
  vblank_requests (snd (step color_table n s)).
Proof.
  assert (display_on (set_status st s) = display_on s) as Hd by reflexivity.
  destruct (display_on s) eqn:Hon.
  - pose proof (step_transition color_table n s Hon) as H1.
    pose proof (step_transition color_table n (set_status st s) Hd) as H2.
    cbv zeta in H1, H2.
    assert (cycles (wake (set_status st s)) = cycles (wake s) /\
            line_y (wake (set_status st s)) = line_y (wake s)) as [Ec El]
      by (unfold wake; proj_simpl; destruct (previously_disabled s); split; reflexivity).
    rewrite Ec, El in H2. proj_simpl.
    revert H1 H2.
    destruct (mode s); split_tests; intros H1 H2;
      injection H1 as _ _ _ ->; injection H2 as _ _ _ ->; reflexivity.
  - rewrite !step_off by assumption. reflexivity.
Qed.

Lemma requests_cons r tr : requests (r :: tr) = snd r ++ requests tr.
Proof. reflexivity. Qed.

Lemma last_cons_any {A : Type} (l : list A) (a d : A) : last (a :: l) d = last l a.
Proof.
  revert a d. induction l as [|b l IH]; intros a d; [reflexivity|].
  change (last (a :: b :: l) d) with (last (b :: l) d).
  rewrite (IH b d), (IH b a). reflexivity.
Qed.

Lemma final_cons s r tr : final s (r :: tr) = final (fst r) tr.
Proof. unfold final. cbn [map]. apply last_cons_any. Qed.

End VBlankRequest.

(** ** C7: the completed framebuffer *)

Section Commit.
Variable color_table : Z -> Color.

Lemma dispatch_vblank_framebuffer allow s :
  mode s = VBlank ->
  framebuffer (fst (dispatch color_table allow s)) = framebuffer s.
Proof.
  intros M. unfold dispatch. rewrite M. cbv zeta. proj_simpl.
  split_tests; reflexivity.
Qed.

Lemma step_commit n s :
  let s' := fst (step color_table n s) in
  if wraps s s'
  then framebuffer_complete s' = framebuffer s /\ framebuffer s' = framebuffer s
  else framebuffer_complete s' = framebuffer_complete s.
Proof.
  intros s'. destruct (display_on s) eqn:Hon.
  - pose proof (step_transition color_table n s Hon) as H.
    cbv zeta in H. fold s' in H.
    destruct (step_shape color_table n s Hon) as (d & _ & _ & Hd & Hs & _).
    fold s' in Hs.
    assert (mode s = VBlank -> framebuffer s' = framebuffer s) as Hfb.
    { intros M. rewrite Hs.
      assert (framebuffer d = framebuffer s) as <-.
      { rewrite Hd, dispatch_vblank_framebuffer
          by (proj_simpl; rewrite wake_mode; exact M).
        proj_simpl. apply wake_buffers. }
      destruct (window_y d =? line_y d); reflexivity. }
    unfold wraps. revert H.
    destruct (mode s) eqn:M; split_tests; intros H; injection H as E1 _ E3 _;
      rewrite E1, E3; repeat case_bool_decide; try congruence; cbn [andb]; auto.
  - subst s'. rewrite step_off by assumption. unfold wraps. proj_simpl.
    rewrite andb_false_r. reflexivity.
Qed.

End Commit.

(** ** Arrays and pixels *)

Lemma rd_wr_eq a i v : 0 <= i < Z.of_nat (length a) -> rd (wr a i v) i = v.
Proof.
  intros H. unfold rd, wr. rewrite list_lookup_insert_eq by lia. reflexivity.
Qed.

Lemma rd_wr_ne a i j v : 0 <= i -> 0 <= j -> i <> j -> rd (wr a i v) j = rd a j.
Proof.
  intros Hi Hj Hne. unfold rd, wr. rewrite list_lookup_insert_ne by lia.
  reflexivity.
Qed.

Lemma length_wr a i v : length (wr a i v) = length a.
Proof. apply length_insert. Qed.

Lemma length_copy_color c base fb : length (copy_color c base fb) = length fb.
Proof. unfold copy_color. rewrite !length_wr. reflexivity. Qed.

Lemma pixel_at_copy_color c p fb :
  0 <= p -> p * 4 + 3 < Z.of_nat (length fb) ->
  pixel_at (copy_color c (p * COLOR_DEPTH) fb) p = c.
Proof.
  intros H0 H1. unfold pixel_at, copy_color, COLOR_DEPTH. destruct c as [a b e f].
  cbn [c0 c1 c2 c3]. f_equal.
  - rewrite !rd_wr_ne by lia. apply rd_wr_eq. lia.
  - rewrite !rd_wr_ne by lia. apply rd_wr_eq. rewrite !length_wr. lia.
  - rewrite !rd_wr_ne by lia. apply rd_wr_eq. rewrite !length_wr. lia.
  - apply rd_wr_eq. rewrite !length_wr. lia.
Qed.

Lemma pixel_at_copy_color_other c p q fb :
  0 <= p -> 0 <= q -> p <> q ->
  pixel_at (copy_color c (p * COLOR_DEPTH) fb) q = pixel_at fb q.
Proof.
  intros Hp Hq Hne. unfold pixel_at, copy_color, COLOR_DEPTH.
  f_equal; rewrite !rd_wr_ne by lia; reflexivity.
Qed.

(** ** C9: the background pass with the layer off *)

Section BackgroundOff.
Variable color_table : Z -> Color.

Lemma bg_pixel_step_disabled tm td i s :
  bg_disabled s = true ->
  bg_pixel_step color_table tm td i s =
    set_framebuffer
      (copy_color (color_table (Z.land (background_palette s) 3))
         ((line_y s * LCD_WIDTH + i) * COLOR_DEPTH) (framebuffer s))
      (set_bg_color_table
         (wr (bg_color_table s) (line_y s * LCD_WIDTH + i) 0) s).
Proof.
  unfold bg_disabled, bg_pixel_step. intros ->. reflexivity.
Qed.

Lemma bg_fold_disabled tm td ly bgp (l : list Z) :
  forall s,
    bg_disabled s = true -> line_y s = ly -> background_palette s = bgp ->
    0 <= ly < 144 ->
    Z.of_nat (length (framebuffer s)) = 92160 ->
    Z.of_nat (length (bg_color_table s)) = 23040 ->
    (forall j, In j l -> 0 <= j < 160) ->
    let s' := fold_left (fun s i => bg_pixel_step color_table tm td i s) l s in
    (forall j, In j l ->
       rd (bg_color_table s') (ly * LCD_WIDTH + j) = 0 /\
       pixel_at (framebuffer s') (ly * LCD_WIDTH + j) = color_table (Z.land bgp 3)) /\
    (forall q, 0 <= q -> ~ In (q - ly * LCD_WIDTH) l ->
       rd (bg_color_table s') q = rd (bg_color_table s) q /\
       pixel_at (framebuffer s') q = pixel_at (framebuffer s) q).
Proof.
  unfold LCD_WIDTH.
  induction l as [|i l IH]; intros s Hd Hly Hbgp Hr Hfb Hbt Hl; cbv zeta.
  - split; [intros j []|]. intros q _ _. split; reflexivity.
  - cbn [fold_left].
    assert (0 <= i < 160) as Hi by (apply Hl; left; reflexivity).
    set (s1 := bg_pixel_step color_table tm td i s).
    assert (s1 = set_framebuffer
      (copy_color (color_table (Z.land bgp 3))
         ((ly * LCD_WIDTH + i) * COLOR_DEPTH) (framebuffer s))
      (set_bg_color_table (wr (bg_color_table s) (ly * LCD_WIDTH + i) 0) s)) as E1
      by (subst s1 ly bgp; apply bg_pixel_step_disabled; exact Hd).
    unfold LCD_WIDTH in E1.
    assert (bg_color_table s1 = wr (bg_color_table s) (ly * 160 + i) 0) as Ebt
      by (rewrite E1; reflexivity).
    assert (framebuffer s1 = copy_color (color_table (Z.land bgp 3))
              ((ly * 160 + i) * COLOR_DEPTH) (framebuffer s)) as Efb
      by (rewrite E1; reflexivity).
    destruct (IH s1) as [IH1 IH2].
    { rewrite E1. exact Hd. }
    { rewrite E1. exact Hly. }
    { rewrite E1. exact Hbgp. }
    { exact Hr. }
    { rewrite Efb, length_copy_color. exact Hfb. }
    { rewrite Ebt, length_wr. exact Hbt. }
    { intros j Hj. apply Hl. right. exact Hj. }
    assert (rd (bg_color_table s1) (ly * 160 + i) = 0 /\
            pixel_at (framebuffer s1) (ly * 160 + i) = color_table (Z.land bgp 3))
      as Hnow.
    { rewrite Ebt, Efb. split.
      - apply rd_wr_eq. lia.
      - apply pixel_at_copy_color; lia. }
    split.
    + intros j Hj. destruct (in_dec Z.eq_dec j l) as [Hin|Hout].
      * apply IH1. exact Hin.
      * destruct Hj as [<-|Hj]; [|contradiction].
        destruct (IH2 (ly * 160 + i)) as [A B]; [lia| |].
        { replace (ly * 160 + i - ly * 160) with i by lia. exact Hout. }
        rewrite A, B. exact Hnow.
    + intros q Hq Hout.
      destruct (IH2 q Hq) as [A B].
      { intros Hin. apply Hout. right. exact Hin. }
      rewrite A, B, Ebt, Efb.
      assert (ly * 160 + i <> q) as Hne
        by (intros <-; apply Hout; left; lia).
      split.
      * apply rd_wr_ne; lia.
      * apply pixel_at_copy_color_other; lia.
Qed.

(** C9.  With the background layer off, by the control register or by the
    render-layer mask, the background pass paints each of the 160 pixels of
    the line with the colour of index 0 of the background palette, and
    records 0 for it in the shadow table. *)
Theorem background_off_paints_index_0 (s : PPU) (i : Z) :
  bg_disabled s = true ->
  sized s -> 0 <= line_y s < LCD_HEIGHT -> 0 <= i < LCD_WIDTH ->
  let s' := render_bg_layer color_table s in
  let p := line_y s * LCD_WIDTH + i in
  rd (bg_color_table s') p = 0 /\
  pixel_at (framebuffer s') p = color_table (Z.land (background_palette s) 3).
Proof.
  intros Hd (_ & _ & Hfb & _ & Hbt & _) Hl Hi s' p.
  unfold LCD_HEIGHT, LCD_WIDTH, COLOR_DEPTH in *.
  subst s' p. unfold render_bg_layer. cbv zeta.
  refine (proj1 (bg_fold_disabled _ _ (line_y s) (background_palette s)
                   (seqZ 0 160) s Hd eq_refl eq_refl Hl _ _ _) i _).
  - rewrite Hfb. reflexivity.
  - rewrite Hbt. reflexivity.
  - intros j Hj. apply list_elem_of_In, elem_of_seqZ in Hj. lia.
  - apply list_elem_of_In, elem_of_seqZ. lia.
Qed.

End BackgroundOff.

(** ** C5: the priority rule of the sprite pass *)

Section SpritePriority.
Variable color_table : Z -> Color.
Variables (object : Object.t) (palette tile_index adjusted_x : Z).

Let priority := test (Object.attributes object) ObjectAttributeFlags.Priority.
Let pixel_of (s : PPU) (x : Z) := plane_pixel s tile_index (sprite_bit object x).
Let color_of (s : PPU) (x : Z) :=
  color_table (Z.land (Z.shiftr palette (2 * pixel_of s x)) 3).
Let spot (s : PPU) (x : Z) := line_y s * LCD_WIDTH + (adjusted_x + x).

(** A column on the screen is its own [size_t]; a column left of the screen
    wraps far to the right of it. *)
Lemma size_t_on_screen v : 0 <= v < 160 -> size_t v = v.
Proof. intros H. unfold size_t. apply Z.mod_small. lia. Qed.

Lemma size_t_near v : -8 <= v < 168 -> size_t v < 160 -> 0 <= v < 160 /\ size_t v = v.
Proof.
  intros H Hs. unfold size_t in *.
  destruct (Z_lt_le_dec v 0) as [Hneg|Hpos].
  - rewrite <- (Z.mod_unique v 18446744073709551616 (-1) (v + 18446744073709551616))
      in Hs by lia.
    lia.
  - rewrite Z.mod_small in * by lia. lia.
Qed.

(** What one turn of the loop does: nothing, or one pixel of the line. *)
Lemma sprite_pixel_step_on_screen x s :
  0 <= adjusted_x + x < 160 ->
  sprite_pixel_step color_table object palette tile_index adjusted_x x s =
    if pixel_of s x =? 0 then s
    else if negb priority || (rd (bg_color_table s) (spot s x) =? 0)
    then set_framebuffer
           (copy_color (color_of s x) (spot s x * COLOR_DEPTH) (framebuffer s)) s
    else s.
Proof.
  intros Hx. unfold sprite_pixel_step. cbv zeta.
  rewrite (size_t_on_screen _ Hx).
  assert ((0 <=? adjusted_x + x) && (adjusted_x + x <? 160) = true) as ->
    by (apply andb_true_iff; split; [apply Z.leb_le|apply Z.ltb_lt]; lia).
  fold (sprite_bit object x). fold (pixel_of s x). fold (color_of s x).
  fold (spot s x). fold priority.
  destruct (pixel_of s x =? 0); [reflexivity|].
  destruct priority; cbn [negb orb]; reflexivity.
Qed.

Lemma sprite_pixel_step_shape x s :
  -8 <= adjusted_x + x < 168 ->
  let s' := sprite_pixel_step color_table object palette tile_index adjusted_x x s in
  s' = s \/
  (0 <= adjusted_x + x < 160 /\
   exists c, s' = set_framebuffer (copy_color c (spot s x * COLOR_DEPTH) (framebuffer s)) s).
Proof.
  intros Hx s'.
  destruct (Z_lt_le_dec (size_t (adjusted_x + x)) 160) as [Hin|Hout].
  - destruct (size_t_near _ Hx Hin) as [Hon _]. subst s'.
    rewrite (sprite_pixel_step_on_screen x s Hon).
    destruct (pixel_of s x =? 0); [left; reflexivity|].
    destruct (negb priority || _); [|left; reflexivity].
    right. split; [exact Hon|]. eexists. reflexivity.
  - left. subst s'. unfold sprite_pixel_step. cbv zeta.
    assert ((size_t (adjusted_x + x) <? 160) = false) as ->
      by (apply Z.ltb_ge; lia).
    rewrite andb_false_r. reflexivity.
Qed.


Lemma pixel_of_eq a b x : vram a = vram b -> pixel_of a x = pixel_of b x.
Proof. unfold pixel_of, plane_pixel. intros ->. reflexivity. Qed.

Lemma sprite_row_fold (l : list Z) :
  forall s,
    NoDup l -> (forall x, x ∈ l -> 0 <= x < 8) ->
    -8 <= adjusted_x <= 160 -> 0 <= line_y s < 144 ->
    Z.of_nat (length (framebuffer s)) = 92160 ->
    let s' := fold_left
                (fun s x => sprite_pixel_step color_table object palette
                              tile_index adjusted_x x s) l s in
    (vram s' = vram s /\ bg_color_table s' = bg_color_table s /\
     line_y s' = line_y s /\ length (framebuffer s') = length (framebuffer s)) /\
    forall x, 0 <= x < 8 -> 0 <= adjusted_x + x < 160 ->
      pixel_at (framebuffer s') (spot s x) =
        if bool_decide (x ∈ l)
        then sprite_rule (pixel_of s x) priority
               (rd (bg_color_table s) (spot s x)) (color_of s x)
               (pixel_at (framebuffer s) (spot s x))
        else pixel_at (framebuffer s) (spot s x).
Proof.
  induction l as [|x1 l IH]; intros s Hnd Hl Hax Hly Hfb; cbv zeta.
  - split; [repeat split; reflexivity|]. intros x _ _.
    rewrite bool_decide_eq_false_2 by apply not_elem_of_nil. reflexivity.
  - cbn [fold_left].
    set (s1 := sprite_pixel_step color_table object palette tile_index adjusted_x x1 s).
    assert (0 <= x1 < 8) as Hx1 by (apply Hl; left).
    inversion Hnd as [|? ? Hnotin Hnd']; subst.
    assert (vram s1 = vram s /\ bg_color_table s1 = bg_color_table s /\
            line_y s1 = line_y s /\
            length (framebuffer s1) = length (framebuffer s) /\
            (forall x, 0 <= x < 8 -> 0 <= adjusted_x + x < 160 -> x <> x1 ->
               pixel_at (framebuffer s1) (spot s x) = pixel_at (framebuffer s) (spot s x)))
      as (Ev & Eb & El & Elen & Eother).
    { destruct (sprite_pixel_step_shape x1 s ltac:(lia)) as [E|(Hon & c & E)];
        fold s1 in E; rewrite E.
      - repeat split; reflexivity.
      - proj_simpl. repeat split; try reflexivity.
        + apply length_copy_color.
        + intros x Hx Hxon Hne. apply pixel_at_copy_color_other;
            unfold spot, LCD_WIDTH; lia. }
    assert (0 <= adjusted_x + x1 < 160 ->
            pixel_at (framebuffer s1) (spot s x1) =
            sprite_rule (pixel_of s x1) priority (rd (bg_color_table s) (spot s x1))
              (color_of s x1) (pixel_at (framebuffer s) (spot s x1))) as Enow.
    { intros Hon. subst s1. rewrite (sprite_pixel_step_on_screen x1 s Hon).
      unfold sprite_rule. destruct (pixel_of s x1 =? 0); [reflexivity|].
      destruct priority; cbn [negb orb].
      - destruct (rd (bg_color_table s) (spot s x1) =? 0); [|reflexivity].
        proj_simpl. apply pixel_at_copy_color; unfold spot, LCD_WIDTH; lia.
      - proj_simpl. apply pixel_at_copy_color; unfold spot, LCD_WIDTH; lia. }
    destruct (IH s1 Hnd') as [(Iv & Ib & Il & Ilen) IHx].
    { intros x Hx. apply Hl. right. exact Hx. }
    { exact Hax. }
    { rewrite El. exact Hly. }
    { rewrite Elen. exact Hfb. }
    split; [repeat split; congruence|].
    intros x Hx Hon.
    specialize (IHx x Hx Hon).
    assert (spot s1 x = spot s x) as Es by (unfold spot; rewrite El; reflexivity).
    rewrite Es, Eb, (pixel_of_eq s1 s x Ev) in IHx.
    assert (color_of s1 x = color_of s x) as Ec
      by (unfold color_of; rewrite (pixel_of_eq s1 s x Ev); reflexivity).
    rewrite Ec in IHx. rewrite IHx.
    destruct (Z.eq_dec x x1) as [->|Hne].
    + rewrite bool_decide_eq_false_2 by exact Hnotin.
      rewrite bool_decide_eq_true_2 by left.
      apply Enow. exact Hon.
    + rewrite (Eother x Hx Hon Hne).
      destruct (bool_decide (x ∈ l)) eqn:Hb.
      * apply bool_decide_eq_true in Hb.
        rewrite bool_decide_eq_true_2 by (right; exact Hb). reflexivity.
      * apply bool_decide_eq_false in Hb.
        rewrite bool_decide_eq_false_2; [reflexivity|].
        intros E. apply elem_of_cons in E as [E|E]; [congruence|contradiction].
Qed.

(** One row of one sprite.  For every pixel of the row that falls on the
    screen, once the row is drawn: a pixel of colour index 0 leaves the
    framebuffer pixel as it was, whatever the priority attribute (the loop
    turn changes nothing at all); a pixel of non-zero index of a sprite
    without the priority attribute is drawn; with the attribute it is drawn
    exactly when the shadow table holds 0 at that position, and otherwise
    the framebuffer pixel stays.  The shadow table is not written. *)
Lemma sprite_row_priority (s : PPU) (x : Z) :
  Z.of_nat (length (framebuffer s)) = LCD_WIDTH * LCD_HEIGHT * COLOR_DEPTH ->
  0 <= line_y s < LCD_HEIGHT ->
  0 <= x < 8 -> 0 <= adjusted_x + x < LCD_WIDTH ->
  let s' := sprite_row color_table object palette tile_index adjusted_x s in
  let pixel := plane_pixel s tile_index (sprite_bit object x) in
  let prio := test (Object.attributes object) ObjectAttributeFlags.Priority in
  let p := line_y s * LCD_WIDTH + (adjusted_x + x) in
  let shadow := rd (bg_color_table s) p in
  let color := color_table (Z.land (Z.shiftr palette (2 * pixel)) 3) in
  let before := pixel_at (framebuffer s) p in
  let after := pixel_at (framebuffer s') p in
  bg_color_table s' = bg_color_table s /\
  after = sprite_rule pixel prio shadow color before /\
  (pixel = 0 ->
     after = before /\
     sprite_pixel_step color_table object palette tile_index adjusted_x x s = s) /\
  (pixel <> 0 -> prio = false -> after = color) /\
  (pixel <> 0 -> prio = true ->
     (shadow = 0 -> after = color) /\ (shadow <> 0 -> after = before)).
Proof.
  intros Hfb Hly Hx Hon. unfold LCD_HEIGHT, LCD_WIDTH, COLOR_DEPTH in *.
  cbv zeta.
  destruct (sprite_row_fold (seqZ 0 8) s) as [(_ & Eb & _ & _) Hrow].
  { apply NoDup_seqZ. }
  { intros y Hy. apply elem_of_seqZ in Hy. lia. }
  { lia. }
  { exact Hly. }
  { rewrite Hfb. reflexivity. }
  specialize (Hrow x Hx Hon).
  rewrite bool_decide_eq_true_2 in Hrow by (apply elem_of_seqZ; lia).
  unfold spot, pixel_of, color_of, priority, LCD_WIDTH in Hrow.
  fold (sprite_row color_table object palette tile_index adjusted_x s) in Eb, Hrow.
  split; [exact Eb|]. split; [exact Hrow|].
  rewrite Hrow. unfold sprite_rule.
  split; [|split].
  - intros E. rewrite E. split; [reflexivity|].
    rewrite (sprite_pixel_step_on_screen x s Hon). unfold pixel_of.
    rewrite E. reflexivity.
  - intros Hne Hp. rewrite Hp.
    destruct (Z.eqb_spec (plane_pixel s tile_index (sprite_bit object x)) 0);
      [contradiction|reflexivity].
  - intros Hne Hp. rewrite Hp.
    destruct (Z.eqb_spec (plane_pixel s tile_index (sprite_bit object x)) 0);
      [contradiction|].
    cbn [negb]. split; intros Hs.
    + rewrite Hs. reflexivity.
    + destruct (Z.eqb_spec
        (rd (bg_color_table s) (line_y s * 160 + (adjusted_x + x))) 0);
        [contradiction|reflexivity].
Qed.

End SpritePriority.

(** ** C6: the OAM scan *)

(** *** The stable sort by X *)

Lemma insert_by_x_perm o l : Permutation (insert_by_x o l) (o :: l).
Proof.
  induction l as [|p l IH]; cbn [insert_by_x]; [reflexivity|].
  destruct (Object.x p <? Object.x o); [|reflexivity].
  rewrite IH. apply perm_swap.
Qed.

Lemma stable_sort_perm l : Permutation (stable_sort l) l.
Proof.
  induction l as [|o l IH]; [reflexivity|].
  cbn [stable_sort fold_right]. fold (stable_sort l).
  rewrite insert_by_x_perm. apply perm_skip, IH.
Qed.

Lemma insert_by_x_sorted o l :
  StronglySorted le_x l -> StronglySorted le_x (insert_by_x o l).
Proof.
  induction l as [|p l IH]; intros Hs; cbn [insert_by_x].
  - constructor; constructor.
  - inversion Hs as [|? ? Hl Hp]; subst.
    destruct (Z.ltb_spec (Object.x p) (Object.x o)) as [Hlt|Hge].
    + constructor; [apply IH, Hl|].
      rewrite (insert_by_x_perm o l). constructor; [unfold le_x; lia|exact Hp].
    + constructor; [exact Hs|].
      constructor; [exact Hge|].
      eapply Forall_impl; [|exact Hp]. unfold le_x. intros q Hq. cbn beta in *. lia.
Qed.

Lemma stable_sort_sorted l : StronglySorted le_x (stable_sort l).
Proof.
  induction l as [|o l IH]; [constructor|].
  cbn [stable_sort fold_right]. apply insert_by_x_sorted, IH.
Qed.

Lemma insert_by_x_stable v o l :
  List.filter (has_x v) (insert_by_x o l) = List.filter (has_x v) (o :: l).
Proof.
  induction l as [|p l IH]; [reflexivity|].
  cbn [insert_by_x].
  destruct (Z.ltb_spec (Object.x p) (Object.x o)) as [Hlt|Hge]; [|reflexivity].
  cbn [List.filter] in *. rewrite IH. unfold has_x.
  destruct (Z.eqb_spec (Object.x p) v), (Z.eqb_spec (Object.x o) v);
    try reflexivity. lia.
Qed.

Lemma stable_sort_stable v l :
  List.filter (has_x v) (stable_sort l) = List.filter (has_x v) l.
Proof.
  induction l as [|o l IH]; [reflexivity|].
  cbn [stable_sort fold_right]. fold (stable_sort l).
  rewrite insert_by_x_stable. cbn [List.filter]. rewrite IH. reflexivity.
Qed.

Lemma stable_sort_length l : length (stable_sort l) = length l.
Proof. apply Permutation_length, stable_sort_perm. Qed.

(** *** The scan loop *)

Lemma insert_padded {A : Type} (pre : list A) (k : nat) (z v : A) :
  <[length pre := v]> (pre ++ replicate (S k) z) = (pre ++ [v]) ++ replicate k z.
Proof.
  induction pre as [|a pre IH]; [reflexivity|].
  cbn [length app]. cbn. f_equal. exact IH.
Qed.

Lemma scan_loop s height (l : list Z) :
  forall pre : list Object.t,
    (length pre <= 10)%nat ->
    let found := List.filter (on_line height (line_y s)) (map (oam_entry s) l) in
    let pre' := take 10 (pre ++ found) in
    fold_left (fun acc i => scan_step s height i acc) l
      (pre ++ replicate (10 - length pre) Object.zero,
       Z.of_nat (length pre), Z.of_nat (length pre)) =
    (pre' ++ replicate (10 - length pre') Object.zero,
     Z.of_nat (length pre'), Z.of_nat (length pre')).
Proof.
  induction l as [|i l IH]; intros pre Hpre; cbv zeta.
  - cbn [map List.filter fold_left]. rewrite app_nil_r.
    rewrite take_ge by lia. reflexivity.
  - cbn [map List.filter fold_left]. unfold scan_step at 2.
    destruct (Z.eqb_spec (Z.of_nat (length pre)) 10) as [Hfull|Hroom].
    + assert (length pre = 10%nat) as Hlen by lia.
      rewrite (IH pre Hpre). cbv zeta.
      rewrite !take_app_le by lia. reflexivity.
    + destruct (on_line height (line_y s) (oam_entry s i)) eqn:Hon.
      * assert (length (pre ++ [oam_entry s i]) = S (length pre)) as Hlen
          by (rewrite length_app; cbn; lia).
        replace (Z.to_nat (Z.of_nat (length pre))) with (length pre) by lia.
        replace (10 - length pre)%nat with (S (10 - S (length pre))) by lia.
        rewrite insert_padded.
        replace (u8 (Z.of_nat (length pre) + 1)) with (Z.of_nat (length pre) + 1)
          by (unfold u8; rewrite Z.mod_small; lia).
        replace (Z.of_nat (length pre) + 1)
          with (Z.of_nat (length (pre ++ [oam_entry s i]))) by lia.
        rewrite <- Hlen.
        rewrite (IH (pre ++ [oam_entry s i])) by lia. cbv zeta.
        rewrite <- app_assoc. reflexivity.
      * apply (IH pre Hpre).
Qed.

(** *** PPU::scan_oam *)

Lemma scan_oam_result s :
  Z.of_nat (length (objects_on_scanline s)) = 10 ->
  num_obj_on_scanline (scan_oam s) = Z.of_nat (length (selected s)) /\
  objects_on_scanline (scan_oam s) =
    stable_sort (selected s) ++
    replicate (10 - length (selected s)) Object.zero.
Proof.
  intros Hlen. unfold scan_oam. cbv zeta. proj_simpl.
  replace (length (objects_on_scanline s)) with 10%nat by lia.
  pose proof (scan_loop s (sprite_height s) (seqZ 0 40) [] ltac:(cbn; lia)) as H.
  cbv zeta in H. cbn [app length] in H.
  change (10 - 0)%nat with 10%nat in H. change (Z.of_nat 0) with 0 in H.
  fold (oam_entries s) in H. fold (eligible s) in H. fold (selected s) in H.
  match goal with |- context [fold_left ?f ?l ?a] =>
    change (fold_left f l a) with
      (fold_left (fun acc i => scan_step s (sprite_height s) i acc) (seqZ 0 40)
         (replicate 10 Object.zero, 0, 0))
  end.
  rewrite H. proj_simpl. rewrite Nat2Z.id.
  rewrite take_app_length, drop_app_length. split; reflexivity.
Qed.

(** C6.  [scan_oam] walks the 40 entries in index order, takes those with
    [y - 16 <= line < y - 16 + height], keeps the first ten of them and drops
    the rest, and leaves them sorted by ascending X, entries of equal X in
    their OAM order: the kept entries are a stable rearrangement of the first
    ten eligible ones. *)
Theorem scan_oam_selects_ten_sorted (s : PPU) :
  sized s ->
  let s' := scan_oam s in
  let chosen := take (Z.to_nat (num_obj_on_scanline s')) (objects_on_scanline s') in
  eligible s =
    List.filter
      (fun o => (Object.y o - 16 <=? line_y s) &&
                (line_y s <? Object.y o - 16 + sprite_height s))
      (map (oam_entry s) (seqZ 0 40)) /\
  selected s = take 10 (eligible s) /\
  num_obj_on_scanline s' = Z.of_nat (length (selected s)) /\
  0 <= num_obj_on_scanline s' <= 10 /\
  chosen = stable_sort (selected s) /\
  Permutation chosen (selected s) /\
  StronglySorted le_x chosen /\
  (forall v, List.filter (has_x v) chosen = List.filter (has_x v) (selected s)) /\
  objects_on_scanline s' =
    chosen ++ replicate (10 - length (selected s)) Object.zero.
Proof.
  intros (_ & _ & _ & _ & _ & Hlen) s' chosen.
  destruct (scan_oam_result s Hlen) as [Hn Ho]. fold s' in Hn, Ho.
  assert (length (selected s) <= 10)%nat as Hten
    by (unfold selected; rewrite length_take; lia).
  assert (chosen = stable_sort (selected s)) as Hc.
  { subst chosen. rewrite Hn, Ho, Nat2Z.id.
    rewrite <- (stable_sort_length (selected s)). apply take_app_length. }
  split; [reflexivity|]. split; [reflexivity|]. split; [exact Hn|].
  split; [lia|]. split; [exact Hc|]. rewrite Hc.
  split; [apply stable_sort_perm|]. split; [apply stable_sort_sorted|].
  split; [intros v; apply stable_sort_stable|exact Ho].
Qed.

(** ** The accumulator is only read by [step] itself *)

Lemma fold_left_commute {S I : Type} (g : S -> S) (f : S -> I -> S) (l : list I) :
  (forall s i, f (g s) i = g (f s i)) ->
  forall s, fold_left f l (g s) = g (fold_left f l s).
Proof.
  intros Hf. induction l as [|i l IH]; intros s; [reflexivity|].
  cbn [fold_left]. rewrite Hf. apply IH.
Qed.

Section Accumulator.
Variable color_table : Z -> Color.
Variable c : Z.

Lemma bg_pixel_step_cycles tm td i s :
  bg_pixel_step color_table tm td i (set_cycles c s) =
  set_cycles c (bg_pixel_step color_table tm td i s).
Proof.
  unfold bg_pixel_step. cbv zeta. proj_simpl.
  destruct (negb (test (lcd_control s) LCDControlFlags.BGEnable)
            || negb (test (render_flags s) DisplayRenderFlags.Background));
    reflexivity.
Qed.

Lemma render_bg_layer_cycles s :
  render_bg_layer color_table (set_cycles c s) =
  set_cycles c (render_bg_layer color_table s).
Proof.
  unfold render_bg_layer. cbv zeta. proj_simpl.
  apply (fold_left_commute (set_cycles c)). intros. apply bg_pixel_step_cycles.
Qed.

Lemma window_pixel_step_cycles tm td i s a :
  window_pixel_step color_table tm td i (set_cycles c s, a) =
  (set_cycles c (fst (window_pixel_step color_table tm td i (s, a))),
   snd (window_pixel_step color_table tm td i (s, a))).
Proof.
  unfold window_pixel_step. cbv zeta. proj_simpl.
  destruct ((window_y s <=? line_y s) && (window_x s - 7 <=? i)); reflexivity.
Qed.

Lemma render_window_layer_cycles s :
  render_window_layer color_table (set_cycles c s) =
  set_cycles c (render_window_layer color_table s).
Proof.
  unfold render_window_layer. cbv zeta. proj_simpl.
  destruct (test (lcd_control s) LCDControlFlags.WindowEnable && window_draw_flag s
            && test (render_flags s) DisplayRenderFlags.Window); [|reflexivity].
  set (g := fun sa : PPU * Z => (set_cycles c (fst sa), snd sa)).
  change (set_cycles c s, 0) with (g (s, 0)).
  rewrite (fold_left_commute g)
    by (intros [s0 a0] i; apply window_pixel_step_cycles).
  match goal with |- context [fold_left ?f ?l (s, 0)] =>
    destruct (fold_left f l (s, 0)) as [s' a']
  end.
  reflexivity.
Qed.

Lemma sprite_pixel_step_cycles o pal ti ax x s :
  sprite_pixel_step color_table o pal ti ax x (set_cycles c s) =
  set_cycles c (sprite_pixel_step color_table o pal ti ax x s).
Proof.
  unfold sprite_pixel_step, plane_pixel. cbv zeta. proj_simpl.
  repeat match goal with |- context [if ?b then _ else _] => destruct b end;
    reflexivity.
Qed.

Lemma sprite_row_cycles o pal ti ax s :
  sprite_row color_table o pal ti ax (set_cycles c s) =
  set_cycles c (sprite_row color_table o pal ti ax s).
Proof.
  unfold sprite_row. apply (fold_left_commute (set_cycles c)).
  intros. apply sprite_pixel_step_cycles.
Qed.

Lemma sprite_step_cycles h i s :
  sprite_step color_table h i (set_cycles c s) =
  set_cycles c (sprite_step color_table h i s).
Proof.
  unfold sprite_step. cbv zeta. proj_simpl.
  rewrite <- sprite_row_cycles. reflexivity.
Qed.

Lemma render_sprite_layer_cycles s :
  render_sprite_layer color_table (set_cycles c s) =
  set_cycles c (render_sprite_layer color_table s).
Proof.
  unfold render_sprite_layer. cbv zeta. proj_simpl.
  destruct (test (lcd_control s) LCDControlFlags.SpriteEnable
            && test (render_flags s) DisplayRenderFlags.Objects); [|reflexivity].
  apply (fold_left_commute (set_cycles c)). intros. apply sprite_step_cycles.
Qed.

Lemma render_scanline_cycles s :
  render_scanline color_table (set_cycles c s) =
  set_cycles c (render_scanline color_table s).
Proof.
  unfold render_scanline. cbv zeta.
  rewrite render_bg_layer_cycles.
  assert (forall a, render_flags (set_cycles c a) = render_flags a) as E
    by reflexivity.
  rewrite E.
  destruct (test (render_flags (render_bg_layer color_table s))
              DisplayRenderFlags.Window).
  - rewrite render_window_layer_cycles, E.
    destruct (test _ DisplayRenderFlags.Objects);
      [apply render_sprite_layer_cycles|reflexivity].
  - rewrite E.
    destruct (test _ DisplayRenderFlags.Objects);
      [apply render_sprite_layer_cycles|reflexivity].
Qed.

Lemma scan_oam_cycles s : scan_oam (set_cycles c s) = set_cycles c (scan_oam s).
Proof.
  unfold scan_oam. cbv zeta. proj_simpl.
  repeat match goal with |- context [fold_left ?f ?l ?a] =>
    progress change (fold_left f l a) with
      (fold_left (fun acc i => scan_step s (sprite_height s) i acc) (seqZ 0 40)
         (replicate (length (objects_on_scanline s)) Object.zero, 0, 0))
  end.
  match goal with |- context [fold_left ?f ?l ?a] =>
    destruct (fold_left f l a) as [[objs t] num]
  end.
  reflexivity.
Qed.

End Accumulator.

(** ** One call of N cycles against N calls of one cycle *)

Section Batching.
Variable color_table : Z -> Color.

Lemma u32_small z : 0 <= z < 4294967296 -> u32 z = z.
Proof. intros H. unfold u32. apply Z.mod_small. exact H. Qed.

Lemma dispatch_idle allow s :
  cycles s < budget (mode s) -> dispatch color_table allow s = (s, []).
Proof.
  unfold dispatch, budget. intros H.
  destruct (mode s);
    match goal with |- context [?a <=? ?b] =>
      destruct (Z.leb_spec a b); [lia|reflexivity] end.
Qed.

Lemma dispatch_cycles allow s c1 c2 :
  budget (mode s) <= c1 -> budget (mode s) <= c2 ->
  let d1 := dispatch color_table allow (set_cycles c1 s) in
  dispatch color_table allow (set_cycles c2 s) =
    (set_cycles (cycles (fst d1) + (c2 - c1)) (fst d1), snd d1).
Proof.
  unfold dispatch, budget. cbv zeta. proj_simpl. intros H1 H2.
  destruct (mode s) eqn:M.
  - rewrite !(proj2 (Z.leb_le 204 _)) by assumption.
    destruct (u8 (line_y s + 1) =? 144); proj_simpl;
      replace (c1 - 204 + (c2 - c1)) with (c2 - 204) by lia; reflexivity.
  - rewrite !(proj2 (Z.leb_le 456 _)) by assumption.
    destruct (153 <? u8 (line_y s + 1)); proj_simpl;
      replace (c1 - 456 + (c2 - c1)) with (c2 - 456) by lia; reflexivity.
  - rewrite !(proj2 (Z.leb_le 80 _)) by assumption.
    rewrite !scan_oam_cycles. proj_simpl.
    generalize (scan_oam s) as r. intros r.
    replace (c1 - 80 + (c2 - c1)) with (c2 - 80) by lia. reflexivity.
  - rewrite !(proj2 (Z.leb_le 172 _)) by assumption.
    change (set_mode HBlank (set_cycles (c2 - 172) (set_cycles c2 s)))
      with (set_cycles (c2 - 172) (set_mode HBlank s)).
    change (set_mode HBlank (set_cycles (c1 - 172) (set_cycles c1 s)))
      with (set_cycles (c1 - 172) (set_mode HBlank s)).
    rewrite !render_scanline_cycles. proj_simpl.
    generalize (render_scanline color_table (set_mode HBlank s)) as r. intros r.
    replace (c1 - 172 + (c2 - c1)) with (c2 - 172) by lia. reflexivity.
Qed.

Lemma finish_cycles allow c s :
  finish allow (set_cycles c s) =
    (set_cycles c (fst (finish allow s)), snd (finish allow s)).
Proof.
  rewrite !finish_eq.
  unfold finish_status, finish_requests, check_stat. proj_simpl.
  destruct (window_y s =? line_y s); reflexivity.
Qed.

Lemma finish_keeps_cycles allow s : cycles (fst (finish allow s)) = cycles s.
Proof.
  rewrite finish_eq. proj_simpl. destruct (window_y s =? line_y s); reflexivity.
Qed.

Lemma step_shift n1 n2 s :
  display_on s = true -> previously_disabled s = false ->
  0 <= cycles s -> 0 <= n1 <= n2 -> cycles s + n2 < 4294967296 ->
  budget (mode s) <= cycles s + n1 ->
  let r1 := step color_table n1 s in
  step color_table n2 s =
    (set_cycles (cycles (fst r1) + (n2 - n1)) (fst r1), snd r1).
Proof.
  intros Hon Hpd Hc Hn Hmax Hb. cbv zeta.
  rewrite !step_on by assumption. cbv zeta.
  rewrite (wake_settled_id s Hpd), !u32_small by lia.
  pose proof (dispatch_cycles (negb (stat_any s)) s (cycles s + n1) (cycles s + n2)
                ltac:(lia) ltac:(lia)) as H.
  cbv zeta in H. rewrite H. clear H.
  destruct (dispatch color_table (negb (stat_any s)) (set_cycles (cycles s + n1) s))
    as [d1 i1].
  proj_simpl. rewrite finish_cycles. proj_simpl. rewrite finish_keeps_cycles.
  replace (cycles s + n2 - (cycles s + n1)) with (n2 - n1) by lia.
  reflexivity.
Qed.

Lemma step_settled n s :
  display_on s = true -> settled (fst (step color_table n s)).
Proof.
  intros Hon. pose proof (step_previously_disabled color_table n s Hon) as Hpd.
  destruct (step_shape color_table n s Hon) as (d & Hm & _ & _ & Hs & _).
  rewrite Hs in *. clear Hs.
  assert (0 <= cycles d) as Hc.
  { unfold dispatch_machine, machine in Hm. cbv zeta in Hm. proj_simpl.
    pose proof (Z.mod_pos_bound (cycles (wake s) + n) 4294967296 ltac:(lia)) as Hu.
    fold (u32 (cycles (wake s) + n)) in Hu. revert Hm.
    destruct (mode (wake s));
      repeat match goal with |- context [?a <=? ?b] =>
        destruct (Z.leb_spec a b) end;
      split_tests; intros Hm; injection Hm as _ E _ _ _ _ _; lia. }
  assert (forall b : bool,
            machine (if b then set_window_draw_flag true d else d)
            = (mode d, cycles d, line_y d, status d,
               (if b then true else window_draw_flag d),
               previously_disabled d, framebuffer_complete d)) as E
    by (intros []; reflexivity).
  unfold settled, check_stat. proj_simpl.
  specialize (E (window_y d =? line_y d)). unfold machine in E.
  injection E as E1 E2 E3 _ E5 _ _.
  assert (window_y (if window_y d =? line_y d then set_window_draw_flag true d else d)
          = window_y d) as Ew by (destruct (window_y d =? line_y d); reflexivity).
  assert (line_y_compare (if window_y d =? line_y d then set_window_draw_flag true d else d)
          = line_y_compare d) as Ey by (destruct (window_y d =? line_y d); reflexivity).
  rewrite E1, E2, E3, E5, Ew, Ey.
  split; [exact Hpd|]. split; [exact Hc|]. split; [apply finish_status_byte|].
  split; [apply finish_status_mode|]. split; [apply finish_status_compare|].
  intros Hw. rewrite (proj2 (Z.eqb_eq _ _) Hw). reflexivity.
Qed.

Lemma step_idle n s :
  display_on s = true -> settled s -> 0 <= n ->
  cycles s + n < budget (mode s) ->
  step color_table n s = (set_cycles (cycles s + n) s, []).
Proof.
  intros Hon (Hpd & Hc & Hb & Hm & Hcmp & Hw) Hn Hq.
  rewrite step_on by assumption. cbv zeta.
  rewrite (wake_settled_id s Hpd).
  assert (budget (mode s) <= 456) as Hmax by (destruct (mode s); cbn; lia).
  rewrite u32_small by lia.
  rewrite dispatch_idle by (proj_simpl; exact Hq).
  rewrite finish_eq. proj_simpl.
  assert (finish_status (set_cycles (cycles s + n) s) = status s) as ->
    by (apply (finish_status_settled s); assumption).
  assert (finish_requests (negb (stat_any s)) (set_cycles (cycles s + n) s) = [])
    as ->.
  { unfold finish_requests. proj_simpl. rewrite <- Hcmp.
    unfold check_stat. proj_simpl. unfold stat_any, check_stat.
    destruct (test (status s) LYCandLYCompareType),
      (test (status s) EnableLYCandLYInt); reflexivity. }
  f_equal.
  destruct (Z.eqb_spec (window_y s) (line_y s)) as [E|E].
  - specialize (Hw E). destruct s. cbn in Hw. subst. reflexivity.
  - destruct s. reflexivity.
Qed.

Lemma step_after_idle n1 n2 s :
  display_on s = true -> previously_disabled s = false ->
  0 <= cycles s -> 0 <= n1 -> 0 <= n2 -> cycles s + n1 + n2 < 4294967296 ->
  step color_table n2 (set_cycles (cycles s + n1) s) = step color_table (n1 + n2) s.
Proof.
  intros Hon Hpd Hc H1 H2 Hmax.
  rewrite (step_on _ n2 (set_cycles (cycles s + n1) s)) by exact Hon.
  rewrite (step_on _ (n1 + n2) s) by exact Hon. cbv zeta.
  rewrite (wake_settled_id s Hpd).
  rewrite (wake_settled_id (set_cycles (cycles s + n1) s)) by exact Hpd.
  proj_simpl. rewrite !u32_small by lia.
  change (stat_any (set_cycles (cycles s + n1) s)) with (stat_any s).
  change (set_cycles (cycles s + n1 + n2) (set_cycles (cycles s + n1) s))
    with (set_cycles (cycles s + n1 + n2) s).
  replace (cycles s + (n1 + n2)) with (cycles s + n1 + n2) by lia.
  reflexivity.
Qed.

Lemma ticks_S N s :
  ticks color_table (S N) s =
    (fst (ticks color_table N (fst (step color_table 1 s))),
     snd (step color_table 1 s) ++
     snd (ticks color_table N (fst (step color_table 1 s)))).
Proof.
  unfold ticks. cbn [repeat trace]. cbv zeta.
  rewrite final_cons, requests_cons. reflexivity.
Qed.

End Batching.

(** ** C1: single cycles against one batch *)

Section BatchTheorem.
Variable color_table : Z -> Color.

(** C1, as the code has it.  From a state as a call leaves it, with the
    display on, [N >= 1] calls of one cycle end in the same state and make
    the same requests in the same order as one call of [N] cycles, provided
    the accumulator does not overflow and the one call leaves the accumulator
    below the budget of the mode it ends in, that is, provided at most one
    mode transition falls due within the [N] cycles. *)
Theorem single_cycles_match_batch (N : nat) (s : PPU) :
  display_on s = true -> settled s -> (1 <= N)%nat ->
  cycles s + Z.of_nat N < 4294967296 ->
  (let r := fst (step color_table (Z.of_nat N) s) in cycles r < budget (mode r)) ->
  ticks color_table N s = step color_table (Z.of_nat N) s.
Proof.
  revert s. induction N as [|N IH]; intros s Hon Hs HN Hmax Hq; [lia|].
  rewrite ticks_S.
  pose proof (step_settled color_table 1 s Hon) as Hs1.
  pose proof (step_display_on color_table 1 s) as Hon1. rewrite Hon in Hon1.
  destruct N as [|N'].
  - unfold ticks. cbn [repeat trace final requests map last concat fst snd].
    rewrite app_nil_r. change (Z.of_nat 1) with 1.
    destruct (step color_table 1 s); reflexivity.
  - destruct Hs as (Hpd & Hc & Hrest).
    assert (settled s) as Hs by (split; [|split]; assumption).
    destruct (Z_lt_le_dec (cycles s + 1) (budget (mode s))) as [Hidle|Hdue].
    + rewrite (step_idle color_table 1 s Hon Hs ltac:(lia) Hidle) in *.
      cbn [fst snd app] in *.
      assert (step color_table (Z.of_nat (S N')) (set_cycles (cycles s + 1) s)
              = step color_table (Z.of_nat (S (S N'))) s) as E.
      { rewrite (step_after_idle color_table 1 (Z.of_nat (S N')) s) by (assumption || lia).
        f_equal. lia. }
      rewrite (IH (set_cycles (cycles s + 1) s) Hon1 Hs1 ltac:(lia)).
      * rewrite E. destruct (step color_table (Z.of_nat (S (S N'))) s); reflexivity.
      * proj_simpl. lia.
      * rewrite E. exact Hq.
    + pose proof (step_shift color_table 1 (Z.of_nat (S (S N'))) s Hon Hpd Hc
                    ltac:(lia) Hmax ltac:(lia)) as Hshift.
      cbv zeta in Hshift, Hq. rewrite Hshift in Hq |- *. proj_simpl.
      set (s1 := fst (step color_table 1 s)) in *.
      replace (Z.of_nat (S (S N')) - 1) with (Z.of_nat (S N')) in * by lia.
      assert (budget (mode s1) <= 456) as Hb by (destruct (mode s1); cbn; lia).
      pose proof (step_idle color_table (Z.of_nat (S N')) s1 Hon1 Hs1 ltac:(lia) Hq)
        as Hidle.
      rewrite (IH s1 Hon1 Hs1 ltac:(lia)).
      * rewrite Hidle. cbn [fst snd]. rewrite app_nil_r. reflexivity.
      * lia.
      * rewrite Hidle. proj_simpl. exact Hq.
Qed.

End BatchTheorem.

(** The claim of C1 as the spec states it fails on the state in which
    emulation starts: the accumulator holds 420 cycles in HBlank, one call of
    2 cycles makes the one transition to OAMSearch, two calls of 1 cycle make
    two transitions and reach DrawScanline. *)
Lemma batch_differs_from_single_cycles :
  display_on post_boot = true /\
  mode (fst (ticks shades 2 post_boot)) = DrawScanline /\
  mode (fst (step shades 2 post_boot)) = OAMSearch /\
  ticks shades 2 post_boot <> step shades 2 post_boot.
Proof.
  assert (mode (fst (ticks shades 2 post_boot)) = DrawScanline) as H1
    by (vm_compute; reflexivity).
  assert (mode (fst (step shades 2 post_boot)) = OAMSearch) as H2
    by (vm_compute; reflexivity).
  split; [vm_compute; reflexivity|]. split; [exact H1|]. split; [exact H2|].
  intros E. apply (f_equal (fun r => mode (fst r))) in E. cbv beta in E.
  rewrite H1, H2 in E. discriminate E.
Qed.

(** ** The theorems at concrete states *)

Lemma power_on_sized : sized power_on.
Proof.
  unfold sized, power_on, LCD_WIDTH, LCD_HEIGHT, COLOR_DEPTH. proj_simpl.
  rewrite !length_replicate, !Z2Nat.id by (intros H; discriminate H).
  repeat split; reflexivity.
Qed.

Lemma power_on_is_reset : reset true power_on = power_on.
Proof.
  unfold reset, power_on. proj_simpl. rewrite !length_replicate. reflexivity.
Qed.

Lemma post_boot_sized : sized post_boot.
Proof. exact power_on_sized. Qed.

Lemma post_boot_in_frame : in_frame post_boot.
Proof.
  unfold in_frame, post_boot, set_post_boot_state, power_on. proj_simpl.
  split; [reflexivity|lia].
Qed.

(** The frame position also holds when the display comes back on: the
    display-off path leaves the machine in HBlank with the soft reset
    pending, and the reset puts the line counter at 0. *)
Lemma reenabled_in_frame (color_table : Z -> Color) n s :
  display_on s = false -> in_frame (wake (fst (step color_table n s))).
Proof.
  intros Hoff. rewrite step_off by assumption.
  unfold in_frame, wake, reset, or_mode_bits, set_stat. proj_simpl.
  split; [reflexivity|lia].
Qed.

Lemma mid_line_settled : settled mid_line.
Proof.
  unfold settled, mid_line, post_boot, set_post_boot_state, power_on, check_stat.
  proj_simpl. repeat split; try reflexivity; try lia.
Qed.

Lemma single_cycles_match_batch_witness :
  display_on mid_line = true /\ settled mid_line /\
  ticks shades 5 mid_line = step shades 5 mid_line.
Proof.
  split; [reflexivity|]. split; [exact mid_line_settled|].
  apply (single_cycles_match_batch shades 5 mid_line).
  - reflexivity.
  - exact mid_line_settled.
  - lia.
  - vm_compute. reflexivity.
  - vm_compute. reflexivity.
Defined.

Lemma mode_cycle_witness :
  let tr := trace shades [4; 300; 80; 172] post_boot in
  chained (fun a b _ => successor (mode a, line_y a) (mode b, line_y b))
    post_boot tr /\
  Forall (fun r => in_frame (fst r) /\ 0 <= line_y (fst r) <= 153) tr.
Proof.
  apply (mode_cycle shades [4; 300; 80; 172] post_boot).
  - reflexivity.
  - exact post_boot_in_frame.
Defined.

Lemma stat_blocking_witness :
  stat_any hblank_armed = true /\
  stat_requests (snd (step shades 500 hblank_armed)) = 0%nat.
Proof.
  split; [reflexivity|].
  apply (stat_blocking shades 500 hblank_armed). reflexivity.
Defined.

Lemma background_off_paints_index_0_witness :
  bg_disabled power_on = true /\
  let s' := render_bg_layer shades power_on in
  let p := line_y power_on * LCD_WIDTH + 5 in
  rd (bg_color_table s') p = 0 /\
  pixel_at (framebuffer s') p = shades (Z.land (background_palette power_on) 3).
Proof.
  split; [reflexivity|].
  apply (background_off_paints_index_0 shades power_on 5).
  - reflexivity.
  - exact power_on_sized.
  - unfold power_on, LCD_HEIGHT. proj_simpl. lia.
  - unfold LCD_WIDTH. lia.
Defined.

(** ** The code at work on small inputs *)

Example stable_sort_keeps_ties :
  map Object.tile
    (stable_sort [Object.mk 0 40 0 0; Object.mk 0 8 1 0; Object.mk 0 40 2 0;
                  Object.mk 0 8 3 0; Object.mk 0 7 4 0])
  = [4; 1; 3; 0; 2].
Proof. vm_compute. reflexivity. Qed.

Example scan_oam_keeps_ten_of_twelve :
  let s' := scan_oam crowded_line in
  length (eligible crowded_line) = 12%nat /\
  num_obj_on_scanline s' = 10 /\
  map Object.tile (objects_on_scanline s') = [1; 3; 5; 7; 9; 0; 2; 4; 6; 8].
Proof. vm_compute. repeat split; reflexivity. Qed.

Example enters_vblank_at_line_144 :
  let s := set_line_y 143 (set_cycles 203 post_boot) in
  let r := step shades 1 s in
  (mode (fst r), line_y (fst r), cycles (fst r), snd r)
  = (VBlank, 144, 0, [INT_VBLANK_BIT]).
Proof. vm_compute. reflexivity. Qed.

Example wraps_at_line_153 :
  let s := set_mode VBlank (set_line_y 153 (set_cycles 455 post_boot)) in
  let r := step shades 1 s in
  (mode (fst r), line_y (fst r), cycles (fst r), snd r) = (OAMSearch, 0, 0, []).
Proof. vm_compute. reflexivity. Qed.

Example solid_background_line :
  let s' := render_bg_layer shades solid_background in
  forallb (fun i => (rd (bg_color_table s') i =? 3) &&
                    (c0 (pixel_at (framebuffer s') i) =? c0 (shades 3)))
    (seqZ 0 160) = true.
Proof. vm_compute. reflexivity. Qed.

Example sprite_yields_to_background :
  let s' := render_scanline shades
              (scan_oam (sprite_over_background 147)) in
  rd (bg_color_table s') (4 * 160) = 1 /\
  pixel_at (framebuffer s') (4 * 160) = shades 1.
Proof. vm_compute. split; reflexivity. Qed.

Example sprite_drawn_over_index_0 :
  let s' := render_scanline shades
              (scan_oam (sprite_over_background 146)) in
  rd (bg_color_table s') (4 * 160) = 0 /\
  pixel_at (framebuffer s') (4 * 160) = shades 3.
Proof. vm_compute. split; reflexivity. Qed.

(** * Further properties *)

(** ** The memories: PPU::write_vram, PPU::read_vram, PPU::write_oam,
       PPU::read_oam, PPU::instant_dma *)

(** Projections of the assignments to the memories and the registers. *)
Ltac mem_simpl :=
  cbn [fst snd window_draw_flag previously_disabled num_obj_on_scanline cycles
       window_line_y render_flags status lcd_control background_palette
       object_palette_0 object_palette_1 screen_scroll_y screen_scroll_x
       window_y window_x line_y line_y_compare mode vram oam framebuffer
       framebuffer_complete bg_color_table objects_on_scanline
       set_window_draw_flag set_previously_disabled set_num_obj_on_scanline
       set_cycles set_window_line_y set_status set_line_y set_mode
       set_framebuffer set_framebuffer_complete set_bg_color_table
       set_objects_on_scanline set_vram set_oam set_lcd_control
       set_background_palette set_object_palette_0] in *.

(** X1.  Reading a byte back: a write inside the array is seen at its address and
    nowhere else, in VRAM and in OAM alike, and the write to one memory
    leaves the other alone. *)
Theorem write_then_read (s : PPU) (a b v : Z) :
  0 <= a -> 0 <= b ->
  (a < Z.of_nat (length (vram s)) ->
   read_vram b (write_vram a v s) = if b =? a then v else read_vram b s) /\
  (a < Z.of_nat (length (oam s)) ->
   read_oam b (write_oam a v s) = if b =? a then v else read_oam b s) /\
  read_oam b (write_vram a v s) = read_oam b s /\
  read_vram b (write_oam a v s) = read_vram b s.
Proof.
  intros Ha Hb. unfold read_vram, write_vram, read_oam, write_oam. mem_simpl.
  repeat split; try reflexivity; intros Hlen;
    destruct (Z.eqb_spec b a) as [->|Hne];
    (apply rd_wr_eq; lia) || (apply rd_wr_ne; lia).
Qed.

Lemma write_then_read_witness :
  read_vram 16 (write_vram 16 255 post_boot) = 255 /\
  read_oam 3 (write_oam 4 9 post_boot) = read_oam 3 post_boot.
Proof.
  destruct (write_then_read post_boot 16 16 255 ltac:(lia) ltac:(lia)) as (H1 & _).
  destruct (write_then_read post_boot 4 3 9 ltac:(lia) ltac:(lia)) as (_ & H2 & _).
  split.
  - apply H1. destruct post_boot_sized as (E & _). rewrite E. lia.
  - apply H2. destruct post_boot_sized as (_ & E & _). rewrite E. lia.
Defined.

(** X2.  An OAM entry written byte by byte is read back by the scanner as
    written, and the entries of the other slots are as before. *)
Theorem put_sprite_then_oam_entry (s : PPU) (slot k : Z) (o : Object.t) :
  Z.of_nat (length (oam s)) = 160 -> 0 <= slot < 40 -> 0 <= k ->
  oam_entry (put_sprite slot o s) k = if k =? slot then o else oam_entry s k.
Proof.
  intros Hlen Hslot Hk. unfold put_sprite, oam_entry, write_oam. mem_simpl.
  destruct (Z.eqb_spec k slot) as [->|Hne].
  - destruct o as [oy ox ot oa]. cbn [Object.y Object.x Object.tile Object.attributes].
    f_equal.
    + rewrite !rd_wr_ne by lia. apply rd_wr_eq. lia.
    + rewrite !rd_wr_ne by lia. apply rd_wr_eq. rewrite !length_wr. lia.
    + rewrite !rd_wr_ne by lia. apply rd_wr_eq. rewrite !length_wr. lia.
    + apply rd_wr_eq. rewrite !length_wr. lia.
  - f_equal; rewrite !rd_wr_ne by lia; reflexivity.
Qed.

Lemma put_sprite_then_oam_entry_witness :
  oam_entry (put_sprite 3 (Object.mk 20 8 1 128) post_boot) 3
  = Object.mk 20 8 1 128.
Proof.
  apply (put_sprite_then_oam_entry post_boot 3 3 (Object.mk 20 8 1 128)).
  - destruct post_boot_sized as (_ & E & _). exact E.
  - lia.
  - lia.
Defined.

(** *** PPU::instant_dma *)

Lemma dma_fold (f : Z -> Z) (l : list Z) :
  forall s,
    (forall j, In j l -> 0 <= j < Z.of_nat (length (oam s))) ->
    let s' := fold_left (fun s i => set_oam (wr (oam s) i (f i)) s) l s in
    length (oam s') = length (oam s) /\
    (forall j, 0 <= j -> rd (oam s') j = if bool_decide (j ∈ l) then f j else rd (oam s) j) /\
    kept (set_oam (oam s) s') = kept s /\
    set_oam (oam s) s' = s.
Proof.
  induction l as [|i l IH]; intros s Hl; cbv zeta.
  - cbn [fold_left]. split; [reflexivity|]. split.
    + intros j _. rewrite bool_decide_eq_false_2 by apply not_elem_of_nil. reflexivity.
    + split; destruct s; reflexivity.
  - cbn [fold_left].
    set (s1 := set_oam (wr (oam s) i (f i)) s).
    assert (0 <= i < Z.of_nat (length (oam s))) as Hi by (apply Hl; left; reflexivity).
    destruct (IH s1) as (Hlen & Hrd & _ & Hrest).
    { intros j Hj. subst s1. mem_simpl. rewrite length_wr. apply Hl. right. exact Hj. }
    subst s1. mem_simpl. rewrite length_wr in Hlen.
    split; [exact Hlen|]. split.
    + intros j Hj. rewrite (Hrd j Hj).
      destruct (bool_decide (j ∈ l)) eqn:Hb.
      * apply bool_decide_eq_true in Hb.
        rewrite bool_decide_eq_true_2 by (right; exact Hb). reflexivity.
      * apply bool_decide_eq_false in Hb.
        destruct (Z.eq_dec j i) as [->|Hne].
        -- rewrite bool_decide_eq_true_2 by left. apply rd_wr_eq. lia.
        -- rewrite bool_decide_eq_false_2
             by (intros E; apply elem_of_cons in E as [E|E]; [congruence|contradiction]).
           apply rd_wr_ne; lia.
    + match goal with |- context [fold_left ?g l ?a] =>
        remember (fold_left g l a) as r eqn:E; clear E end.
      assert (set_oam (oam s) r = s) as Es.
      { apply (f_equal (set_oam (oam s))) in Hrest. destruct r, s.
        cbn in Hrest |- *. exact Hrest. }
      rewrite Es. split; reflexivity.
Qed.

(** X3.  The transfer replaces the 160 bytes of OAM by the 160 bytes of system
    memory that start at [address * 256], and changes nothing else. *)
Theorem instant_dma_copies_page (bus_read : Z -> Z) (address : Z) (s : PPU) :
  Z.of_nat (length (oam s)) = 160 -> 0 <= address < 256 ->
  let s' := instant_dma bus_read address s in
  (forall i, 0 <= i < 160 -> read_oam i s' = bus_read (address * 256 + i)) /\
  (forall k, 0 <= k < 40 ->
     oam_entry s' k =
       Object.mk (bus_read (address * 256 + k * 4))
                 (bus_read (address * 256 + k * 4 + 1))
                 (bus_read (address * 256 + k * 4 + 2))
                 (bus_read (address * 256 + k * 4 + 3))) /\
  set_oam (oam s) s' = s.
Proof.
  intros Hlen Ha s'.
  assert (u16 (Z.shiftl address 8) = address * 256) as Eaddr.
  { rewrite Z.shiftl_mul_pow2 by lia. unfold u16. apply Z.mod_small.
    change (2 ^ 8) with 256. lia. }
  pose proof (dma_fold (fun i => bus_read (u16 (Z.shiftl address 8) + i))
                (seqZ 0 160) s) as H.
  cbv zeta in H. subst s'. unfold instant_dma, read_oam. cbv zeta.
  match type of H with context [fold_left ?g ?l s] =>
    set (s' := fold_left g l s) in *
  end.
  destruct H as (_ & Hrd & _ & Hrest).
  { intros j Hj. apply list_elem_of_In, elem_of_seqZ in Hj. lia. }
  assert (forall i, 0 <= i < 160 -> rd (oam s') i = bus_read (address * 256 + i)) as Hr.
  { intros i Hi. rewrite (Hrd i) by lia.
    rewrite bool_decide_eq_true_2 by (apply elem_of_seqZ; lia).
    rewrite Eaddr. reflexivity. }
  split; [exact Hr|]. split; [|exact Hrest].
  intros k Hk. unfold oam_entry. rewrite !Hr by lia.
  f_equal; f_equal; lia.
Qed.

Lemma instant_dma_copies_page_witness :
  Z.of_nat (length (oam post_boot)) = 160 /\
  (forall i, 0 <= i < 160 ->
     read_oam i (instant_dma (fun a => a mod 256) 192 post_boot)
     = (192 * 256 + i) mod 256).
Proof.
  assert (Z.of_nat (length (oam post_boot)) = 160) as E
    by (destruct post_boot_sized as (_ & E & _); exact E).
  split; [exact E|].
  refine (proj1 (instant_dma_copies_page (fun a => a mod 256) 192 post_boot E _)).
  lia.
Defined.

(** ** The status register: PPU::set_stat, PPU::check_stat *)

Lemma land_set_flag st f :
  0 <= f < 256 -> Z.land (u8 (Z.lor st f)) f = f.
Proof.
  intros Hf. apply Z.bits_inj'. intros k Hk. bit_rewrite.
  destruct (Z.ltb_spec k 8) as [H|H].
  - destruct (Z.testbit st k), (Z.testbit f k); reflexivity.
  - rewrite (byte_bits_high f k) by lia. reflexivity.
Qed.

Lemma land_clear_flag st f : Z.land (u8 (Z.land st (Z.lnot f))) f = 0.
Proof.
  apply Z.bits_inj'. intros k Hk. bit_rewrite. rewrite Z.bits_0.
  destruct (k <? 8), (Z.testbit st k), (Z.testbit f k); reflexivity.
Qed.

Lemma land_other_flag st f o :
  0 <= o < 256 -> Z.land f o = 0 ->
  Z.land (u8 (Z.lor st f)) o = Z.land st o /\
  Z.land (u8 (Z.land st (Z.lnot f))) o = Z.land st o.
Proof.
  intros Ho Hd.
  assert (forall k, Z.testbit f k && Z.testbit o k = false) as Hk'
    by (intros k; rewrite <- Z.land_spec, Hd; apply Z.bits_0).
  split; apply Z.bits_inj'; intros k Hk; bit_rewrite; specialize (Hk' k);
    (destruct (Z.ltb_spec k 8) as [H|H];
     [ destruct (Z.testbit st k), (Z.testbit f k), (Z.testbit o k);
       try reflexivity; discriminate Hk'
     | rewrite (byte_bits_high o k) by lia; rewrite !andb_false_r; reflexivity ]).
Qed.

(** X4.  Setting flags of the status register and testing them: the flags just
    set test true, the flags just cleared test false, flags that share no bit
    with them test as before, and the register stays a byte. *)
Theorem set_stat_then_check_stat (s : PPU) (flags other : Z) (value : bool) :
  0 < flags < 256 -> 0 <= other < 256 -> Z.land flags other = 0 ->
  check_stat flags (set_stat flags value s) = value /\
  check_stat other (set_stat flags value s) = check_stat other s /\
  0 <= status (set_stat flags value s) < 256.
Proof.
  intros Hf Ho Hd. unfold check_stat, set_stat, test.
  destruct (land_other_flag (status s) flags other Ho Hd) as [E1 E2].
  destruct value; proj_simpl.
  - rewrite land_set_flag by lia. rewrite E1.
    split; [|split; [reflexivity|apply u8_range]].
    destruct (Z.eqb_spec flags 0); [lia|reflexivity].
  - rewrite land_clear_flag, E2.
    split; [reflexivity|]. split; [reflexivity|apply u8_range].
Qed.

Lemma set_stat_then_check_stat_witness :
  check_stat LYCandLYCompareType (set_stat LYCandLYCompareType true post_boot) = true /\
  check_stat EnableOAMInt (set_stat LYCandLYCompareType true post_boot)
  = check_stat EnableOAMInt post_boot /\
  0 <= status (set_stat LYCandLYCompareType true post_boot) < 256.
Proof.
  apply (set_stat_then_check_stat post_boot LYCandLYCompareType EnableOAMInt true).
  - unfold LYCandLYCompareType. lia.
  - unfold EnableOAMInt. lia.
  - reflexivity.
Defined.

(** ** PPU::step: the status register it leaves *)

Section StatusAfterStep.
Variable color_table : Z -> Color.

Lemma dispatch_machine_status s : 
  forall m c l st w p f, dispatch_machine s = (m, c, l, st, w, p, f) -> st = status s.
Proof.
  intros m c l st w p f. unfold dispatch_machine, machine. cbv zeta.
  destruct (mode s); split_tests; intros H; injection H as _ _ _ E _ _ _;
    symmetry; exact E.
Qed.

(** X5.  After every call with the display on, the two mode bits of the status
    register encode the mode, the compare flag says whether LY equals LYC,
    the four interrupt enables are as before the call, the register is a
    byte, and no soft reset is pending. *)
Theorem status_after_step (n : Z) (s : PPU) :
  display_on s = true ->
  let s' := fst (step color_table n s) in
  Z.land (status s') 3 = mode_code (mode s') /\
  check_stat LYCandLYCompareType s' = (line_y s' =? line_y_compare s') /\
  check_stat EnableHBlankInt s' = check_stat EnableHBlankInt s /\
  check_stat EnableVBlankInt s' = check_stat EnableVBlankInt s /\
  check_stat EnableOAMInt s' = check_stat EnableOAMInt s /\
  check_stat EnableLYCandLYInt s' = check_stat EnableLYCandLYInt s /\
  0 <= status s' < 256 /\ previously_disabled s' = false.
Proof.
  intros Hon s'.
  destruct (step_settled color_table n s Hon) as (Hpd & _ & Hb & Hm & Hc & _).
  fold s' in Hpd, Hb, Hm, Hc.
  destruct (step_shape color_table n s Hon) as (d & Hd & _ & _ & Hs & _).
  fold s' in Hs.
  assert (status d = status s) as Est.
  { unfold machine in Hd.
    rewrite (dispatch_machine_status _ _ _ _ _ _ _ _ (eq_sym Hd)).
    proj_simpl. apply wake_status. }
  assert (status s' = finish_status d) as Es' by (rewrite Hs; reflexivity).
  assert (forall flag,
            flag = EnableHBlankInt \/ flag = EnableVBlankInt \/
            flag = EnableOAMInt \/ flag = EnableLYCandLYInt ->
            check_stat flag s' = check_stat flag s) as He.
  { intros flag Hf. unfold check_stat. rewrite Es', <- Est.
    apply finish_status_enable. exact Hf. }
  split; [exact Hm|]. split; [exact Hc|].
  split; [apply He; auto|]. split; [apply He; auto|].
  split; [apply He; auto|]. split; [apply He; auto|].
  split; [exact Hb|exact Hpd].
Qed.

Lemma off_status_idem st :
  Z.land (u8 (Z.land (u8 st) 252)) 252 = Z.land (u8 st) 252.
Proof. byte_bits. Qed.

(** X6.  While the display is off the machine is frozen: the first call puts it
    in HBlank with the soft reset pending, and every further call, whatever
    its cycle count, leaves that state as it is and requests nothing. *)
Theorem display_off_is_frozen (n m : Z) (s : PPU) :
  display_on s = false ->
  step color_table m (fst (step color_table n s)) = step color_table n s.
Proof.
  intros Hoff.
  assert (display_on (fst (step color_table n s)) = false) as Hoff'
    by (rewrite step_display_on; exact Hoff).
  rewrite (step_off _ m _ Hoff'). rewrite (step_off _ n s Hoff).
  unfold or_mode_bits, set_stat. proj_simpl. f_equal.
  rewrite !disabled_status, off_status_idem. reflexivity.
Qed.

End StatusAfterStep.

Lemma status_after_step_witness :
  let s' := fst (step shades 300 post_boot) in
  Z.land (status s') 3 = mode_code (mode s') /\
  check_stat LYCandLYCompareType s' = (line_y s' =? line_y_compare s') /\
  check_stat EnableHBlankInt s' = check_stat EnableHBlankInt post_boot /\
  check_stat EnableVBlankInt s' = check_stat EnableVBlankInt post_boot /\
  check_stat EnableOAMInt s' = check_stat EnableOAMInt post_boot /\
  check_stat EnableLYCandLYInt s' = check_stat EnableLYCandLYInt post_boot /\
  0 <= status s' < 256 /\ previously_disabled s' = false.
Proof. apply (status_after_step shades 300 post_boot). reflexivity. Defined.

Lemma display_off_is_frozen_witness :
  step shades 7 (fst (step shades 900 power_on)) = step shades 900 power_on.
Proof. apply (display_off_is_frozen shades 900 7 power_on). reflexivity. Defined.


(** ** PPU::step: the frame clock *)

Section FrameClock.
Variable color_table : Z -> Color.

Lemma step_clock n s :
  display_on s = true -> in_frame s -> timely s -> 0 <= n <= 80 ->
  let s' := fst (step color_table n s) in
  in_frame s' /\ timely s' /\ dot s' = (dot s + n) mod frame_cycles.
Proof.
  intros Hon Hin Ht Hn s'.
  destruct (step_successor color_table n s Hon Hin) as [_ Hin']. fold s' in Hin'.
  split; [exact Hin'|].
  destruct Hin as [Hpd Hl]. destruct Hin' as [_ Hl'].
  destruct (step_shape color_table n s Hon) as (d & Hd & _ & _ & Hs & _).
  fold s' in Hs.
  rewrite (wake_settled_id s Hpd) in Hd.
  assert (mode s' = mode d /\ line_y s' = line_y d /\ cycles s' = cycles d)
    as (Em & El & Ec)
    by (rewrite Hs; destruct (window_y d =? line_y d); repeat split; reflexivity).
  unfold timely, dot, frame_cycles, budget in *. rewrite Em, El, Ec in *.
  assert (budget (mode s) <= 456) as Hb by (destruct (mode s); cbn; lia).
  unfold budget in Hb.
  unfold dispatch_machine, machine in Hd. cbv zeta in Hd. proj_simpl.
  rewrite u32_small in Hd by (destruct (mode s); lia).
  assert (0 <= line_y s <= 153) as Hr by (destruct (mode s); lia).
  rewrite (u8_id (line_y s + 1)) in Hd by lia.
  revert Hd.
  destruct (mode s) eqn:M; cbn [line_offset] in *;
    repeat match goal with |- context [?a <=? ?b] =>
      destruct (Z.leb_spec a b) end;
    repeat match goal with |- context [?a <? ?b] =>
      destruct (Z.ltb_spec a b) end;
    repeat match goal with |- context [?a =? ?b] =>
      destruct (Z.eqb_spec a b) end;
    intros Hd; injection Hd as E1 E2 E3 _ _ _ _; rewrite E1, E2, E3 in *;
    cbn [line_offset]; (split; [lia|]);
    first [ rewrite Z.mod_small by lia; lia
          | apply (Z.mod_unique _ _ 1); lia ].
Qed.

(** X7.  The frame clock.  When the machine is inside the frame with no
    transition due and every call advances it by at most 80 cycles, the
    shortest mode, no cycle is lost or gained: the position in the frame
    after the calls is the position before plus the cycles given, modulo the
    70224 cycles of a frame, and again no transition is due. *)
Theorem frame_clock (ns : list Z) (s : PPU) :
  display_on s = true -> in_frame s -> timely s ->
  Forall (fun n => 0 <= n <= 80) ns ->
  let s' := final s (trace color_table ns s) in
  in_frame s' /\ timely s' /\
  dot s' = (dot s + foldr Z.add 0 ns) mod frame_cycles.
Proof.
  revert s. induction ns as [|n ns IH]; intros s Hon Hin Ht Hns; cbv zeta.
  - cbn. split; [exact Hin|]. split; [exact Ht|].
    rewrite Z.add_0_r. symmetry. apply Z.mod_small.
    destruct Hin as [_ Hl]. unfold timely, dot, frame_cycles, budget in *.
    destruct (mode s); cbn [line_offset]; lia.
  - inversion Hns as [|? ? Hn Hns']; subst.
    cbn [trace]. cbv zeta. rewrite final_cons. cbn [fst foldr].
    destruct (step_clock n s Hon Hin Ht Hn) as (Hin1 & Ht1 & Hd1).
    destruct (IH (fst (step color_table n s))
                (eq_trans (step_display_on color_table n s) Hon) Hin1 Ht1 Hns')
      as (Hin2 & Ht2 & Hd2).
    split; [exact Hin2|]. split; [exact Ht2|].
    rewrite Hd2, Hd1. rewrite Zplus_mod_idemp_l. f_equal. lia.
Qed.

End FrameClock.

Lemma frame_clock_witness :
  let s' := final mid_line (trace shades [5; 80; 80; 12] mid_line) in
  in_frame s' /\ timely s' /\
  dot s' = (dot mid_line + foldr Z.add 0 [5; 80; 80; 12]) mod frame_cycles.
Proof.
  apply (frame_clock shades [5; 80; 80; 12] mid_line).
  - reflexivity.
  - unfold in_frame, mid_line, post_boot, set_post_boot_state, power_on.
    proj_simpl. split; [reflexivity|lia].
  - unfold timely, mid_line, post_boot, set_post_boot_state, power_on.
    proj_simpl. cbn. lia.
  - repeat constructor; lia.
Defined.

(** ** PPU::step: when the buffers and the sprite list are written *)

Section BufferWrites.
Variable color_table : Z -> Color.

Lemma scan_oam_buffers s :
  framebuffer (scan_oam s) = framebuffer s /\
  bg_color_table (scan_oam s) = bg_color_table s /\
  window_line_y (scan_oam s) = window_line_y s.
Proof.
  unfold scan_oam. cbv zeta.
  match goal with |- context [fold_left ?f ?l ?a] =>
    destruct (fold_left f l a) as [[objs t] num] end.
  repeat split; reflexivity.
Qed.

Lemma dispatch_buffers allow s :
  let d := fst (dispatch color_table allow s) in
  (mode s = DrawScanline \/
   (framebuffer d = framebuffer s /\ bg_color_table d = bg_color_table s)) /\
  (mode s = DrawScanline \/ mode s = OAMSearch \/
   objects_on_scanline d = objects_on_scanline s).
Proof.
  unfold dispatch. cbv zeta.
  destruct (mode s) eqn:M.
  - split_tests; proj_simpl; (split; right; [split|right]; reflexivity).
  - split_tests; proj_simpl; (split; right; [split|right]; reflexivity).
  - split; [right|right; left; reflexivity].
    destruct (80 <=? cycles s); [|split; reflexivity].
    destruct (scan_oam_buffers s) as (E1 & E2 & _).
    remember (scan_oam s) as r eqn:E. clear E. proj_simpl. split; assumption.
  - split; left; reflexivity.
Qed.

Lemma finish_buffers allow d :
  let s' := fst (finish allow d) in
  framebuffer s' = framebuffer d /\ bg_color_table s' = bg_color_table d /\
  objects_on_scanline s' = objects_on_scanline d.
Proof.
  rewrite finish_eq. proj_simpl.
  destruct (window_y d =? line_y d); repeat split; reflexivity.
Qed.

(** X8.  A call writes the working framebuffer and the shadow table only when it
    leaves DrawScanline for HBlank, and the sprite list only then or when it
    leaves OAMSearch for DrawScanline.  Every other call, with the display on
    or off, leaves them as they were. *)
Theorem buffers_written_only_after_drawing (n : Z) (s : PPU) :
  let s' := fst (step color_table n s) in
  ((mode s = DrawScanline /\ mode s' = HBlank) \/
   (framebuffer s' = framebuffer s /\ bg_color_table s' = bg_color_table s)) /\
  ((mode s = DrawScanline /\ mode s' = HBlank) \/
   (mode s = OAMSearch /\ mode s' = DrawScanline) \/
   objects_on_scanline s' = objects_on_scanline s).
Proof.
  intros s'. destruct (display_on s) eqn:Hon.
  - pose proof (step_transition color_table n s Hon) as Ht. cbv zeta in Ht.
    fold s' in Ht.
    assert (mode s = DrawScanline -> mode s' = HBlank \/
            (172 <=? u32 (cycles (wake s) + n)) = false) as Hdraw.
    { intros M. rewrite M in Ht.
      destruct (172 <=? u32 (cycles (wake s) + n));
        [left; congruence|right; reflexivity]. }
    assert (mode s = OAMSearch -> mode s' = DrawScanline \/
            (80 <=? u32 (cycles (wake s) + n)) = false) as Hscan.
    { intros M. rewrite M in Ht.
      destruct (80 <=? u32 (cycles (wake s) + n));
        [left; congruence|right; reflexivity]. }
    subst s'. rewrite step_on in * by assumption. cbv zeta in *. proj_simpl.
    set (s0 := set_cycles (u32 (cycles (wake s) + n)) (wake s)) in *.
    set (allow := negb (stat_any s)) in *.
    destruct (finish_buffers allow (fst (dispatch color_table allow s0)))
      as (F1 & F2 & F3).
    rewrite F1, F2, F3.
    assert (framebuffer s0 = framebuffer s /\ bg_color_table s0 = bg_color_table s /\
            objects_on_scanline s0 = objects_on_scanline s /\ mode s0 = mode s)
      as (W1 & W2 & W3 & W4)
      by (subst s0; unfold wake; destruct (previously_disabled s);
          repeat split; reflexivity).
    assert (cycles s0 < 172 -> mode s0 = DrawScanline ->
            fst (dispatch color_table allow s0) = s0) as Hidle1
      by (intros Hc M; rewrite dispatch_idle by (rewrite M; exact Hc); reflexivity).
    assert (cycles s0 < 80 -> mode s0 = OAMSearch ->
            fst (dispatch color_table allow s0) = s0) as Hidle2
      by (intros Hc M; rewrite dispatch_idle by (rewrite M; exact Hc); reflexivity).
    destruct (dispatch_buffers allow s0) as [B1 B2]. cbv zeta in B1, B2.
    rewrite W4 in *.
    split.
    + destruct B1 as [M|[E1 E2]].
      * destruct (Hdraw M) as [H|H]; [left; split; assumption|].
        right. apply Z.leb_gt in H. rewrite (Hidle1 H M). split; assumption.
      * right. split; congruence.
    + destruct B2 as [M|[M|E]].
      * destruct (Hdraw M) as [H|H]; [left; split; assumption|].
        right. right. apply Z.leb_gt in H. rewrite (Hidle1 H M). exact W3.
      * destruct (Hscan M) as [H|H]; [right; left; split; assumption|].
        right. right. apply Z.leb_gt in H. rewrite (Hidle2 H M). exact W3.
      * right. right. congruence.
  - subst s'. rewrite step_off by assumption.
    split; right; [split|right]; reflexivity.
Qed.

End BufferWrites.

(** ** PPU::step: the window latch *)

Section WindowLatch.
Variable color_table : Z -> Color.

(** X9.  The window latch after a call with the display on and no soft reset
    pending: it is set when the line the call ends on is the window's line,
    and otherwise it is what it was, except that the call that wraps the
    frame clears it. *)
Theorem window_latch_after_step (n : Z) (s : PPU) :
  display_on s = true -> previously_disabled s = false ->
  let s' := fst (step color_table n s) in
  window_draw_flag s' =
    (window_y s =? line_y s') || (window_draw_flag s && negb (wraps s s')).
Proof.
  intros Hon Hpd s'.
  destruct (step_shape color_table n s Hon) as (d & Hd & Hc & _ & Hs & _).
  fold s' in Hs. rewrite (wake_settled_id s Hpd) in Hd.
  assert (window_y d = window_y s) as Ew by (unfold config in Hc; congruence).
  assert (mode s' = mode d /\ line_y s' = line_y d /\
          window_draw_flag s' = (window_y d =? line_y d) || window_draw_flag d)
    as (Em & El & Ef)
    by (rewrite Hs; destruct (window_y d =? line_y d); repeat split; reflexivity).
  unfold wraps. rewrite Ef, Em, El, Ew. f_equal.
  unfold dispatch_machine, machine in Hd. cbv zeta in Hd. proj_simpl. revert Hd.
  destruct (mode s) eqn:M; split_tests; intros Hd;
    injection Hd as E1 _ _ _ E5 _ _; rewrite E1, E5;
    repeat case_bool_decide; try congruence; cbn [andb negb];
    rewrite ?andb_true_r, ?andb_false_r; reflexivity.
Qed.

End WindowLatch.

Lemma window_latch_after_step_witness :
  let s' := fst (step shades 300 post_boot) in
  window_draw_flag s' =
    (window_y post_boot =? line_y s')
    || (window_draw_flag post_boot && negb (wraps post_boot s')).
Proof.
  apply (window_latch_after_step shades 300 post_boot); reflexivity.
Defined.

(** ** PPU::reset *)



(** ** PPU::step: the requests of one call *)

Section RequestsPerCall.
Variable color_table : Z -> Color.

(** X11.  One call requests the VBlank interrupt at most once and the LCD-STAT
    interrupt at most twice, once for a mode transition and once for the
    comparator, and a VBlank request comes before the STAT requests. *)
Theorem requests_of_one_call (n : Z) (s : PPU) :
  exists v k : nat,
    (v <= 1)%nat /\ (k <= 2)%nat /\
    snd (step color_table n s) =
      repeat INT_VBLANK_BIT v ++ repeat INT_LCD_STAT_BIT k.
Proof.
  destruct (display_on s) eqn:Hon.
  - destruct (step_shape color_table n s Hon) as (d & _ & _ & _ & _ & ->).
    assert (forall flag a t, exists k : nat,
              (k <= 1)%nat /\ stat_if flag a t = repeat INT_LCD_STAT_BIT k) as Hs.
    { intros flag a t. unfold stat_if.
      destruct (check_stat flag t && a); [exists 1%nat|exists 0%nat];
        split; (lia || reflexivity). }
    assert (exists k : nat, (k <= 1)%nat /\
              finish_requests (negb (stat_any s)) d = repeat INT_LCD_STAT_BIT k)
      as (kf & Hkf & ->).
    { unfold finish_requests. destruct (_ && _); [exists 1%nat|exists 0%nat];
        split; (lia || reflexivity). }
    unfold dispatch_requests. cbv zeta.
    destruct (mode _);
      repeat match goal with |- context [if ?c then _ else _] => destruct c end;
      try (exists 0%nat, kf; split; [lia|split; [lia|reflexivity]]);
      match goal with |- context [stat_if ?f ?a ?t] =>
        destruct (Hs f a t) as (k & Hk & ->) end;
      [exists 1%nat, (k + kf)%nat | exists 0%nat, (k + kf)%nat ..];
      (split; [lia|split; [lia|]]);
      cbn [repeat app]; rewrite repeat_app; reflexivity.
  - rewrite step_off by assumption. exists 0%nat, 0%nat.
    split; [lia|split; [lia|reflexivity]].
Qed.

End RequestsPerCall.

(** ** Tile addressing (lines 260-264 and 317-322) *)

Lemma land_7 y : Z.land y 7 = y mod 8.
Proof. change 7 with (Z.ones 3). rewrite Z.land_ones by lia. reflexivity. Qed.

(** X12.  For a tile number that is a byte, the row of a tile lies inside the
    6 KiB of tile data in either bank, so that the two bytes of the row can
    be read; tiles 128 to 255 are the same tiles in both banks, and tiles 0
    to 127 of the signed bank lie 4 KiB above those of the unsigned bank. *)
Theorem tile_banks (tile_id y_offset : Z) :
  0 <= tile_id < 256 ->
  let signed := tile_row_index 0x8800 tile_id y_offset in
  let unsigned := tile_row_index 0x8000 tile_id y_offset in
  unsigned = tile_id * 16 + y_offset mod 8 * 2 /\
  signed = (if tile_id <? 128 then unsigned + 0x1000 else unsigned) /\
  0 <= unsigned /\ unsigned + 1 < 0x1000 /\
  0x0800 <= signed /\ signed + 1 < 0x1800.
Proof.
  intros Hid. cbv zeta. unfold tile_row_index, i8. cbn [Z.eqb Pos.eqb].
  rewrite (u8_id tile_id Hid), !land_7.
  pose proof (Z.mod_pos_bound y_offset 8 ltac:(lia)) as Hy.
  generalize dependent (y_offset mod 8). intros r Hy.
  change (Z.land (0x8800 + 0x800) 0x1FFF) with 0x1000.
  change (Z.land 0x8000 0x1FFF) with 0.
  unfold u16.
  destruct (Z.ltb_spec tile_id 128) as [H|H];
    rewrite !Z.mod_small by lia; repeat split; lia.
Qed.

Lemma tile_banks_witness :
  let signed := tile_row_index 0x8800 200 5 in
  let unsigned := tile_row_index 0x8000 200 5 in
  unsigned = 200 * 16 + 5 mod 8 * 2 /\
  signed = (if 200 <? 128 then unsigned + 0x1000 else unsigned) /\
  0 <= unsigned /\ unsigned + 1 < 0x1000 /\
  0x0800 <= signed /\ signed + 1 < 0x1800.
Proof. apply (tile_banks 200 5). lia. Defined.

(** ** PPU::scan_oam: nothing is missed *)

Lemma scan_oam_state s :
  Z.of_nat (length (objects_on_scanline s)) = 10 ->
  scan_oam s =
    set_objects_on_scanline
      (stable_sort (selected s) ++
       replicate (10 - length (selected s)) Object.zero)
      (set_num_obj_on_scanline (Z.of_nat (length (selected s))) s).
Proof.
  intros Hlen. unfold scan_oam. cbv zeta. proj_simpl.
  replace (length (objects_on_scanline s)) with 10%nat by lia.
  pose proof (scan_loop s (sprite_height s) (seqZ 0 40) [] ltac:(cbn; lia)) as H.
  cbv zeta in H. cbn [app length] in H.
  change (10 - 0)%nat with 10%nat in H. change (Z.of_nat 0) with 0 in H.
  fold (oam_entries s) in H. fold (eligible s) in H. fold (selected s) in H.
  match goal with |- context [fold_left ?f ?l ?a] =>
    change (fold_left f l a) with
      (fold_left (fun acc i => scan_step s (sprite_height s) i acc) (seqZ 0 40)
         (replicate 10 Object.zero, 0, 0))
  end.
  rewrite H. proj_simpl. rewrite Nat2Z.id.
  rewrite take_app_length, drop_app_length. reflexivity.
Qed.

(** X13.  The selection is sound and complete up to the limit: every entry kept is
    on the line, an entry on the line is left out only when ten were kept,
    and scanning again, with OAM, the line and the sprite size unchanged,
    gives the same selection. *)
Theorem scan_oam_misses_nothing (s : PPU) :
  sized s ->
  let s' := scan_oam s in
  let chosen := take (Z.to_nat (num_obj_on_scanline s')) (objects_on_scanline s') in
  Forall (fun o => on_line (sprite_height s) (line_y s) o = true) chosen /\
  (forall k, 0 <= k < 40 ->
     on_line (sprite_height s) (line_y s) (oam_entry s k) = true ->
     In (oam_entry s k) chosen \/ num_obj_on_scanline s' = 10) /\
  scan_oam s' = s'.
Proof.
  intros (_ & _ & _ & _ & _ & Hlen) s' chosen.
  destruct (scan_oam_result s Hlen) as [Hn Ho]. fold s' in Hn, Ho.
  assert (length (selected s) <= 10)%nat as Hten
    by (unfold selected; rewrite length_take; lia).
  assert (chosen = stable_sort (selected s)) as Hc.
  { subst chosen. rewrite Hn, Ho, Nat2Z.id.
    rewrite <- (stable_sort_length (selected s)). apply take_app_length. }
  assert (forall o, In o (selected s) -> In o (eligible s)) as Hsub.
  { intros o Ho'. unfold selected in Ho'.
    rewrite <- (take_drop 10 (eligible s)). apply in_or_app. left. exact Ho'. }
  split; [|split].
  - rewrite Hc. apply Forall_forall. intros o Hin.
    apply (Permutation_in _ (stable_sort_perm (selected s))) in Hin.
    apply Hsub in Hin. unfold eligible in Hin.
    apply filter_In in Hin as [_ Hon]. exact Hon.
  - intros k Hk Hon.
    assert (In (oam_entry s k) (eligible s)) as Hel.
    { unfold eligible. apply filter_In. split; [|exact Hon].
      unfold oam_entries. apply in_map. apply list_elem_of_In, elem_of_seqZ. lia. }
    destruct (le_lt_dec (length (eligible s)) 10) as [Hfew|Hmany].
    + left. rewrite Hc.
      apply (Permutation_in _ (Permutation_sym (stable_sort_perm (selected s)))).
      unfold selected. rewrite take_ge by lia. exact Hel.
    + right. rewrite Hn. unfold selected. rewrite length_take. lia.
  - assert (Z.of_nat (length (objects_on_scanline s')) = 10) as Hlen'.
    { rewrite Ho, length_app, stable_sort_length, length_replicate. lia. }
    assert (selected s' = selected s) as Hsel.
    { pose proof (scan_oam_kept s) as Hk. fold s' in Hk.
      unfold kept, config, machine in Hk.
      unfold selected, eligible, oam_entries, sprite_height, oam_entry.
      assert (oam s' = oam s) as -> by congruence.
      assert (line_y s' = line_y s) as -> by congruence.
      assert (lcd_control s' = lcd_control s) as -> by congruence.
      reflexivity. }
    rewrite (scan_oam_state s' Hlen'), Hsel.
    subst s'. rewrite (scan_oam_state s Hlen). reflexivity.
Qed.

(** ** The background and window passes: what they paint *)

Lemma land_1_cases z : Z.land z 1 = 0 \/ Z.land z 1 = 1.
Proof.
  assert (Z.land z 1 = z mod 2) as ->
    by (exact (Z.land_ones z 1 ltac:(lia))).
  pose proof (Z.mod_pos_bound z 2 ltac:(lia)). lia.
Qed.

Lemma plane_pixel_range s t b : 0 <= plane_pixel s t b <= 3.
Proof.
  unfold plane_pixel. cbv zeta.
  destruct (land_1_cases (Z.shiftr (rd (vram s) t) b)) as [-> | ->],
    (land_1_cases (Z.shiftr (rd (vram s) (t + 1)) b)) as [-> | ->];
    vm_compute; split; discriminate.
Qed.

Section Painting.
Variable color_table : Z -> Color.

Lemma bg_pixel_step_paints tm td i s :
  paints color_table i s (bg_pixel_step color_table tm td i s).
Proof.
  unfold paints, bg_pixel_step. cbv zeta.
  destruct (negb (test (lcd_control s) LCDControlFlags.BGEnable)
            || negb (test (render_flags s) DisplayRenderFlags.Background)).
  - exists 0. split; [lia|]. change (2 * 0) with 0. rewrite Z.shiftr_0_r. reflexivity.
  - eexists. split; [apply plane_pixel_range|]. reflexivity.
Qed.

Lemma window_pixel_step_paints tm td i s a :
  let r := window_pixel_step color_table tm td i (s, a) in
  (fst r = s /\ snd r = a /\
   (window_y s <=? line_y s) && (window_x s - 7 <=? i) = false) \/
  (paints color_table i s (fst r) /\ snd r = 1 /\
   (window_y s <=? line_y s) && (window_x s - 7 <=? i) = true).
Proof.
  unfold paints, window_pixel_step. cbv zeta.
  destruct ((window_y s <=? line_y s) && (window_x s - 7 <=? i)).
  - right. split; [|split; reflexivity]. cbn [fst].
    eexists. split; [apply plane_pixel_range|]. reflexivity.
  - left. repeat split; reflexivity.
Qed.

(** What a painted pixel changes and what it keeps. *)
Lemma paints_frame i s s' :
  paints color_table i s s' ->
  kept s' = kept s /\ window_line_y s' = window_line_y s /\
  length (framebuffer s') = length (framebuffer s) /\
  length (bg_color_table s') = length (bg_color_table s) /\
  (0 <= line_y s * LCD_WIDTH + i ->
   forall q, 0 <= q -> q <> line_y s * LCD_WIDTH + i ->
     pixel_at (framebuffer s') q = pixel_at (framebuffer s) q /\
     rd (bg_color_table s') q = rd (bg_color_table s) q).
Proof.
  intros (v & Hv & ->). proj_simpl.
  split; [reflexivity|]. split; [reflexivity|].
  split; [apply length_copy_color|]. split; [apply length_wr|].
  intros Hp q Hq Hne. split.
  - apply pixel_at_copy_color_other; lia.
  - apply rd_wr_ne; lia.
Qed.

Lemma paints_here i s s' :
  paints color_table i s s' ->
  0 <= line_y s * LCD_WIDTH + i ->
  (line_y s * LCD_WIDTH + i) * 4 + 3 < Z.of_nat (length (framebuffer s)) ->
  line_y s * LCD_WIDTH + i < Z.of_nat (length (bg_color_table s)) ->
  shadow_matches color_table s' i.
Proof.
  intros (v & Hv & ->) H0 Hfb Hbt. unfold shadow_matches. proj_simpl.
  rewrite rd_wr_eq by lia. split; [exact Hv|].
  apply pixel_at_copy_color; lia.
Qed.

Lemma paints_elsewhere i j s s' :
  paints color_table i s s' -> 0 <= line_y s * LCD_WIDTH + i -> 0 <= line_y s * LCD_WIDTH + j ->
  i <> j ->
  shadow_matches color_table s j -> shadow_matches color_table s' j.
Proof.
  intros Hp H0 H1 Hne Hm.
  destruct (paints_frame i s s' Hp) as (Hk & _ & _ & _ & Hq).
  unfold kept, config, machine in Hk.
  assert (line_y s' = line_y s) as El by congruence.
  assert (background_palette s' = background_palette s) as Eb by congruence.
  unfold shadow_matches in *. cbv zeta in *. rewrite El, Eb.
  destruct (Hq H0 (line_y s * LCD_WIDTH + j) H1 ltac:(lia)) as [-> ->].
  exact Hm.
Qed.

End Painting.


Section PaintLoops.
Variable color_table : Z -> Color.
Variable f : PPU -> Z -> PPU.
Variable touches : PPU -> Z -> Prop.
Hypothesis touches_kept :
  forall s s' i, kept s = kept s' -> touches s i -> touches s' i.
Hypothesis f_paints :
  forall s i, f s i = s \/ (touches s i /\ paints color_table i s (f s i)).

Lemma kept_line_y a b : kept a = kept b -> line_y a = line_y b.
Proof. unfold kept, config, machine. congruence. Qed.

Lemma paint_fold_frame (l : list Z) :
  forall s,
    0 <= line_y s -> (forall i, In i l -> 0 <= i < 160) ->
    let s' := fold_left f l s in
    kept s' = kept s /\ window_line_y s' = window_line_y s /\
    length (framebuffer s') = length (framebuffer s) /\
    length (bg_color_table s') = length (bg_color_table s) /\
    (forall q, 0 <= q ->
       (forall i, In i l -> touches s i -> q <> line_y s * LCD_WIDTH + i) ->
       pixel_at (framebuffer s') q = pixel_at (framebuffer s) q /\
       rd (bg_color_table s') q = rd (bg_color_table s) q).
Proof.
  unfold LCD_WIDTH.
  induction l as [|i l IH]; intros s Hl Hin; cbv zeta.
  - cbn [fold_left]. repeat split; reflexivity.
  - cbn [fold_left].
    assert (0 <= i < 160) as Hi by (apply Hin; left; reflexivity).
    assert (kept (f s i) = kept s /\ window_line_y (f s i) = window_line_y s /\
            length (framebuffer (f s i)) = length (framebuffer s) /\
            length (bg_color_table (f s i)) = length (bg_color_table s) /\
            (forall q, 0 <= q -> (touches s i -> q <> line_y s * 160 + i) ->
               pixel_at (framebuffer (f s i)) q = pixel_at (framebuffer s) q /\
               rd (bg_color_table (f s i)) q = rd (bg_color_table s) q))
      as (S1 & S2 & S3 & S4 & S5).
    { destruct (f_paints s i) as [-> | [Ht Hp]]; [repeat split; reflexivity|].
      destruct (paints_frame color_table i s _ Hp) as (A & B & C & D & E).
      unfold LCD_WIDTH in E.
      repeat split; try assumption; apply E; try lia; auto. }
    pose proof (kept_line_y _ _ S1) as El.
    destruct (IH (f s i)) as (I1 & I2 & I3 & I4 & I5).
    { rewrite El. exact Hl. }
    { intros j Hj. apply Hin. right. exact Hj. }
    split; [congruence|]. split; [congruence|]. split; [congruence|].
    split; [congruence|].
    intros q Hq Hne. destruct (I5 q Hq) as [A B].
    { intros j Hj Ht. rewrite El. apply Hne; [right; exact Hj|].
      apply (touches_kept (f s i) s j S1 Ht). }
    destruct (S5 q Hq) as [C D]; [apply Hne; left; reflexivity|].
    split; congruence.
Qed.

Lemma paint_step_matches s i j :
  0 <= line_y s < 144 -> 0 <= i < 160 -> 0 <= j < 160 ->
  Z.of_nat (length (framebuffer s)) = 92160 ->
  Z.of_nat (length (bg_color_table s)) = 23040 ->
  shadow_matches color_table s j -> shadow_matches color_table (f s i) j.
Proof.
  intros Hl Hi Hj Hfb Hbt Hm. unfold LCD_WIDTH.
  destruct (f_paints s i) as [-> | [_ Hp]]; [exact Hm|].
  destruct (Z.eq_dec i j) as [->|Hne].
  - apply (paints_here color_table j s _ Hp); unfold LCD_WIDTH; lia.
  - apply (paints_elsewhere color_table i j s _ Hp); unfold LCD_WIDTH; (lia || assumption).
Qed.

Lemma paint_fold_matches (l : list Z) :
  forall s,
    0 <= line_y s < 144 -> (forall i, In i l -> 0 <= i < 160) ->
    Z.of_nat (length (framebuffer s)) = 92160 ->
    Z.of_nat (length (bg_color_table s)) = 23040 ->
    forall j, 0 <= j < 160 ->
      shadow_matches color_table s j ->
      shadow_matches color_table (fold_left f l s) j.
Proof.
  induction l as [|i l IH]; intros s Hl Hin Hfb Hbt j Hj Hm; [exact Hm|].
  cbn [fold_left].
  assert (0 <= i < 160) as Hi by (apply Hin; left; reflexivity).
  destruct (paint_fold_frame [i] s ltac:(lia)) as (K & _ & L1 & L2 & _).
  { intros k [<-|[]]. exact Hi. }
  cbn [fold_left] in K, L1, L2.
  apply IH.
  - rewrite (kept_line_y _ _ K). exact Hl.
  - intros k Hk. apply Hin. right. exact Hk.
  - rewrite L1. exact Hfb.
  - rewrite L2. exact Hbt.
  - exact Hj.
  - apply paint_step_matches; assumption.
Qed.

Hypothesis f_always : forall s i, paints color_table i s (f s i).

Lemma paint_fold_all (l : list Z) :
  forall s,
    0 <= line_y s < 144 -> (forall i, In i l -> 0 <= i < 160) ->
    Z.of_nat (length (framebuffer s)) = 92160 ->
    Z.of_nat (length (bg_color_table s)) = 23040 ->
    forall j, In j l -> shadow_matches color_table (fold_left f l s) j.
Proof.
  induction l as [|i l IH]; intros s Hl Hin Hfb Hbt j Hj; [destruct Hj|].
  cbn [fold_left].
  assert (0 <= i < 160) as Hi by (apply Hin; left; reflexivity).
  destruct (paint_fold_frame [i] s ltac:(lia)) as (K & _ & L1 & L2 & _).
  { intros k [<-|[]]. exact Hi. }
  cbn [fold_left] in K, L1, L2.
  assert (0 <= line_y (f s i) < 144) as Hl' by (rewrite (kept_line_y _ _ K); exact Hl).
  assert (forall k, In k l -> 0 <= k < 160) as Hin'
    by (intros k Hk; apply Hin; right; exact Hk).
  destruct (in_dec Z.eq_dec j l) as [Hjl|Hjl].
  - apply IH; try assumption; congruence.
  - destruct Hj as [<-|Hj]; [|contradiction].
    apply paint_fold_matches; try assumption; try congruence.
    apply (paints_here color_table i s _ (f_always s i)); unfold LCD_WIDTH; lia.
Qed.

End PaintLoops.

Lemma in_seqZ (i m n : Z) : In i (seqZ m n) <-> m <= i < m + n.
Proof. rewrite <- list_elem_of_In. apply elem_of_seqZ. Qed.

Lemma existsb_from (c n : Z) :
  0 < n -> existsb (fun i => c <=? i) (seqZ 0 n) = (c <=? n - 1).
Proof.
  intros Hn. apply Bool.eq_true_iff_eq. rewrite existsb_exists, Z.leb_le. split.
  - intros (i & Hi & Hc). apply in_seqZ in Hi. apply Z.leb_le in Hc. lia.
  - intros Hc. exists (n - 1). split; [apply in_seqZ; lia|apply Z.leb_le; lia].
Qed.

Section RenderPasses.
Variable color_table : Z -> Color.

(** *** The background pass *)

Lemma render_bg_layer_line (s : PPU) :
  0 <= line_y s < LCD_HEIGHT ->
  Z.of_nat (length (framebuffer s)) = LCD_WIDTH * LCD_HEIGHT * COLOR_DEPTH ->
  Z.of_nat (length (bg_color_table s)) = LCD_WIDTH * LCD_HEIGHT ->
  let s' := render_bg_layer color_table s in
  (forall j, 0 <= j < LCD_WIDTH -> shadow_matches color_table s' j) /\
  off_line_kept s s' /\ kept s' = kept s /\
  window_line_y s' = window_line_y s /\
  length (framebuffer s') = length (framebuffer s) /\
  length (bg_color_table s') = length (bg_color_table s).
Proof.
  intros Hl Hfb Hbt s'. unfold LCD_HEIGHT, LCD_WIDTH, COLOR_DEPTH in *.
  change (160 * 144 * 4) with 92160 in Hfb. change (160 * 144) with 23040 in Hbt.
  subst s'. unfold render_bg_layer. cbv zeta.
  set (f := fun (s0 : PPU) (i : Z) => bg_pixel_step color_table _ _ i s0).
  assert (forall s0 i, f s0 i = s0 \/
            (True /\ paints color_table i s0 (f s0 i))) as Hf
    by (intros; right; split; [exact I|apply bg_pixel_step_paints]).
  assert (forall i, In i (seqZ 0 160) -> 0 <= i < 160) as Hin
    by (intros i Hi; apply in_seqZ in Hi; lia).
  destruct (paint_fold_frame color_table f (fun _ _ => True)
              ltac:(intros; exact I) Hf (seqZ 0 160) s ltac:(lia) Hin)
    as (K & W & L1 & L2 & Q).
  split; [|split; [|split; [exact K|split; [exact W|split; [exact L1|exact L2]]]]].
  - intros j Hj.
    apply (paint_fold_all color_table f (fun _ _ => True)
             ltac:(intros; exact I) Hf
             ltac:(intros; apply bg_pixel_step_paints)
             (seqZ 0 160) s Hl Hin Hfb Hbt).
    apply in_seqZ. lia.
  - split; [apply (kept_line_y _ _ K)|].
    unfold LCD_WIDTH in *. intros q Hq Hout. apply Q; [exact Hq|].
    intros i Hi _. apply Hin in Hi. lia.
Qed.

(** *** The window pass *)

Lemma window_pixel_step_fst tm td i s a :
  fst (window_pixel_step color_table tm td i (s, a)) =
  fst (window_pixel_step color_table tm td i (s, 0)).
Proof.
  unfold window_pixel_step.
  destruct ((window_y s <=? line_y s) && (window_x s - 7 <=? i)); reflexivity.
Qed.

Lemma window_fold_fst tm td (l : list Z) :
  forall s a,
    fst (fold_left (fun sa i => window_pixel_step color_table tm td i sa) l (s, a)) =
    fold_left (fun s i => fst (window_pixel_step color_table tm td i (s, 0))) l s.
Proof.
  induction l as [|i l IH]; intros s a; [reflexivity|].
  cbn [fold_left].
  rewrite (surjective_pairing (window_pixel_step color_table tm td i (s, a))).
  rewrite IH, window_pixel_step_fst. reflexivity.
Qed.

Lemma window_fold_snd tm td (l : list Z) :
  forall s a,
    snd (fold_left (fun sa i => window_pixel_step color_table tm td i sa) l (s, a)) =
    if (window_y s <=? line_y s) && existsb (fun i => window_x s - 7 <=? i) l
    then 1 else a.
Proof.
  induction l as [|i l IH]; intros s a.
  - cbn [fold_left existsb snd]. rewrite andb_false_r. reflexivity.
  - cbn [fold_left existsb].
    rewrite (surjective_pairing (window_pixel_step color_table tm td i (s, a))).
    rewrite IH.
    destruct (window_pixel_step_paints color_table tm td i s a)
      as [(E1 & E2 & C) | (Hp & E2 & C)]; cbv zeta in *.
    + rewrite E1, E2.
      destruct (window_y s <=? line_y s); [|reflexivity].
      cbn [andb] in *. rewrite C. reflexivity.
    + destruct (paints_frame color_table i s _ Hp) as (K & _).
      unfold kept, config, machine in K.
      assert (window_y (fst (window_pixel_step color_table tm td i (s, a)))
              = window_y s) as -> by congruence.
      assert (window_x (fst (window_pixel_step color_table tm td i (s, a)))
              = window_x s) as -> by congruence.
      assert (line_y (fst (window_pixel_step color_table tm td i (s, a)))
              = line_y s) as -> by congruence.
      rewrite E2. apply andb_true_iff in C. destruct C as [-> ->].
      cbn [andb orb]. destruct (existsb _ l); reflexivity.
Qed.

Lemma window_step_touches tm td s i :
  let f := fun s i => fst (window_pixel_step color_table tm td i (s, 0)) in
  f s i = s \/
  ((window_y s <= line_y s /\ window_x s - 7 <= i) /\
   paints color_table i s (f s i)).
Proof.
  cbv zeta.
  destruct (window_pixel_step_paints color_table tm td i s 0)
    as [(E1 & _) | (Hp & _ & C)]; cbv zeta in *; [left; exact E1|].
  right. split; [|exact Hp]. apply andb_true_iff in C. destruct C as [A B].
  apply Z.leb_le in A, B. split; assumption.
Qed.

Lemma window_touches_kept (s s' : PPU) (i : Z) :
  kept s = kept s' ->
  window_y s <= line_y s /\ window_x s - 7 <= i ->
  window_y s' <= line_y s' /\ window_x s' - 7 <= i.
Proof.
  unfold kept, config, machine. intros K H.
  assert (window_y s' = window_y s) as -> by congruence.
  assert (window_x s' = window_x s) as -> by congruence.
  assert (line_y s' = line_y s) as -> by congruence.
  exact H.
Qed.

(** X15.  The window's own line counter advances by one, modulo 256, on a
    scanline exactly when the window pass is attempted and the window covers
    at least one column of the line (it has started, [window_y <= line_y],
    and [window_x - 7] is at most 159); otherwise it keeps its value. *)
Theorem window_line_counter (s : PPU) :
  window_line_y (render_window_layer color_table s) =
    u8 (window_line_y s + (if window_visible s then 1 else 0)).
Proof.
  unfold render_window_layer, window_visible. cbv zeta.
  change (test (lcd_control s) LCDControlFlags.WindowEnable && window_draw_flag s
          && test (render_flags s) DisplayRenderFlags.Window) with (window_on s).
  destruct (window_on s); [|reflexivity].
  match goal with |- context [fold_left ?g ?l ?i] =>
    rewrite (surjective_pairing (fold_left g l i)) end.
  proj_simpl. rewrite window_fold_snd.
  unfold LCD_WIDTH. rewrite (existsb_from _ 160) by lia. change (160 - 1) with 159.
  cbn [andb].
  match goal with |- context [fold_left ?g ?l ?i] =>
    rewrite (fold_left_keeps (fun sa => window_line_y (fst sa)) g l) end;
    [reflexivity|].
  intros [s0 a0] i.
  match goal with |- context [window_pixel_step _ ?tm ?td _ _] =>
    destruct (window_pixel_step_paints color_table tm td i s0 a0)
      as [(E1 & _) | (Hp & _)] end; cbv zeta in *; [rewrite E1; reflexivity|].
  apply (paints_frame color_table i s0 _ Hp).
Qed.

Lemma render_window_layer_line (s : PPU) :
  0 <= line_y s < LCD_HEIGHT ->
  Z.of_nat (length (framebuffer s)) = LCD_WIDTH * LCD_HEIGHT * COLOR_DEPTH ->
  Z.of_nat (length (bg_color_table s)) = LCD_WIDTH * LCD_HEIGHT ->
  let s' := render_window_layer color_table s in
  (forall j, 0 <= j < LCD_WIDTH ->
     shadow_matches color_table s j -> shadow_matches color_table s' j) /\
  (forall j, 0 <= j < LCD_WIDTH ->
     window_visible s = false \/ j < window_x s - 7 ->
     pixel_at (framebuffer s') (line_y s * LCD_WIDTH + j) =
       pixel_at (framebuffer s) (line_y s * LCD_WIDTH + j) /\
     rd (bg_color_table s') (line_y s * LCD_WIDTH + j) =
       rd (bg_color_table s) (line_y s * LCD_WIDTH + j)) /\
  off_line_kept s s' /\ kept s' = kept s /\
  length (framebuffer s') = length (framebuffer s) /\
  length (bg_color_table s') = length (bg_color_table s).
Proof.
  intros Hl Hfb Hbt s'. unfold LCD_HEIGHT, LCD_WIDTH, COLOR_DEPTH in *.
  change (160 * 144 * 4) with 92160 in Hfb. change (160 * 144) with 23040 in Hbt.
  subst s'. unfold render_window_layer, window_visible. cbv zeta.
  change (test (lcd_control s) LCDControlFlags.WindowEnable && window_draw_flag s
          && test (render_flags s) DisplayRenderFlags.Window) with (window_on s).
  destruct (window_on s).
  2:{ unfold shadow_matches, off_line_kept. proj_simpl.
      split; [auto|]. repeat split; auto. }
  match goal with |- context [fold_left ?g ?l ?i] =>
    rewrite (surjective_pairing (fold_left g l i)) end.
  rewrite window_fold_fst.
  match goal with |- context [snd ?x] => generalize (snd x) end. intros a.
  assert (forall i, In i (seqZ 0 LCD_WIDTH) -> 0 <= i < 160) as Hin
    by (intros i Hi; apply in_seqZ in Hi; unfold LCD_WIDTH in Hi; lia).
  match goal with |- context [fold_left ?g ?l s] =>
    pose proof (paint_fold_frame color_table g
                  (fun s i => window_y s <= line_y s /\ window_x s - 7 <= i)
                  window_touches_kept (window_step_touches _ _)
                  l s ltac:(lia) Hin) as F;
    pose proof (paint_fold_matches color_table g
                  (fun s i => window_y s <= line_y s /\ window_x s - 7 <= i)
                  window_touches_kept (window_step_touches _ _)
                  l s Hl Hin Hfb Hbt) as M;
    cbv zeta in F;
    remember (fold_left g l s) as r eqn:Er in *; clear Er
  end.
  destruct F as (K & _ & L1 & L2 & Q).
  unfold shadow_matches, off_line_kept, kept, config, machine in *.
  proj_simpl. cbv zeta in *. unfold LCD_WIDTH in *.
  assert (line_y r = line_y s) as El by congruence.
  split; [exact M|]. split; [|split; [|split; [|split; [exact L1|exact L2]]]].
  - intros j Hj Hleft. apply Q; [lia|].
    intros i Hi [A B]. destruct Hleft as [Hv|Hv]; [|lia].
    cbn [andb] in Hv. apply andb_false_iff in Hv.
    destruct Hv as [Hv|Hv]; apply Z.leb_gt in Hv; lia.
  - split; [exact El|].
    intros q Hq Hout. apply Q; [exact Hq|].
    intros i Hi _. apply in_seqZ in Hi. lia.
  - exact K.
Qed.

End RenderPasses.

Section RenderPassTheorems.
Variable color_table : Z -> Color.

(** X14.  On a line of the screen, [render_bg_layer] leaves every one of the 160
    columns with a shadow index from 0 to 3 and the pixel of that index in
    the background palette; it changes no pixel and no shadow entry of
    another line, none of the registers and memories, nothing of the mode
    machine and not the window's line counter. *)
Theorem background_pass_fills_line (s : PPU) :
  0 <= line_y s < LCD_HEIGHT ->
  Z.of_nat (length (framebuffer s)) = LCD_WIDTH * LCD_HEIGHT * COLOR_DEPTH ->
  Z.of_nat (length (bg_color_table s)) = LCD_WIDTH * LCD_HEIGHT ->
  let s' := render_bg_layer color_table s in
  (forall j, 0 <= j < LCD_WIDTH -> shadow_matches color_table s' j) /\
  off_line_kept s s' /\ kept s' = kept s /\
  window_line_y s' = window_line_y s.
Proof.
  intros Hl Hfb Hbt s'.
  destruct (render_bg_layer_line color_table s Hl Hfb Hbt) as (A & B & C & D & _).
  split; [exact A|]. split; [exact B|]. split; assumption.
Qed.

(** X16.  On a line of the screen, [render_window_layer] keeps every column
    consistent (shadow index from 0 to 3, pixel of that index in the
    background palette) that was so before it; it leaves the columns to the
    left of [window_x - 7], and the whole line when the window is not
    visible on it, exactly as it found them; it changes nothing of another
    line, none of the registers and memories and nothing of the mode
    machine. *)
Theorem window_pass_over_background (s : PPU) :
  0 <= line_y s < LCD_HEIGHT ->
  Z.of_nat (length (framebuffer s)) = LCD_WIDTH * LCD_HEIGHT * COLOR_DEPTH ->
  Z.of_nat (length (bg_color_table s)) = LCD_WIDTH * LCD_HEIGHT ->
  let s' := render_window_layer color_table s in
  (forall j, 0 <= j < LCD_WIDTH ->
     shadow_matches color_table s j -> shadow_matches color_table s' j) /\
  (forall j, 0 <= j < LCD_WIDTH ->
     window_visible s = false \/ j < window_x s - 7 ->
     pixel_at (framebuffer s') (line_y s * LCD_WIDTH + j) =
       pixel_at (framebuffer s) (line_y s * LCD_WIDTH + j) /\
     rd (bg_color_table s') (line_y s * LCD_WIDTH + j) =
       rd (bg_color_table s) (line_y s * LCD_WIDTH + j)) /\
  off_line_kept s s' /\ kept s' = kept s.
Proof.
  intros Hl Hfb Hbt s'.
  destruct (render_window_layer_line color_table s Hl Hfb Hbt)
    as (A & B & C & D & _).
  split; [exact A|]. split; [exact B|]. split; assumption.
Qed.

End RenderPassTheorems.

Lemma mid_line_on_screen : 0 <= line_y mid_line < LCD_HEIGHT.
Proof. unfold mid_line, LCD_HEIGHT. proj_simpl. lia. Qed.

Lemma background_pass_fills_line_witness :
  let s' := render_bg_layer shades mid_line in
  (forall j, 0 <= j < LCD_WIDTH -> shadow_matches shades s' j) /\
  off_line_kept mid_line s' /\ kept s' = kept mid_line /\
  window_line_y s' = window_line_y mid_line.
Proof.
  destruct power_on_sized as (_ & _ & Hfb & _ & Hbt & _).
  apply (background_pass_fills_line shades mid_line).
  - exact mid_line_on_screen.
  - exact Hfb.
  - exact Hbt.
Defined.

Lemma window_pass_over_background_witness :
  let s := mid_line in
  let s' := render_window_layer shades s in
  (forall j, 0 <= j < LCD_WIDTH ->
     shadow_matches shades s j -> shadow_matches shades s' j) /\
  (forall j, 0 <= j < LCD_WIDTH ->
     window_visible s = false \/ j < window_x s - 7 ->
     pixel_at (framebuffer s') (line_y s * LCD_WIDTH + j) =
       pixel_at (framebuffer s) (line_y s * LCD_WIDTH + j) /\
     rd (bg_color_table s') (line_y s * LCD_WIDTH + j) =
       rd (bg_color_table s) (line_y s * LCD_WIDTH + j)) /\
  off_line_kept s s' /\ kept s' = kept s.
Proof.
  destruct power_on_sized as (_ & _ & Hfb & _ & Hbt & _).
  apply (window_pass_over_background shades mid_line).
  - exact mid_line_on_screen.
  - exact Hfb.
  - exact Hbt.
Defined.

(** ** The sprite pass *)

Lemma fold_left_rel {S I : Type} (R : S -> S -> Prop) (f : S -> I -> S)
    (l : list I) :
  (forall s, R s s) -> (forall a b c, R a b -> R b c -> R a c) ->
  (forall s i, R s (f s i)) -> forall s, R s (fold_left f l s).
Proof.
  intros Hr Ht Hf. induction l as [|i l IH]; intros s; [apply Hr|].
  cbn [fold_left]. apply (Ht _ (f s i)); [apply Hf|apply IH].
Qed.

Lemma insert_default_id {A : Type} (d : A) (l : list A) (k : nat) :
  <[k := default d (l !! k)]> l = l.
Proof.
  destruct (l !! k) as [x|] eqn:E.
  - apply list_insert_id. exact E.
  - apply list_insert_ge. apply lookup_ge_None. exact E.
Qed.

Lemma overlaid_refl s : overlaid s s.
Proof. unfold overlaid. repeat split; reflexivity. Qed.

Lemma overlaid_trans a b c : overlaid a b -> overlaid b c -> overlaid a c.
Proof.
  unfold overlaid. intros (K1 & B1 & N1 & W1 & L1 & Q1) (K2 & B2 & N2 & W2 & L2 & Q2).
  pose proof (kept_line_y _ _ K1) as El.
  repeat split; try congruence.
  intros q Hq Hout. rewrite Q2; [apply Q1; assumption|exact Hq|].
  rewrite El. exact Hout.
Qed.

Section SpritePass.
Variable color_table : Z -> Color.

Lemma sprite_pixel_step_confined o p t ax x s :
  let s' := sprite_pixel_step color_table o p t ax x s in
  s' = s \/
  exists c k, 0 <= k < 160 /\
    s' = set_framebuffer
           (copy_color c ((line_y s * LCD_WIDTH + k) * COLOR_DEPTH) (framebuffer s)) s.
Proof.
  unfold sprite_pixel_step. cbv zeta.
  destruct ((0 <=? size_t (ax + x)) && (size_t (ax + x) <? 160)) eqn:E;
    [|left; reflexivity].
  apply andb_true_iff in E. destruct E as [E1 E2].
  apply Z.leb_le in E1. apply Z.ltb_lt in E2.
  repeat match goal with |- context [if ?c then _ else _] => destruct c end;
    first [left; reflexivity
          |right; eexists; exists (size_t (ax + x)); split; [lia|reflexivity]].
Qed.

Lemma sprite_pixel_step_overlaid o p t ax x s :
  0 <= line_y s -> overlaid s (sprite_pixel_step color_table o p t ax x s).
Proof.
  intros Hl.
  destruct (sprite_pixel_step_confined o p t ax x s) as [-> | (c & k & Hk & ->)];
    [apply overlaid_refl|].
  unfold overlaid. proj_simpl. repeat split; try reflexivity.
  - apply length_copy_color.
  - unfold LCD_WIDTH. intros q Hq Hout. apply pixel_at_copy_color_other; lia.
Qed.

Lemma sprite_pixel_step_objects o p t ax x s :
  objects_on_scanline (sprite_pixel_step color_table o p t ax x s) =
  objects_on_scanline s.
Proof.
  destruct (sprite_pixel_step_confined o p t ax x s) as [-> | (c & k & Hk & ->)];
    reflexivity.
Qed.

Lemma on_line_rel (P : PPU -> PPU -> Prop) :
  (forall s, P s s) -> (forall a b c, P a b -> P b c -> P a c) ->
  (forall a b, P a b -> line_y b = line_y a) ->
  let R := fun s s' => 0 <= line_y s -> P s s' in
  (forall s, R s s) /\ (forall a b c, R a b -> R b c -> R a c).
Proof.
  intros Hr Ht Hy R. split; [intros s _; apply Hr|].
  intros a b c Hab Hbc Hl. pose proof (Hab Hl) as H1.
  apply (Ht _ b); [exact H1|]. apply Hbc. rewrite (Hy _ _ H1). exact Hl.
Qed.

Lemma overlaid_line_y a b : overlaid a b -> line_y b = line_y a.
Proof. intros (K & _). apply (kept_line_y _ _ K). Qed.

Lemma sprite_step_overlaid h i s :
  0 <= line_y s -> overlaid s (sprite_step color_table h i s).
Proof.
  unfold sprite_step, sprite_row. cbv zeta.
  match goal with |- context [fold_left ?f ?l ?x] =>
    set (s1 := x); set (g := f); set (ll := l) end.
  intros Hl.
  destruct (on_line_rel overlaid overlaid_refl overlaid_trans overlaid_line_y)
    as [Hr Ht].
  apply (overlaid_trans s s1).
  - unfold overlaid, s1. proj_simpl. repeat split; reflexivity.
  - apply (fold_left_rel _ g ll Hr Ht); [|exact Hl].
    intros s0 x0 H0. apply sprite_pixel_step_overlaid. exact H0.
Qed.

Lemma sprite_step_objects h i s :
  objects_on_scanline (sprite_step color_table h i s) =
  let k := Z.to_nat ((num_obj_on_scanline s - 1) - i) in
  <[k := (if h =? 16 then even_tile else fun o => o)
           (default Object.zero (objects_on_scanline s !! k))]>
    (objects_on_scanline s).
Proof.
  unfold sprite_step, sprite_row. cbv zeta.
  rewrite (fold_left_keeps objects_on_scanline)
    by (intros; apply sprite_pixel_step_objects).
  proj_simpl. unfold even_tile. destruct (h =? 16); reflexivity.
Qed.

Lemma render_sprite_layer_overlaid s :
  0 <= line_y s -> overlaid s (render_sprite_layer color_table s).
Proof.
  unfold render_sprite_layer. cbv zeta. intros Hl.
  destruct (_ && _); [|apply overlaid_refl].
  destruct (on_line_rel overlaid overlaid_refl overlaid_trans overlaid_line_y)
    as [Hr Ht].
  apply (fold_left_rel _ _ _ Hr Ht); [|exact Hl].
  intros s0 i H0. apply sprite_step_overlaid. exact H0.
Qed.

Lemma sprite_step_num h i s :
  num_obj_on_scanline (sprite_step color_table h i s) = num_obj_on_scanline s.
Proof.
  unfold sprite_step, sprite_row. cbv zeta.
  rewrite (fold_left_keeps num_obj_on_scanline); [reflexivity|].
  intros s0 x0.
  match goal with |- context [sprite_pixel_step _ ?o ?p ?t ?ax _ _] =>
    destruct (sprite_pixel_step_confined o p t ax x0 s0)
      as [-> | (c & k & Hk & ->)] end; reflexivity.
Qed.

(** The sprite list after the first [m] turns of the loop of line 385, in
    which the entries [n - 1], ..., [n - m] were visited. *)
Lemma sprite_fold_objects h s (m : nat) :
  let n := num_obj_on_scanline s in
  Z.of_nat m <= n ->
  let s' := fold_left (fun s i => sprite_step color_table h i s)
              (seqZ 0 (Z.of_nat m)) s in
  num_obj_on_scanline s' = n /\
  forall k : nat,
    objects_on_scanline s' !! k =
      if (h =? 16) && (n - Z.of_nat m <=? Z.of_nat k) && (Z.of_nat k <? n)
      then even_tile <$> objects_on_scanline s !! k
      else objects_on_scanline s !! k.
Proof.
  cbv zeta. induction m as [|m IH]; intros Hm.
  - change (seqZ 0 (Z.of_nat 0)) with (@nil Z). cbn [fold_left].
    split; [reflexivity|]. intros k.
    destruct (h =? 16); [|reflexivity]. cbn [andb].
    destruct (Z.leb_spec (num_obj_on_scanline s - Z.of_nat 0) (Z.of_nat k)),
             (Z.ltb_spec (Z.of_nat k) (num_obj_on_scanline s));
      try reflexivity; lia.
  - replace (Z.of_nat (S m)) with (Z.of_nat m + 1) in * by lia.
    rewrite seqZ_app by lia. rewrite fold_left_app.
    change (seqZ (0 + Z.of_nat m) 1) with [0 + Z.of_nat m].
    cbn [fold_left]. rewrite Z.add_0_l.
    destruct (IH ltac:(lia)) as [IHn IHo]. clear IH.
    set (sm := fold_left _ (seqZ 0 (Z.of_nat m)) s) in *. clearbody sm.
    split; [rewrite sprite_step_num; exact IHn|].
    intros k. rewrite sprite_step_objects. cbv zeta. rewrite IHn.
    set (n := num_obj_on_scanline s) in *.
    set (k0 := Z.to_nat (n - 1 - Z.of_nat m)).
    assert (Z.of_nat k0 = n - 1 - Z.of_nat m) as Ek0 by (unfold k0; lia).
    destruct (Nat.eq_dec k k0) as [->|Hne].
    + assert (objects_on_scanline sm !! k0 = objects_on_scanline s !! k0) as E0.
      { rewrite IHo.
        destruct (Z.leb_spec (n - Z.of_nat m) (Z.of_nat k0)); [lia|].
        rewrite andb_false_r. reflexivity. }
      assert ((n - (Z.of_nat m + 1) <=? Z.of_nat k0) = true) as ->
        by (apply Z.leb_le; lia).
      assert ((Z.of_nat k0 <? n) = true) as -> by (apply Z.ltb_lt; lia).
      rewrite !andb_true_r.
      destruct (objects_on_scanline s !! k0) as [y|] eqn:Ey.
      * rewrite list_lookup_insert_eq
          by (apply lookup_lt_is_Some; eexists; exact E0).
        rewrite E0. cbn [default]. destruct (h =? 16); reflexivity.
      * rewrite list_insert_ge by (apply lookup_ge_None; exact E0).
        rewrite E0. destruct (h =? 16); reflexivity.
    + rewrite list_lookup_insert_ne by congruence. rewrite IHo.
      assert (Z.of_nat k <> Z.of_nat k0) as Hz by lia.
      destruct (h =? 16); [|reflexivity]. cbn [andb].
      destruct (Z.leb_spec (n - Z.of_nat m) (Z.of_nat k)),
               (Z.leb_spec (n - (Z.of_nat m + 1)) (Z.of_nat k));
        try reflexivity; lia.
Qed.

Lemma render_sprite_layer_objects (s : PPU) (k : nat) :
  0 <= num_obj_on_scanline s ->
  objects_on_scanline (render_sprite_layer color_table s) !! k =
    if sprites_on s && (sprite_height s =? 16) &&
       (Z.of_nat k <? num_obj_on_scanline s)
    then even_tile <$> objects_on_scanline s !! k
    else objects_on_scanline s !! k.
Proof.
  intros Hn. unfold render_sprite_layer. cbv zeta.
  change (test (lcd_control s) LCDControlFlags.SpriteEnable
          && test (render_flags s) DisplayRenderFlags.Objects) with (sprites_on s).
  destruct (sprites_on s); [|reflexivity]. cbn [andb].
  destruct (sprite_fold_objects (sprite_height s) s
              (Z.to_nat (num_obj_on_scanline s)) ltac:(cbv zeta; lia)) as [_ Ho].
  cbv zeta in Ho. rewrite Z2Nat.id in Ho by exact Hn. rewrite Ho.
  rewrite Z.sub_diag.
  assert ((0 <=? Z.of_nat k) = true) as -> by (apply Z.leb_le; lia).
  rewrite andb_true_r. reflexivity.
Qed.

End SpritePass.

Section ScanlineTheorems.
Variable color_table : Z -> Color.

(** X17.  The sprite pass draws over pixels of the current line only: the
    registers and memories, the mode machine, the shadow table, the sprite
    count, the window line counter and every pixel of another line are as
    before.  It works on the sprite list in place: with
    sprites 16 lines tall, each listed entry has bit 0 of its tile number
    cleared afterwards; with sprites 8 lines tall, or the pass off, the list
    is unchanged. *)
Theorem sprite_pass_in_place (s : PPU) :
  0 <= line_y s ->
  0 <= num_obj_on_scanline s <= Z.of_nat (length (objects_on_scanline s)) ->
  let s' := render_sprite_layer color_table s in
  overlaid s s' /\
  forall k : nat,
    objects_on_scanline s' !! k =
      if sprites_on s && (sprite_height s =? 16) &&
         (Z.of_nat k <? num_obj_on_scanline s)
      then even_tile <$> objects_on_scanline s !! k
      else objects_on_scanline s !! k.
Proof.
  intros Hl [Hn _] s'. split.
  - apply render_sprite_layer_overlaid. exact Hl.
  - intros k. apply render_sprite_layer_objects. exact Hn.
Qed.

(** X18.  One scanline, the three passes together: on a line of the screen
    [render_scanline] changes no pixel and no shadow entry of another line,
    none of the registers and memories and nothing of the mode machine; it
    leaves every column of the line with a shadow index from 0 to 3, and,
    when the sprite pass is off, with exactly the pixel of that index in the
    background palette. *)
Theorem scanline_stays_on_its_line (s : PPU) :
  0 <= line_y s < LCD_HEIGHT ->
  Z.of_nat (length (framebuffer s)) = LCD_WIDTH * LCD_HEIGHT * COLOR_DEPTH ->
  Z.of_nat (length (bg_color_table s)) = LCD_WIDTH * LCD_HEIGHT ->
  let s' := render_scanline color_table s in
  off_line_kept s s' /\ kept s' = kept s /\
  (forall j, 0 <= j < LCD_WIDTH ->
     0 <= rd (bg_color_table s') (line_y s * LCD_WIDTH + j) <= 3) /\
  (sprites_on s = false ->
   forall j, 0 <= j < LCD_WIDTH -> shadow_matches color_table s' j).
Proof.
  intros Hl Hfb Hbt. unfold render_scanline. cbv zeta.
  pose proof (render_bg_layer_line color_table s Hl Hfb Hbt) as H1.
  cbv zeta in H1.
  remember (render_bg_layer color_table s) as s1 eqn:E1 in *. clear E1.
  destruct H1 as (A1 & B1 & K1 & _ & L1 & L2).
  assert (0 <= line_y s1 < LCD_HEIGHT) as Hl1
    by (rewrite (kept_line_y _ _ K1); exact Hl).
  assert (Z.of_nat (length (framebuffer s1)) = LCD_WIDTH * LCD_HEIGHT * COLOR_DEPTH)
    as Hfb1 by (rewrite L1; exact Hfb).
  assert (Z.of_nat (length (bg_color_table s1)) = LCD_WIDTH * LCD_HEIGHT)
    as Hbt1 by (rewrite L2; exact Hbt).
  match goal with |- context [render_sprite_layer _ ?x] => set (s2 := x) end.
  assert ((forall j, 0 <= j < LCD_WIDTH -> shadow_matches color_table s2 j) /\
          off_line_kept s1 s2 /\ kept s2 = kept s1) as (A2 & B2 & K2).
  { subst s2. destruct (test (render_flags s1) DisplayRenderFlags.Window).
    - pose proof (render_window_layer_line color_table s1 Hl1 Hfb1 Hbt1) as H2.
      cbv zeta in H2.
      remember (render_window_layer color_table s1) as w eqn:Ew in *. clear Ew.
      destruct H2 as (A & _ & B & K & _).
      split; [|split; assumption]. intros j Hj. apply A; [exact Hj|].
      apply A1. exact Hj.
    - split; [exact A1|]. split; [|reflexivity].
      unfold off_line_kept. split; [reflexivity|]. intros; split; reflexivity. }
  clearbody s2.
  pose proof (kept_line_y _ _ K2) as El2. pose proof (kept_line_y _ _ K1) as El1.
  match goal with |- context [off_line_kept s ?x] => set (s3 := x) end.
  assert (overlaid s2 s3 /\ (sprites_on s2 = false -> s3 = s2)) as (O3 & N3).
  { subst s3. destruct (test (render_flags s2) DisplayRenderFlags.Objects) eqn:Eo.
    - split; [apply render_sprite_layer_overlaid; lia|].
      unfold render_sprite_layer, sprites_on. cbv zeta. intros ->. reflexivity.
    - split; [apply overlaid_refl|]. reflexivity. }
  clearbody s3.
  destruct O3 as (K3 & T3 & _ & _ & _ & Q3).
  pose proof (kept_line_y _ _ K3) as El3.
  destruct B1 as [_ B1]. destruct B2 as [_ B2].
  split; [|split; [|split]].
  - split; [congruence|]. intros q Hq Hout.
    destruct (B1 q Hq Hout) as [P1 R1].
    destruct (B2 q Hq ltac:(rewrite El1; exact Hout)) as [P2 R2].
    rewrite (Q3 q Hq ltac:(rewrite El2, El1; exact Hout)), T3.
    split; congruence.
  - congruence.
  - intros j Hj. destruct (A2 j Hj) as [R _]. cbv zeta in R.
    rewrite T3. rewrite <- El1, <- El2. exact R.
  - intros Hoff j Hj. rewrite N3; [apply A2; exact Hj|].
    unfold sprites_on in *. unfold kept, config, machine in K1, K2.
    assert (lcd_control s2 = lcd_control s) as -> by congruence.
    assert (render_flags s2 = render_flags s) as -> by congruence.
    exact Hoff.
Qed.

End ScanlineTheorems.

Lemma tall_sprite_listed :
  0 <= line_y tall_sprite /\
  0 <= num_obj_on_scanline tall_sprite <=
    Z.of_nat (length (objects_on_scanline tall_sprite)).
Proof. vm_compute. repeat split; intros H; discriminate H. Qed.

Lemma sprite_pass_in_place_witness :
  let s := tall_sprite in
  let s' := render_sprite_layer shades s in
  overlaid s s' /\
  forall k : nat,
    objects_on_scanline s' !! k =
      if sprites_on s && (sprite_height s =? 16) &&
         (Z.of_nat k <? num_obj_on_scanline s)
      then even_tile <$> objects_on_scanline s !! k
      else objects_on_scanline s !! k.
Proof.
  destruct tall_sprite_listed as [Hl Hn].
  apply (sprite_pass_in_place shades tall_sprite); assumption.
Defined.

Lemma scanline_stays_on_its_line_witness :
  let s := mid_line in
  let s' := render_scanline shades s in
  off_line_kept s s' /\ kept s' = kept s /\
  (forall j, 0 <= j < LCD_WIDTH ->
     0 <= rd (bg_color_table s') (line_y s * LCD_WIDTH + j) <= 3) /\
  (sprites_on s = false ->
   forall j, 0 <= j < LCD_WIDTH -> shadow_matches shades s' j).
Proof.
  destruct power_on_sized as (_ & _ & Hfb & _ & Hbt & _).
  apply (scanline_stays_on_its_line shades mid_line).
  - exact mid_line_on_screen.
  - exact Hfb.
  - exact Hbt.
Defined.

(** ** The VRAM addresses the passes read *)

Lemma tile_map_entry_reads s tm x y :
  tile_map_entry s tm x y = rd (vram s) (tile_map_index tm x y).
Proof. reflexivity. Qed.

Lemma sprite_step_reads (color_table : Z -> Color) h i s :
  sprite_step color_table h i s =
    let k := Z.to_nat ((num_obj_on_scanline s - 1) - i) in
    let o := default Object.zero (objects_on_scanline s !! k) in
    let o' := if h =? 16 then even_tile o else o in
    sprite_row color_table o'
      (if test (Object.attributes o) ObjectAttributeFlags.Palette
       then object_palette_1 s else object_palette_0 s)
      (sprite_tile_index h (line_y s) o') (Object.x o' - 8)
      (set_objects_on_scanline (<[k := o']> (objects_on_scanline s)) s).
Proof. reflexivity. Qed.

Lemma even_tile_byte t :
  0 <= t < 256 ->
  0 <= u8 (Z.land t (Z.lnot 1)) <= 254 /\ u8 (Z.land t (Z.lnot 1)) <= t.
Proof.
  intros Ht.
  assert (forallb (fun t => let t' := u8 (Z.land t (Z.lnot 1)) in
                     (0 <=? t') && (t' <=? 254) && (t' <=? t))
            (seqZ 0 256) = true) as H by (vm_compute; reflexivity).
  rewrite forallb_forall in H. specialize (H t ltac:(apply in_seqZ; lia)).
  cbv zeta in H. apply andb_true_iff in H. destruct H as [H H3].
  apply andb_true_iff in H. destruct H as [H1 H2].
  apply Z.leb_le in H1, H2, H3. lia.
Qed.

(** X19.  The tile-map entry of a background or window pixel is read inside
    the 1 KiB map that the control register selects, 0x1800 or 0x1C00 in
    VRAM, whatever the scroll and the column. *)
Theorem tile_map_in_range (tile_map_address x_offset y_offset : Z) :
  tile_map_address = 0x9800 \/ tile_map_address = 0x9c00 ->
  let index := tile_map_index tile_map_address x_offset y_offset in
  Z.land tile_map_address 0x1FFF <= index < Z.land tile_map_address 0x1FFF + 0x400 /\
  0x1800 <= index < 0x2000.
Proof.
  intros Htm. cbv zeta. unfold tile_map_index.
  assert (Z.land (x_offset / 8) 31 = (x_offset / 8) mod 32) as ->
    by (exact (Z.land_ones (x_offset / 8) 5 ltac:(lia))).
  assert (Z.land (y_offset / 8) 31 = (y_offset / 8) mod 32) as ->
    by (exact (Z.land_ones (y_offset / 8) 5 ltac:(lia))).
  pose proof (Z.mod_pos_bound (x_offset / 8) 32 ltac:(lia)).
  pose proof (Z.mod_pos_bound (y_offset / 8) 32 ltac:(lia)).
  destruct Htm as [-> | ->].
  - change (Z.land 38912 8191) with 6144. lia.
  - change (Z.land 39936 8191) with 7168. lia.
Qed.

(** X20.  For a sprite that is on the line, as the scan selects them, the
    sprite pass reads the two bytes of its row inside the 4 KiB of tile data
    at VRAM 0, for either sprite height and with or without the vertical
    flip: the row is that of the sprite's own tile, or of the pair of tiles
    of a sprite of height 16. *)
Theorem sprite_rows_in_range (height line : Z) (o : Object.t) :
  height = 8 \/ height = 16 ->
  0 <= Object.tile o < 256 ->
  on_line height line o = true ->
  let o' := if height =? 16 then even_tile o else o in
  let index := sprite_tile_index height line o' in
  Object.tile o' * 16 <= index /\
  index + 1 < Object.tile o' * 16 + height * 2 /\
  0 <= index /\ index + 1 < 0x1000.
Proof.
  intros Hh Ht Hon. cbv zeta.
  unfold on_line in Hon. cbv zeta in Hon.
  apply andb_true_iff in Hon. destruct Hon as [H1 H2].
  apply Z.leb_le in H1. apply Z.ltb_lt in H2.
  destruct (even_tile_byte _ Ht) as [Hm _].
  unfold sprite_tile_index. cbv zeta.
  change (Z.land 32768 8191) with 0.
  assert (Z.rem (line - (Object.y o - 16)) height = line - (Object.y o - 16))
    as Hrem by (apply Z.rem_small; lia).
  destruct o as [oy ox ot oa]. unfold even_tile, u16 in *.
  cbn [Object.y Object.tile Object.attributes Object.set_tile] in *.
  destruct Hh as [-> | ->].
  - change (8 =? 16) with false. cbv iota.
    cbn [Object.y Object.tile Object.attributes Object.set_tile].
    rewrite Hrem.
    destruct (test oa ObjectAttributeFlags.FlipY);
      rewrite Z.mod_small by lia; lia.
  - change (16 =? 16) with true. cbv iota.
    cbn [Object.y Object.tile Object.attributes Object.set_tile].
    rewrite Hrem.
    destruct (test oa ObjectAttributeFlags.FlipY);
      rewrite Z.mod_small by lia; lia.
Qed.

Lemma tile_map_in_range_witness :
  let index := tile_map_index 0x9c00 255 143 in
  Z.land 0x9c00 0x1FFF <= index < Z.land 0x9c00 0x1FFF + 0x400 /\
  0x1800 <= index < 0x2000.
Proof. apply (tile_map_in_range 0x9c00 255 143). right. reflexivity. Defined.

Lemma sprite_rows_in_range_witness :
  let o := Object.mk 20 8 255 64 in
  let o' := if 16 =? 16 then even_tile o else o in
  let index := sprite_tile_index 16 4 o' in
  Object.tile o' * 16 <= index /\
  index + 1 < Object.tile o' * 16 + 16 * 2 /\
  0 <= index /\ index + 1 < 0x1000.
Proof.
  apply (sprite_rows_in_range 16 4 (Object.mk 20 8 255 64)).
  - right. reflexivity.
  - cbn [Object.tile]. lia.
  - reflexivity.
Defined.

(** * Counting over a frame *)

Lemma crossings_shift (a b q : Z) :
  crossings (a + q * frame_cycles) (b + q * frame_cycles) = crossings a b.
Proof.
  unfold crossings, frame_cycles.
  replace (b + q * (154 * 456) - vblank_dot) with (b - vblank_dot + q * (154 * 456)) by lia.
  replace (a + q * (154 * 456) - vblank_dot) with (a - vblank_dot + q * (154 * 456)) by lia.
  rewrite !Z.div_add by lia. lia.
Qed.

Lemma crossings_add (a b c : Z) : crossings a b + crossings b c = crossings a c.
Proof. unfold crossings. lia. Qed.

(** A span of one frame passes the start of VBlank once, wherever it
    begins. *)
Lemma crossings_frame (a : Z) : crossings a (a + frame_cycles) = 1.
Proof.
  unfold crossings, frame_cycles.
  replace (a + 154 * 456 - vblank_dot) with (a - vblank_dot + 1 * (154 * 456)) by lia.
  rewrite Z.div_add by lia. lia.
Qed.

Section FrameCounts.
Variable color_table : Z -> Color.

(** One call of at most 80 cycles, from a state inside the frame with no
    transition due: it requests VBlank as often as the clock passes the start
    of VBlank, and it wraps the frame as often as the clock passes its end. *)
Lemma step_counts n s :
  display_on s = true -> in_frame s -> timely s -> 0 <= n <= 80 ->
  let s' := fst (step color_table n s) in
  Z.of_nat (vblank_requests (snd (step color_table n s))) =
    crossings (dot s) (dot s + n) /\
  (if wraps s s' then 1 else 0) = (dot s + n) / frame_cycles.
Proof.
  intros Hon [Hpd Hl] Ht Hn s'.
  pose proof (step_transition color_table n s Hon) as Htr.
  cbv zeta in Htr. fold s' in Htr. rewrite (wake_settled_id s Hpd) in Htr.
  unfold timely, dot, crossings, vblank_dot, frame_cycles, budget, wraps in *.
  assert (0 <= line_y s <= 153) as Hr by (destruct (mode s); lia).
  rewrite u32_small in Htr by (destruct (mode s); lia).
  rewrite (u8_id (line_y s + 1)) in Htr by lia.
  revert Htr.
  destruct (mode s) eqn:M; cbn [line_offset] in *;
    repeat match goal with |- context [?a <=? ?b] =>
      destruct (Z.leb_spec a b) end;
    repeat match goal with |- context [?a <? ?b] =>
      destruct (Z.ltb_spec a b) end;
    repeat match goal with |- context [?a =? ?b] =>
      destruct (Z.eqb_spec a b) end;
    intros Htr; injection Htr as E1 _ _ E4; rewrite E1, E4;
    repeat case_bool_decide; try congruence; cbn [andb Z.of_nat];
    (split; Z.div_mod_to_equations; lia).
Qed.

Lemma run_counts (ns : list Z) :
  forall s,
    display_on s = true -> in_frame s -> timely s ->
    Forall (fun n => 0 <= n <= 80) ns ->
    let tr := trace color_table ns s in
    Z.of_nat (vblank_requests (requests tr)) =
      crossings (dot s) (dot s + foldr Z.add 0 ns) /\
    Z.of_nat (wraparounds s tr) = (dot s + foldr Z.add 0 ns) / frame_cycles.
Proof.
  induction ns as [|n ns IH]; intros s Hon Hin Ht Hns; cbv zeta.
  - cbn [trace requests map concat wraparounds foldr vblank_requests count_occ Z.of_nat].
    rewrite Z.add_0_r. split; [unfold crossings; lia|].
    symmetry. apply Z.div_small.
    destruct Hin as [_ Hl]. unfold timely, dot, frame_cycles, budget in *.
    destruct (mode s); cbn [line_offset]; lia.
  - inversion Hns as [|? ? Hn Hns']; subst.
    cbn [trace]. cbv zeta. rewrite requests_cons. cbn [wraparounds fst snd foldr].
    rewrite vblank_requests_app.
    destruct (step_counts n s Hon Hin Ht Hn) as [Hv Hw]. cbv zeta in Hw.
    destruct (step_clock color_table n s Hon Hin Ht Hn) as (Hin1 & Ht1 & Hd1).
    destruct (IH (fst (step color_table n s))
                (eq_trans (step_display_on color_table n s) Hon) Hin1 Ht1 Hns')
      as [IHv IHw].
    cbv zeta in IHv, IHw.
    set (s1 := fst (step color_table n s)) in *.
    set (T := foldr Z.add 0 ns) in *.
    assert (dot s + n = dot s1 + ((dot s + n) / frame_cycles) * frame_cycles) as Hq.
    { rewrite Hd1. pose proof (Z.div_mod (dot s + n) frame_cycles
                                 ltac:(unfold frame_cycles; lia)). lia. }
    split.
    + rewrite Nat2Z.inj_add, Hv, IHv.
      rewrite <- (crossings_shift (dot s1) (dot s1 + T) ((dot s + n) / frame_cycles)).
      rewrite <- Hq.
      replace (dot s1 + T + (dot s + n) / frame_cycles * frame_cycles)
        with (dot s + (n + T)) by lia.
      apply crossings_add.
    + rewrite Nat2Z.inj_add, IHw.
      replace (dot s + (n + T))
        with (dot s1 + T + ((dot s + n) / frame_cycles) * frame_cycles) by lia.
      rewrite Z.div_add by (unfold frame_cycles; lia).
      rewrite <- Hw. destruct (wraps s s1); cbn [Z.of_nat]; lia.
Qed.

(** The call that ends the HBlank of line 143. *)
Lemma step_enters_vblank n a :
  display_on a = true -> previously_disabled a = false ->
  mode a = HBlank -> line_y a = 143 -> 204 <= u32 (cycles a + n) ->
  let r := step color_table n a in
  mode (fst r) = VBlank /\ line_y (fst r) = 144 /\
  enters_vblank a (fst r) = true /\ vblank_requests (snd r) = 1%nat.
Proof.
  intros Hon Hpd M L Hc. cbv zeta.
  pose proof (step_transition color_table n a Hon) as H. cbv zeta in H.
  rewrite (wake_settled_id a Hpd), M, L in H.
  destruct (Z.leb_spec 204 (u32 (cycles a + n))); [|lia].
  change (u8 (143 + 1) =? 144) with true in H. cbv iota in H.
  injection H as E1 E2 _ E4. unfold enters_vblank. rewrite E1, E2, E4, M.
  repeat split; try reflexivity.
Qed.

(** The call that ends line 153. *)
Lemma step_wraps n a :
  display_on a = true -> previously_disabled a = false ->
  mode a = VBlank -> line_y a = 153 -> 456 <= u32 (cycles a + n) ->
  let b := fst (step color_table n a) in
  wraps a b = true /\ mode b = OAMSearch /\ line_y b = 0 /\
  framebuffer_complete b = framebuffer a /\ framebuffer b = framebuffer a.
Proof.
  intros Hon Hpd M L Hc. cbv zeta.
  pose proof (step_transition color_table n a Hon) as H. cbv zeta in H.
  rewrite (wake_settled_id a Hpd), M, L in H.
  destruct (Z.leb_spec 456 (u32 (cycles a + n))); [|lia].
  change (153 <? u8 (153 + 1)) with true in H. cbv iota in H.
  injection H as E1 E2 _ _.
  assert (wraps a (fst (step color_table n a)) = true) as W.
  { unfold wraps. rewrite E1, M. reflexivity. }
  pose proof (step_commit color_table n a) as Hcm. cbv zeta in Hcm.
  rewrite W in Hcm. destruct Hcm as [C1 C2].
  repeat split; assumption.
Qed.

End FrameCounts.

Section FrameTheorems.
Variable color_table : Z -> Color.

(** C3.  In every run with the display on, each call requests the VBlank
    interrupt once if it takes the machine from HBlank to VBlank, where the
    line counter reaches 144, and not at all otherwise; between the start and
    the end of the run the requests and the frame wrap-arounds alternate; and
    the number a call makes does not depend on the status register, which
    holds the STAT enables and decides STAT blocking.  The request is made:
    the call that finds the machine in the HBlank of line 143 with the 204
    cycles of HBlank reached goes to VBlank at line 144 and requests the
    interrupt once.  Counted over a run of calls of at most 80 cycles from a
    state with no transition due, the requests are as many as the times the
    frame clock passes the start of VBlank, so that a run of the 70224 cycles
    of one frame has exactly one. *)
Theorem vblank_request_once_per_frame (ns : list Z) (s : PPU) :
  display_on s = true ->
  let tr := trace color_table ns s in
  chained (fun a b irq =>
             vblank_requests irq = (if enters_vblank a b then 1 else 0)%nat /\
             (enters_vblank a b = true -> line_y b = 144)) s tr /\
  (vblank_requests (requests tr) + in_vblank s =
   wraparounds s tr + in_vblank (final s tr))%nat /\
  (forall n a st,
     vblank_requests (snd (step color_table n (set_status st a))) =
     vblank_requests (snd (step color_table n a))) /\
  (forall n a,
     display_on a = true -> previously_disabled a = false ->
     mode a = HBlank -> line_y a = 143 -> 204 <= u32 (cycles a + n) ->
     let r := step color_table n a in
     mode (fst r) = VBlank /\ line_y (fst r) = 144 /\
     enters_vblank a (fst r) = true /\ vblank_requests (snd r) = 1%nat) /\
  (in_frame s -> timely s -> Forall (fun n => 0 <= n <= 80) ns ->
     Z.of_nat (vblank_requests (requests tr)) =
       crossings (dot s) (dot s + foldr Z.add 0 ns) /\
     (foldr Z.add 0 ns = frame_cycles -> vblank_requests (requests tr) = 1%nat)).
Proof.
  intros Hon tr. subst tr.
  split; [|split; [|split; [intros; apply step_vblank_status_blind|split]]].
  - revert s Hon. induction ns as [|n ns IH]; intros s Hon; cbn; [exact I|].
    destruct (step_vblank color_table n s Hon) as (H1 & H2 & _).
    split; [split; assumption|].
    apply IH. rewrite step_display_on. exact Hon.
  - revert s Hon. induction ns as [|n ns IH]; intros s Hon.
    + cbn. lia.
    + cbn [trace]. cbv zeta. rewrite requests_cons, final_cons.
      cbn [wraparounds fst snd]. rewrite vblank_requests_app.
      destruct (step_vblank color_table n s Hon) as (_ & _ & H3).
      specialize (IH (fst (step color_table n s))
                    (eq_trans (step_display_on color_table n s) Hon)).
      cbv zeta in H3. lia.
  - intros n a. apply step_enters_vblank.
  - intros Hin Ht Hns.
    destruct (run_counts color_table ns s Hon Hin Ht Hns) as [Hv _].
    cbv zeta in Hv. split; [exact Hv|].
    intros HT. rewrite HT, crossings_frame in Hv. lia.
Qed.

(** C7.  A call replaces the completed framebuffer only when it wraps the
    line counter from 153 to 0, leaving VBlank for OAMSearch; it then becomes
    the whole working framebuffer, which that call does not touch.  Every
    other call, with the display on or off, leaves the completed framebuffer
    as it was.  The copy is made: the call that finds the machine in VBlank
    at line 153 with the 456 cycles of the line reached wraps to OAMSearch at
    line 0 and leaves the completed framebuffer equal to the working one.
    Counted over a run of calls of at most 80 cycles from a state with no
    transition due, the wraps are as many as the times the frame clock passes
    the end of the frame, so that a run of the 70224 cycles of one frame has
    exactly one. *)
Theorem completed_framebuffer_commit (ns : list Z) (s : PPU) :
  display_on s = true -> in_frame s ->
  chained (fun a b _ =>
             if wraps a b
             then framebuffer_complete b = framebuffer a /\
                  framebuffer b = framebuffer a /\
                  line_y a = 153 /\ line_y b = 0
             else framebuffer_complete b = framebuffer_complete a)
    s (trace color_table ns s) /\
  (forall n a,
     let b := fst (step color_table n a) in
     if wraps a b
     then framebuffer_complete b = framebuffer a /\ framebuffer b = framebuffer a
     else framebuffer_complete b = framebuffer_complete a) /\
  (forall n a,
     display_on a = true -> previously_disabled a = false ->
     mode a = VBlank -> line_y a = 153 -> 456 <= u32 (cycles a + n) ->
     let b := fst (step color_table n a) in
     wraps a b = true /\ mode b = OAMSearch /\ line_y b = 0 /\
     framebuffer_complete b = framebuffer a /\ framebuffer b = framebuffer a) /\
  (timely s -> Forall (fun n => 0 <= n <= 80) ns ->
     Z.of_nat (wraparounds s (trace color_table ns s)) =
       (dot s + foldr Z.add 0 ns) / frame_cycles /\
     (foldr Z.add 0 ns = frame_cycles ->
      wraparounds s (trace color_table ns s) = 1%nat)).
Proof.
  intros Hon Hin.
  split; [|split; [intros; apply step_commit|split]].
  - clear - Hon Hin.
    revert s Hon Hin. induction ns as [|n ns IH]; intros s Hon Hin; cbn; [exact I|].
    destruct (step_successor color_table n s Hon Hin) as [Hs Hin'].
    split; [|apply IH; [rewrite step_display_on; exact Hon|exact Hin']].
    pose proof (step_commit color_table n s) as Hc. cbv zeta in Hc.
    destruct (wraps s (fst (step color_table n s))) eqn:W; [|exact Hc].
    destruct Hc as [H1 H2]. repeat split; try assumption.
    + unfold wraps in W. apply andb_true_iff in W as [W1 W2].
      apply bool_decide_eq_true in W1, W2.
      rewrite W1, W2 in Hs. inversion Hs. reflexivity.
    + unfold wraps in W. apply andb_true_iff in W as [W1 W2].
      apply bool_decide_eq_true in W1, W2.
      rewrite W1, W2 in Hs. inversion Hs. reflexivity.
  - intros n a. apply step_wraps.
  - intros Ht Hns.
    destruct (run_counts color_table ns s Hon Hin Ht Hns) as [_ Hw].
    cbv zeta in Hw. split; [exact Hw|].
    intros HT. rewrite HT in Hw.
    assert (0 <= dot s < frame_cycles) as Hd.
    { destruct Hin as [_ Hl]. unfold timely, dot, frame_cycles, budget in *.
      destruct (mode s); cbn [line_offset]; lia. }
    replace (dot s + frame_cycles) with (dot s + 1 * frame_cycles) in Hw by lia.
    rewrite Z.div_add in Hw by (unfold frame_cycles; lia).
    rewrite Z.div_small in Hw by exact Hd. lia.
Qed.

End FrameTheorems.

Lemma last_hblank_in_frame : in_frame last_hblank /\ timely last_hblank.
Proof.
  unfold in_frame, timely, last_hblank, post_boot, set_post_boot_state, power_on.
  proj_simpl. cbn [budget]. repeat split; try reflexivity; lia.
Qed.

Lemma frame_end_in_frame : in_frame frame_end /\ timely frame_end.
Proof.
  unfold in_frame, timely, frame_end, post_boot, set_post_boot_state, power_on.
  proj_simpl. cbn [budget]. repeat split; try reflexivity; lia.
Qed.

Lemma vblank_request_once_per_frame_witness :
  let s := last_hblank in
  let tr := trace shades [4; 80; 80] s in
  (display_on s = true /\ in_frame s /\ timely s) /\
  (mode s = HBlank /\ line_y s = 143 /\
   mode (fst (step shades 4 s)) = VBlank /\
   line_y (fst (step shades 4 s)) = 144 /\
   enters_vblank s (fst (step shades 4 s)) = true /\
   vblank_requests (snd (step shades 4 s)) = 1%nat) /\
  vblank_requests (requests tr) = 1%nat /\
  chained (fun a b irq =>
             vblank_requests irq = (if enters_vblank a b then 1 else 0)%nat /\
             (enters_vblank a b = true -> line_y b = 144)) s tr /\
  (vblank_requests (requests tr) + in_vblank s =
   wraparounds s tr + in_vblank (final s tr))%nat.
Proof.
  cbv zeta.
  destruct last_hblank_in_frame as [Hin Ht].
  assert (display_on last_hblank = true) as Hon by reflexivity.
  destruct (vblank_request_once_per_frame shades [4; 80; 80] last_hblank Hon)
    as (H1 & H2 & _ & H4 & H5).
  split; [split; [exact Hon|split; [exact Hin|exact Ht]]|].
  split.
  - split; [reflexivity|]. split; [reflexivity|].
    apply (H4 4 last_hblank Hon); reflexivity.
  - split; [|split; [exact H1|exact H2]].
    destruct (H5 Hin Ht ltac:(repeat constructor; lia)) as [Hv _].
    assert (crossings (dot last_hblank) (dot last_hblank + foldr Z.add 0 [4; 80; 80]) = 1)
      as E by (vm_compute; reflexivity).
    rewrite E in Hv. lia.
Defined.

Lemma completed_framebuffer_commit_witness :
  let s := frame_end in
  let tr := trace shades [6; 80] s in
  let b := fst (step shades 6 s) in
  (display_on s = true /\ in_frame s /\ timely s) /\
  (mode s = VBlank /\ line_y s = 153 /\
   wraps s b = true /\ mode b = OAMSearch /\ line_y b = 0 /\
   framebuffer_complete b = framebuffer s /\
   rd (framebuffer_complete s) 0 = 0 /\ rd (framebuffer_complete b) 0 = 255) /\
  wraparounds s tr = 1%nat /\
  chained (fun a b _ =>
             if wraps a b
             then framebuffer_complete b = framebuffer a /\
                  framebuffer b = framebuffer a /\
                  line_y a = 153 /\ line_y b = 0
             else framebuffer_complete b = framebuffer_complete a)
    s tr.
Proof.
  cbv zeta.
  destruct frame_end_in_frame as [Hin Ht].
  assert (display_on frame_end = true) as Hon by reflexivity.
  destruct (completed_framebuffer_commit shades [6; 80] frame_end Hon Hin)
    as (H1 & _ & H3 & H4).
  split; [split; [exact Hon|split; [exact Hin|exact Ht]]|].
  split.
  - split; [reflexivity|]. split; [reflexivity|].
    destruct (H3 6 frame_end Hon) as (W & M & L & C & _); try reflexivity.
    split; [exact W|]. split; [exact M|]. split; [exact L|]. split; [exact C|].
    split; [vm_compute; reflexivity|]. rewrite C. vm_compute. reflexivity.
  - split; [|exact H1].
    destruct (H4 Ht ltac:(repeat constructor; lia)) as [Hw _].
    assert ((dot frame_end + foldr Z.add 0 [6; 80]) / frame_cycles = 1)
      as E by (vm_compute; reflexivity).
    rewrite E in Hw. lia.
Defined.

(** ** The scan on a crowded line *)

Lemma crowded_line_sized : sized crowded_line.
Proof.
  unfold sized, LCD_WIDTH, LCD_HEIGHT, COLOR_DEPTH.
  split; [vm_compute; reflexivity|].
  split; [vm_compute; reflexivity|].
  split; [vm_compute; reflexivity|].
  split; [vm_compute; reflexivity|].
  split; [vm_compute; reflexivity|].
  vm_compute; reflexivity.
Qed.

Lemma scan_oam_selects_ten_sorted_witness :
  let s := crowded_line in
  let s' := scan_oam s in
  let chosen := take (Z.to_nat (num_obj_on_scanline s')) (objects_on_scanline s') in
  (sized s /\
   map Object.tile (eligible s) = [0; 1; 2; 3; 4; 5; 6; 7; 8; 9; 10; 11] /\
   map Object.tile (selected s) = [0; 1; 2; 3; 4; 5; 6; 7; 8; 9] /\
   map Object.tile chosen = [1; 3; 5; 7; 9; 0; 2; 4; 6; 8] /\
   map Object.x chosen = [8; 8; 8; 8; 8; 40; 40; 40; 40; 40]) /\
  eligible s =
    List.filter
      (fun o => (Object.y o - 16 <=? line_y s) &&
                (line_y s <? Object.y o - 16 + sprite_height s))
      (map (oam_entry s) (seqZ 0 40)) /\
  selected s = take 10 (eligible s) /\
  num_obj_on_scanline s' = Z.of_nat (length (selected s)) /\
  0 <= num_obj_on_scanline s' <= 10 /\
  chosen = stable_sort (selected s) /\
  Permutation chosen (selected s) /\
  StronglySorted le_x chosen /\
  (forall v, List.filter (has_x v) chosen = List.filter (has_x v) (selected s)) /\
  objects_on_scanline s' =
    chosen ++ replicate (10 - length (selected s)) Object.zero.
Proof.
  cbv zeta. split.
  - split; [exact crowded_line_sized|].
    split; [vm_compute; reflexivity|]. split; [vm_compute; reflexivity|].
    split; vm_compute; reflexivity.
  - apply (scan_oam_selects_ten_sorted crowded_line). exact crowded_line_sized.
Defined.

Lemma scan_oam_misses_nothing_witness :
  let s := crowded_line in
  let s' := scan_oam s in
  let chosen := take (Z.to_nat (num_obj_on_scanline s')) (objects_on_scanline s') in
  (sized s /\ num_obj_on_scanline s' = 10 /\
   map Object.tile chosen = [1; 3; 5; 7; 9; 0; 2; 4; 6; 8] /\
   on_line (sprite_height s) (line_y s) (oam_entry s 11) = true /\
   Object.tile (oam_entry s 11) = 11) /\
  Forall (fun o => on_line (sprite_height s) (line_y s) o = true) chosen /\
  (forall k, 0 <= k < 40 ->
     on_line (sprite_height s) (line_y s) (oam_entry s k) = true ->
     In (oam_entry s k) chosen \/ num_obj_on_scanline s' = 10) /\
  scan_oam s' = s'.
Proof.
  cbv zeta. split.
  - split; [exact crowded_line_sized|].
    split; [vm_compute; reflexivity|]. split; [vm_compute; reflexivity|].
    split; vm_compute; reflexivity.
  - apply (scan_oam_misses_nothing crowded_line). exact crowded_line_sized.
Defined.

(** ** C5: the sprite pass, turn by turn *)

Lemma plane_pixel_vram a b t c : vram a = vram b -> plane_pixel a t c = plane_pixel b t c.
Proof. unfold plane_pixel. intros ->. reflexivity. Qed.

Lemma even_tile_fields o :
  Object.attributes (even_tile o) = Object.attributes o /\
  Object.x (even_tile o) = Object.x o /\ Object.y (even_tile o) = Object.y o.
Proof. destruct o. repeat split; reflexivity. Qed.

Section SpriteTurns.
Variable color_table : Z -> Color.

Lemma sprite_pass_upto_S s i :
  0 <= i ->
  sprite_pass_upto color_table s (i + 1) =
  sprite_step color_table (sprite_height s) i (sprite_pass_upto color_table s i).
Proof.
  intros Hi. unfold sprite_pass_upto.
  rewrite seqZ_app by lia. rewrite fold_left_app.
  change (seqZ (0 + i) 1) with [0 + i]. cbn [fold_left]. rewrite Z.add_0_l.
  reflexivity.
Qed.

Lemma sprite_pass_upto_frame s i :
  0 <= line_y s -> 0 <= i <= num_obj_on_scanline s ->
  let a := sprite_pass_upto color_table s i in
  overlaid s a /\
  forall k : nat,
    Z.of_nat k < num_obj_on_scanline s - i ->
    objects_on_scanline a !! k = objects_on_scanline s !! k.
Proof.
  intros Hl Hi a. split.
  - subst a. unfold sprite_pass_upto.
    destruct (on_line_rel overlaid overlaid_refl overlaid_trans overlaid_line_y)
      as [Hr Ht].
    apply (fold_left_rel _ _ _ Hr Ht); [|exact Hl].
    intros s0 j H0. apply sprite_step_overlaid. exact H0.
  - intros k Hk.
    destruct (sprite_fold_objects color_table (sprite_height s) s (Z.to_nat i)
                ltac:(cbv zeta; lia)) as [_ Ho].
    cbv zeta in Ho. rewrite Z2Nat.id in Ho by lia.
    subst a. unfold sprite_pass_upto. rewrite Ho.
    destruct (Z.leb_spec (num_obj_on_scanline s - i) (Z.of_nat k)); [lia|].
    rewrite andb_false_r. reflexivity.
Qed.

Lemma render_sprite_layer_turns s :
  (sprites_on s = true ->
   render_sprite_layer color_table s =
     sprite_pass_upto color_table s (num_obj_on_scanline s)) /\
  (sprites_on s = false -> render_sprite_layer color_table s = s).
Proof.
  unfold render_sprite_layer, sprites_on, sprite_pass_upto. cbv zeta.
  split; intros ->; reflexivity.
Qed.

(** C5.  The sprite pass, when it runs, is the turns of its loop over the
    listed sprites, from the last entry of the list to the first, and every
    turn draws the eight pixels of one sprite row.  For every turn whose
    sprite has the two bytes of its row inside VRAM, as the sprites on the
    line have, and every pixel of it that falls on the screen, with the
    framebuffer taken before and after the turn: a pixel of colour index 0 leaves the framebuffer
    pixel as it was, whatever the priority attribute (the turn of the pixel
    loop changes nothing at all); a pixel of non-zero index of a sprite
    without the priority attribute is drawn; with the attribute it is drawn
    exactly when the shadow table holds 0 at that position, and otherwise
    the framebuffer pixel stays.  The pass does not write the shadow
    table. *)
Theorem sprite_pixel_priority (s : PPU) (i x : Z) :
  sized s -> 0 <= line_y s < LCD_HEIGHT ->
  num_obj_on_scanline s <= 10 -> 0 <= i < num_obj_on_scanline s ->
  0 <= x < 8 ->
  let o := sprite_of_turn s i in
  0 <= Object.x o - 8 + x < LCD_WIDTH ->
  let index := sprite_tile_index (sprite_height s) (line_y s) o in
  0 <= index /\ index + 1 < Z.of_nat (length (vram s)) ->
  let a := sprite_pass_upto color_table s i in
  let b := sprite_pass_upto color_table s (i + 1) in
  let pixel := plane_pixel s index (sprite_bit o x) in
  let prio := test (Object.attributes o) ObjectAttributeFlags.Priority in
  let p := line_y s * LCD_WIDTH + (Object.x o - 8 + x) in
  let shadow := rd (bg_color_table s) p in
  let color :=
    color_table (Z.land (Z.shiftr (sprite_palette s o) (2 * pixel)) 3) in
  let before := pixel_at (framebuffer a) p in
  let after := pixel_at (framebuffer b) p in
  ((sprites_on s = true ->
    render_sprite_layer color_table s =
      sprite_pass_upto color_table s (num_obj_on_scanline s)) /\
   (sprites_on s = false -> render_sprite_layer color_table s = s)) /\
  b = sprite_row color_table o (sprite_palette s o) index (Object.x o - 8)
        (set_objects_on_scanline
           (<[Z.to_nat (num_obj_on_scanline s - 1 - i) := o]>
              (objects_on_scanline a)) a) /\
  bg_color_table b = bg_color_table s /\
  after = sprite_rule pixel prio shadow color before /\
  (pixel = 0 ->
     after = before /\
     forall t, vram t = vram s ->
       sprite_pixel_step color_table o (sprite_palette s o) index
         (Object.x o - 8) x t = t) /\
  (pixel <> 0 -> prio = false -> after = color) /\
  (pixel <> 0 -> prio = true ->
     (shadow = 0 -> after = color) /\ (shadow <> 0 -> after = before)).
Proof.
  intros Hs Hl Hten Hi Hx o Hon index _ a b pixel prio p shadow color before after.
  split; [apply render_sprite_layer_turns|].
  destruct Hs as (_ & _ & Hfb & _ & _ & _).
  destruct (sprite_pass_upto_frame s i ltac:(lia) ltac:(lia)) as [Ho Hobj].
  fold a in Ho, Hobj.
  destruct Ho as (K & Hbt & Hnum & _ & Hlen & _).
  pose proof (kept_line_y _ _ K) as El.
  assert (vram a = vram s /\ object_palette_0 a = object_palette_0 s /\
          object_palette_1 a = object_palette_1 s) as (Ev & Ep0 & Ep1)
    by (unfold kept, config in K; repeat split; congruence).
  (* the entry the turn takes from the list is the one of the list of [s] *)
  assert (b = sprite_row color_table o (sprite_palette s o) index (Object.x o - 8)
                (set_objects_on_scanline
                   (<[Z.to_nat (num_obj_on_scanline s - 1 - i) := o]>
                      (objects_on_scanline a)) a)) as Eb.
  { subst b. rewrite sprite_pass_upto_S by lia. fold a.
    rewrite sprite_step_reads. cbv zeta. rewrite Hnum, El.
    rewrite (Hobj (Z.to_nat (num_obj_on_scanline s - 1 - i))) by lia.
    fold (sprite_of_turn s i). fold o.
    assert (Object.attributes
              (default Object.zero
                 (objects_on_scanline s !! Z.to_nat (num_obj_on_scanline s - 1 - i)))
            = Object.attributes o) as ->.
    { subst o. unfold sprite_of_turn. cbv zeta.
      destruct (sprite_height s =? 16); [|reflexivity].
      symmetry. apply even_tile_fields. }
    unfold sprite_palette, index. rewrite Ep0, Ep1. reflexivity. }
  split; [exact Eb|].
  set (a1 := set_objects_on_scanline
               (<[Z.to_nat (num_obj_on_scanline s - 1 - i) := o]>
                  (objects_on_scanline a)) a) in *.
  assert (framebuffer a1 = framebuffer a /\ bg_color_table a1 = bg_color_table s /\
          line_y a1 = line_y s /\ vram a1 = vram s) as (Ef1 & Eb1 & El1 & Ev1)
    by (subst a1; proj_simpl; repeat split; assumption).
  pose proof (sprite_row_priority color_table o (sprite_palette s o) index
                (Object.x o - 8) a1 x) as R.
  cbv zeta in R. rewrite <- Eb in R.
  rewrite Ef1, Eb1, El1, (plane_pixel_vram a1 s _ _ Ev1) in R.
  fold pixel p in R. fold shadow color before after prio in R.
  destruct R as (R1 & R2 & R3 & R4 & R5).
  { rewrite Hlen. exact Hfb. }
  { exact Hl. }
  { exact Hx. }
  { exact Hon. }
  split; [exact R1|]. split; [exact R2|]. split; [|split; [exact R4|exact R5]].
  intros E0. split; [apply (R3 E0)|].
  intros t Et.
  rewrite (sprite_pixel_step_on_screen color_table o (sprite_palette s o) index
             (Object.x o - 8) x t) by (unfold LCD_WIDTH in Hon; exact Hon).
  rewrite (plane_pixel_vram t s _ _ Et). fold pixel. rewrite E0. reflexivity.
Qed.

End SpriteTurns.

(** ** The sprite pass on a line with one sprite *)

Ltac sized_by_computation :=
  unfold sized, LCD_WIDTH, LCD_HEIGHT, COLOR_DEPTH;
  repeat (split; [vm_compute; reflexivity|]); vm_compute; reflexivity.

Ltac bounds_by_computation :=
  vm_compute; repeat split; intros H; discriminate H.

Lemma sprite_line_bare_ready :
  sized sprite_line_bare /\ 0 <= line_y sprite_line_bare < LCD_HEIGHT /\
  num_obj_on_scanline sprite_line_bare <= 10 /\
  0 <= 0 < num_obj_on_scanline sprite_line_bare.
Proof.
  split; [sized_by_computation|]. split; [bounds_by_computation|].
  split; bounds_by_computation.
Qed.

Lemma sprite_line_painted_ready :
  let s := sprite_line_painted shades in
  sized s /\ 0 <= line_y s < LCD_HEIGHT /\
  num_obj_on_scanline s <= 10 /\ 0 <= 0 < num_obj_on_scanline s.
Proof.
  cbv zeta. split; [sized_by_computation|]. split; [bounds_by_computation|].
  split; bounds_by_computation.
Qed.

Lemma sprite_line_front_ready :
  let s := sprite_line_front shades in
  sized s /\ 0 <= line_y s < LCD_HEIGHT /\
  num_obj_on_scanline s <= 10 /\ 0 <= 0 < num_obj_on_scanline s.
Proof.
  cbv zeta. split; [sized_by_computation|]. split; [bounds_by_computation|].
  split; bounds_by_computation.
Qed.

Lemma sprite_pixel_priority_witness :
  let bare := sprite_line_bare in
  let painted := sprite_line_painted shades in
  let front := sprite_line_front shades in
  (sized bare /\ sprites_on bare = true /\ num_obj_on_scanline bare = 1 /\
   render_sprite_layer shades bare =
     sprite_pass_upto shades bare (num_obj_on_scanline bare)) /\
  (sprite_pixel_view shades bare 0 3 =
     (1, true, 0, shades 3, mkColor 0 0 0 0, shades 3) /\
   sprite_pixel_view shades bare 0 5 =
     (0, true, 0, shades 0, mkColor 0 0 0 0, mkColor 0 0 0 0) /\
   sprite_pixel_view shades painted 0 3 =
     (1, true, 1, shades 3, shades 1, shades 1) /\
   sprite_pixel_view shades front 0 3 =
     (1, false, 1, shades 3, shades 1, shades 3)) /\
  (let '(pixel, prio, shadow, color, before, after) :=
     sprite_pixel_view shades bare 0 3 in
   after = sprite_rule pixel prio shadow color before) /\
  (let '(pixel, prio, shadow, color, before, after) :=
     sprite_pixel_view shades bare 0 5 in
   after = sprite_rule pixel prio shadow color before) /\
  (let '(pixel, prio, shadow, color, before, after) :=
     sprite_pixel_view shades painted 0 3 in
   after = sprite_rule pixel prio shadow color before) /\
  (let '(pixel, prio, shadow, color, before, after) :=
     sprite_pixel_view shades front 0 3 in
   after = sprite_rule pixel prio shadow color before).
Proof.
  cbv zeta.
  destruct sprite_line_bare_ready as (Sb & Lb & Tb & Ib).
  destruct sprite_line_painted_ready as (Sp & Lp & Tp & Ip).
  destruct sprite_line_front_ready as (Sf & Lf & Tf & If).
  pose proof (sprite_pixel_priority shades sprite_line_bare 0 3
                Sb Lb Tb Ib ltac:(lia)) as B3.
  pose proof (sprite_pixel_priority shades sprite_line_bare 0 5
                Sb Lb Tb Ib ltac:(lia)) as B5.
  pose proof (sprite_pixel_priority shades (sprite_line_painted shades) 0 3
                Sp Lp Tp Ip ltac:(lia)) as P3.
  pose proof (sprite_pixel_priority shades (sprite_line_front shades) 0 3
                Sf Lf Tf If ltac:(lia)) as F3.
  cbv zeta in B3, B5, P3, F3.
  destruct B3 as ((E & _) & _ & _ & B3 & _); [bounds_by_computation ..|].
  destruct B5 as (_ & _ & _ & B5 & _); [bounds_by_computation ..|].
  destruct P3 as (_ & _ & _ & P3 & _); [bounds_by_computation ..|].
  destruct F3 as (_ & _ & _ & F3 & _); [bounds_by_computation ..|].
  split.
  { split; [exact Sb|]. split; [reflexivity|].
    split; [vm_compute; reflexivity|]. apply E. reflexivity. }
  split.
  { split; [vm_compute; reflexivity|]. split; [vm_compute; reflexivity|].
    split; vm_compute; reflexivity. }
  unfold sprite_pixel_view. cbv beta iota zeta.
  split; [exact B3|]. split; [exact B5|]. split; [exact P3|exact F3].
Defined.
